(** * Dodo payments integration of Ghost: catalog reconciliation and webhooks

    A shallow embedding of [DodoAPI.js] (the HTTP client of the payment
    provider), of [PaymentsService] (resolve-or-create of customers,
    products, prices and coupons, and the checkout link) and of
    [DodoWebhookController] (the webhook endpoint and its handlers),
    followed by the properties of the specification that these three
    classes decide.

    Asynchronous calls run one after the other, so [await] is sequencing in a
    state-and-exception monad over one [World]: the cache tables, the
    collaborators' stores, the provider, and the requests and log lines
    written so far.

    Three collaborators are not part of these sources and are modelled: the
    member repository and the tier service, as keyed stores whose calls may
    fail, and the provider, which the code sees through [fetch] only.  The
    provider of a world is any function from the requests received so far to
    a response; the reference provider is one such function. *)

From Stdlib Require Import List String Ascii ZArith Bool Arith Lia.
Import ListNotations.

Local Open Scope string_scope.
Local Open Scope list_scope.

(** ** JavaScript values *)

(** Truthiness of a string that may be [undefined] or [null]: the empty
    string is falsy too. *)
Definition truthy (s : option string) : bool :=
  match s with
  | Some s => negb (s =? "")%string
  | None => false
  end.

(** Truthiness of a number that may be absent: zero is falsy. *)
Definition truthyZ (n : option Z) : bool :=
  match n with
  | Some n => negb (n =? 0)%Z
  | None => false
  end.

(** A value interpolated in a template string. *)
Definition show (s : option string) : string :=
  match s with
  | Some s => s
  | None => "undefined"
  end.

Definition lower_ascii (c : ascii) : ascii :=
  let n := nat_of_ascii c in
  if ((65 <=? n)%nat && (n <=? 90)%nat)%bool then ascii_of_nat (n + 32) else c.

(** [String.prototype.toLowerCase] on the ASCII letters, which is what
    currency codes are made of. *)
Fixpoint toLowerCase (s : string) : string :=
  match s with
  | EmptyString => EmptyString
  | String c r => String (lower_ascii c) (toLowerCase r)
  end.

Definition option_eqb {A} (eqb : A -> A -> bool) (x y : option A) : bool :=
  match x, y with
  | Some a, Some b => eqb a b
  | _, _ => false
  end.

(** A string as the sequence of its UTF-16 code units, for the code that
    counts or cuts them: [length] and [substring] of JavaScript go by code
    units, and a character outside ASCII is one or two of them whatever the
    number of its bytes. *)
Definition CodeUnits := list N.

(** The code units of a text in ASCII: one for each character. *)
Definition code_units (s : string) : CodeUnits :=
  map N_of_ascii (list_ascii_of_string s).

(** ** Errors *)

Inductive ErrorType :=
| BadRequestError
| TypeError
| RangeError
| SyntaxError
| NetworkError
| RepositoryError
| OutOfFuel.

Record JsError := mkError {
  errorType : ErrorType;
  message : string;
  statusCode : option nat }.

(** [new BadRequestError({message})]: the class's default status is 400. *)
Definition badRequest (msg : string) : JsError :=
  mkError BadRequestError msg (Some 400).

Definition typeError (msg : string) : JsError := mkError TypeError msg None.

(** ** Data model *)

Inductive Cadence := Month | Year.

Definition cadence_str (c : Cadence) : string :=
  match c with Month => "month" | Year => "year" end.

Record Tier := mkTier {
  tier_id : string;
  tier_name : string;
  tier_currency : string;
  tier_monthlyPrice : Z;
  tier_yearlyPrice : Z;
  tier_trialDays : option Z;
  tier_type : string }.

(** Modelled from the spec: the class [Tier] is not part of the sources;
    [tier.getPrice(cadence)] is the price of the tier for the cadence. *)
Definition getPrice_of (t : Tier) (c : Cadence) : Z :=
  match c with Month => tier_monthlyPrice t | Year => tier_yearlyPrice t end.

(** The offer handed to [getPaymentLink]; [offer_tier] is [offer.tier.id]. *)
Record Offer := mkOffer {
  offer_id : string;
  offer_tier : string;
  offer_type : string;
  offer_amount : Z }.

(** What [offersAPI.getOffer] returns. *)
Record OfferDTO := mkOfferDTO {
  dto_id : string;
  dto_name : string;
  dto_type : string;
  dto_amount : Z;
  dto_currency : option string;
  dto_duration : string;
  dto_duration_in_months : option Z }.

Record Member := mkMember {
  member_id : string;
  member_email : string;
  member_name : option string;
  member_status : string;
  member_subscribed : bool;
  member_tier : option string }.

(** The argument of [memberRepository.update]: an absent key, or one that
    holds [undefined], is [None]; a key that holds [null] is [Some None],
    as [tier_id: null]. *)
Record MemberPatch := mkPatch {
  p_status : option string;
  p_subscribed : option bool;
  p_tier_id : option (option string);
  p_email : option (option string);
  p_name : option (option string) }.

Definition noPatch : MemberPatch := mkPatch None None None None None.

(** *** Cache tables *)

Record DodoCustomerRow := mkCustomerRow {
  cr_member_id : string;
  cr_customer_id : option string;
  cr_email : option string;
  cr_name : option string }.

Record DodoProductRow := mkProductRow {
  prod_product_id : option string;
  prod_dodo_product_id : string }.

Record DodoPriceRow := mkPriceRow {
  pr_id : nat;
  pr_dodo_price_id : string;
  pr_dodo_product_id : string;
  pr_active : option bool;
  pr_nickname : option string;
  pr_currency : string;
  pr_amount : Z;
  pr_type : string;
  pr_interval : option string }.

Record OfferRow := mkOfferRow {
  or_id : string;
  or_dodo_coupon_id : option string;
  or_discount_type : string }.

(** ** The provider's HTTP interface *)

Record SessionData := mkSessionData {
  sd_price_id : string;
  sd_success_url : string;
  sd_cancel_url : string;
  sd_metadata : list (string * string);
  sd_mode : string;
  sd_customer_id : option string;
  sd_customer_email : option string;
  sd_trial_period_days : option Z;
  sd_coupon_id : option string }.

Record PriceData := mkPriceData {
  pd_product_id : string;
  pd_currency : string;
  pd_unit_amount : Z;
  pd_recurring : option string;
  pd_nickname : string;
  pd_active : bool }.

Record CouponData := mkCouponData {
  cd_name : string;
  cd_discount_type : string;
  cd_discount_value : option Z;
  cd_currency : option string;
  cd_duration : string;
  cd_duration_in_months : option Z }.

(** A request is its method, its endpoint and its body. *)
Inductive Request :=
| PostCheckoutSession (d : SessionData)
| PostCustomer (email : string) (name : option string)
| GetCustomer (id : option string)
| PostProduct (name description type : string)
| GetProduct (id : string)
| PostPrice (d : PriceData)
| GetPrice (id : string)
| PostCoupon (d : CouponData).

(** The body of a response, with the fields the client reads.  A field the
    client defends against ([active], [deleted], [recurring], [message]) may
    be absent; [j_recurring] is [recurring.interval]. *)
Record Json := mkJson {
  j_id : string;
  j_email : string;
  j_name : string;
  j_deleted : option bool;
  j_active : option bool;
  j_currency : string;
  j_unit_amount : Z;
  j_nickname : string;
  j_recurring : option string;
  j_checkout_url : string;
  j_message : option string }.

(** What [fetch] followed by [response.json()] gives: a network failure, or
    a response whose body may fail to parse. *)
Inductive FetchResult :=
| FetchFailed (e : JsError)
| Response (ok : bool) (status : nat) (body : option Json).

(** ** Webhook events *)

(** The object under [event.data.object]: a payment, a subscription, a
    customer or an invoice.  A key the payload does not carry is [None].
    [email] and [name] are compared with [!==], which tells [null] from
    [undefined]: for them [None] is [undefined], [Some None] is [null]. *)
Record EventObject := mkObject {
  o_id : option string;
  o_customer : option string;
  o_customer_email : option string;
  o_status : option string;
  o_price_id : option string;
  o_email : option (option string);
  o_name : option (option string);
  o_payment_intent : option string;
  o_amount : option Z;
  o_amount_paid : option Z;
  o_amount_due : option Z }.

(** What stands where an object is read from: [undefined] or [null]. *)
Inductive Nullish := Undefined | Null.

(** What [event.data.object] finds: [NoData] when [event.data] is
    [undefined] or [null], so that the read of [object] throws; [NoObject]
    when [event.data] has no object under [object], so that the read gives
    [undefined] or [null]; the object otherwise. *)
Inductive EventData :=
| NoData (data : Nullish)
| NoObject (object : Nullish)
| Object (o : EventObject).

(** A parsed event: a JSON object.  [ev_type] is [None] when the object has
    no [type]. *)
Record WebhookEvent := mkEvent {
  ev_type : option string;
  ev_data : EventData }.

(** The object of the event, when it carries one. *)
Definition ev_data_object (event : WebhookEvent) : option EventObject :=
  match ev_data event with
  | Object o => Some o
  | _ => None
  end.

Inductive Level := Info | Warn | Error.

(** ** The world *)

(** [provider] answers a request from the requests it has received before,
    most recent first; [sent] and [log] are most recent first as well.
    [faults] schedules the failures of the member repository and of the tier
    service: each of their calls takes the head, and throws when it is
    [true].  [createHmac] is [crypto.createHmac('sha256', secret)
    .update(payload).digest('hex')], and [JSON_parse] is [JSON.parse] on the
    text of a webhook, [None] when it throws. *)
Record World := mkWorld {
  DodoCustomerModel : list DodoCustomerRow;
  DodoProductModel : list DodoProductRow;
  DodoPriceModel : list DodoPriceRow;
  OfferModel : list OfferRow;
  offersAPI : list OfferDTO;
  memberRepository : list Member;
  tiersService : list Tier;
  faults : list bool;
  provider : list Request -> Request -> FetchResult;
  createHmac : string -> string -> string;
  JSON_parse : string -> option WebhookEvent;
  sent : list Request;
  log : list (Level * string) }.

Definition with_customers (f : list DodoCustomerRow -> list DodoCustomerRow) (w : World) : World :=
  mkWorld (f (DodoCustomerModel w)) (DodoProductModel w) (DodoPriceModel w)
    (OfferModel w) (offersAPI w) (memberRepository w) (tiersService w)
    (faults w) (provider w) (createHmac w) (JSON_parse w) (sent w) (log w).

Definition with_products (f : list DodoProductRow -> list DodoProductRow) (w : World) : World :=
  mkWorld (DodoCustomerModel w) (f (DodoProductModel w)) (DodoPriceModel w)
    (OfferModel w) (offersAPI w) (memberRepository w) (tiersService w)
    (faults w) (provider w) (createHmac w) (JSON_parse w) (sent w) (log w).

Definition with_prices (f : list DodoPriceRow -> list DodoPriceRow) (w : World) : World :=
  mkWorld (DodoCustomerModel w) (DodoProductModel w) (f (DodoPriceModel w))
    (OfferModel w) (offersAPI w) (memberRepository w) (tiersService w)
    (faults w) (provider w) (createHmac w) (JSON_parse w) (sent w) (log w).

Definition with_offers (f : list OfferRow -> list OfferRow) (w : World) : World :=
  mkWorld (DodoCustomerModel w) (DodoProductModel w) (DodoPriceModel w)
    (f (OfferModel w)) (offersAPI w) (memberRepository w) (tiersService w)
    (faults w) (provider w) (createHmac w) (JSON_parse w) (sent w) (log w).

Definition with_members (f : list Member -> list Member) (w : World) : World :=
  mkWorld (DodoCustomerModel w) (DodoProductModel w) (DodoPriceModel w)
    (OfferModel w) (offersAPI w) (f (memberRepository w)) (tiersService w)
    (faults w) (provider w) (createHmac w) (JSON_parse w) (sent w) (log w).

Definition with_faults (f : list bool -> list bool) (w : World) : World :=
  mkWorld (DodoCustomerModel w) (DodoProductModel w) (DodoPriceModel w)
    (OfferModel w) (offersAPI w) (memberRepository w) (tiersService w)
    (f (faults w)) (provider w) (createHmac w) (JSON_parse w) (sent w) (log w).

Definition with_sent (f : list Request -> list Request) (w : World) : World :=
  mkWorld (DodoCustomerModel w) (DodoProductModel w) (DodoPriceModel w)
    (OfferModel w) (offersAPI w) (memberRepository w) (tiersService w)
    (faults w) (provider w) (createHmac w) (JSON_parse w) (f (sent w)) (log w).

Definition with_log (f : list (Level * string) -> list (Level * string)) (w : World) : World :=
  mkWorld (DodoCustomerModel w) (DodoProductModel w) (DodoPriceModel w)
    (OfferModel w) (offersAPI w) (memberRepository w) (tiersService w)
    (faults w) (provider w) (createHmac w) (JSON_parse w) (sent w) (f (log w)).

(** ** The monad of asynchronous code *)

Inductive Res (A : Type) :=
| Ok (a : A)
| Throw (e : JsError).

Arguments Ok {A} a.
Arguments Throw {A} e.

Definition M (A : Type) : Type := World -> Res A * World.

Definition ret {A} (a : A) : M A := fun w => (Ok a, w).

Definition throw {A} (e : JsError) : M A := fun w => (Throw e, w).

Definition bind {A B} (m : M A) (f : A -> M B) : M B :=
  fun w =>
    match m w with
    | (Ok a, w') => f a w'
    | (Throw e, w') => (Throw e, w')
    end.

(** [try { m } catch (err) { h err }] *)
Definition try_catch {A} (m : M A) (h : JsError -> M A) : M A :=
  fun w =>
    match m w with
    | (Ok a, w') => (Ok a, w')
    | (Throw e, w') => h e w'
    end.

Definition get {A} (f : World -> A) : M A := fun w => (Ok (f w), w).

Definition modify (f : World -> World) : M unit := fun w => (Ok tt, f w).

Notation "x <- m ;; k" := (bind m (fun x => k))
  (at level 61, m at next level, right associativity).
Notation "m ;; k" := (bind m (fun _ => k))
  (at level 61, right associativity).

Definition logging (l : Level) (msg : string) : M unit :=
  modify (with_log (cons (l, msg))).

(** ** DodoAPI.js *)

(** What the client hands back to its callers. *)
Record Customer := mkCustomer {
  c_id : option string;
  c_email : option string;
  c_name : option string;
  c_deleted : bool }.

Record Product := mkProduct {
  product_id : string;
  product_name : string;
  product_active : bool }.

Record Price := mkPrice {
  price_id : string;
  price_currency : string;
  price_unit_amount : Z;
  price_active : option bool;
  price_nickname : option string;
  price_recurring : option string }.

Record Coupon := mkCoupon {
  coupon_id : string;
  coupon_name : string }.

Record Session := mkSession {
  session_id : string;
  session_url : string }.

(** The [data] object that [getPaymentLink] builds; a deleted key is
    [None]. *)
Record CheckoutData := mkCheckoutData {
  data_metadata : option (list (string * string));
  data_successUrl : string;
  data_cancelUrl : string;
  data_trialDays : option Z;
  data_coupon : option string;
  data_customerEmail : option string }.

(** [delete data.trialDays] *)
Definition delete_trialDays (d : CheckoutData) : CheckoutData :=
  mkCheckoutData (data_metadata d) (data_successUrl d) (data_cancelUrl d)
    None (data_coupon d) (data_customerEmail d).

(** [data.customerEmail = email] *)
Definition set_customerEmail (email : option string) (d : CheckoutData) : CheckoutData :=
  mkCheckoutData (data_metadata d) (data_successUrl d) (data_cancelUrl d)
    (data_trialDays d) (data_coupon d) email.

(** The [couponData] object of [createCouponForOffer]. *)
Record CouponInput := mkCouponInput {
  ci_name : string;
  ci_duration : string;
  ci_duration_in_months : option Z;
  ci_percent_off : option Z;
  ci_amount_off : option Z;
  ci_currency : option string }.

(** The [priceData] object of [createPriceForTierCadence]. *)
Record PriceInput := mkPriceInput {
  pi_product : string;
  pi_interval : string;
  pi_currency : string;
  pi_amount : Z;
  pi_nickname : string;
  pi_type : string;
  pi_active : bool }.

Module DodoAPI.

(** [fetch], [response.json()], the [response.ok] test, and the [catch]
    that logs and rethrows. *)
Definition makeRequest (rq : Request) : M Json :=
  try_catch
    (fun w =>
       let w' := with_sent (cons rq) w in
       match provider w (sent w) rq with
       | FetchFailed e => (Throw e, w')
       | Response _ _ None =>
           (Throw (mkError SyntaxError "Unexpected token in JSON" None), w')
       | Response ok status (Some responseData) =>
           if ok then (Ok responseData, w')
           else (Throw (mkError BadRequestError
                          ("Dodo API Error: " ++
                           match j_message responseData with
                           | Some m => if (m =? "")%string then "Unknown error" else m
                           | None => "Unknown error"
                           end)%string
                          (Some status)), w')
       end)
    (fun error =>
       logging Error ("Dodo API request failed: " ++ message error)%string ;;
       throw error).

Definition createCheckoutSession (priceId : string) (customer : option Customer)
    (data : CheckoutData) : M Session :=
  let sessionData :=
    mkSessionData priceId (data_successUrl data) (data_cancelUrl data)
      (match data_metadata data with Some m => m | None => [] end)
      "subscription"
      (match customer with Some c => c_id c | None => None end)
      (match customer with
       | Some _ => None
       | None => if truthy (data_customerEmail data) then data_customerEmail data else None
       end)
      (if truthyZ (data_trialDays data) then data_trialDays data else None)
      (if truthy (data_coupon data) then data_coupon data else None) in
  session <- makeRequest (PostCheckoutSession sessionData) ;;
  ret (mkSession (j_id session) (j_checkout_url session)).

Definition createCustomer (email : string) (name : option string) : M Customer :=
  customer <- makeRequest (PostCustomer email name) ;;
  ret (mkCustomer (Some (j_id customer)) (Some (j_email customer))
         (Some (j_name customer)) false).

Definition getCustomer (customerId : option string) : M Customer :=
  try_catch
    (customer <- makeRequest (GetCustomer customerId) ;;
     ret (mkCustomer (Some (j_id customer)) (Some (j_email customer))
            (Some (j_name customer))
            (match j_deleted customer with Some d => d | None => false end)))
    (fun error =>
       match statusCode error with
       | Some 404 => ret (mkCustomer None None None true)
       | _ => throw error
       end).

Definition createProduct (name : string) : M Product :=
  product <- makeRequest (PostProduct name "" "service") ;;
  ret (mkProduct (j_id product) (j_name product)
         (match j_active product with Some false => false | _ => true end)).

Definition getProduct (productId : string) : M Product :=
  product <- makeRequest (GetProduct productId) ;;
  ret (mkProduct (j_id product) (j_name product)
         (match j_active product with Some false => false | _ => true end)).

Definition createPrice (priceData : PriceInput) : M Price :=
  price <- makeRequest (PostPrice
    (mkPriceData (pi_product priceData)
       (toLowerCase (pi_currency priceData))
       (pi_amount priceData)
       (if (pi_type priceData =? "recurring")%string
        then Some (pi_interval priceData) else None)
       (pi_nickname priceData)
       (pi_active priceData))) ;;
  ret (mkPrice (j_id price) (j_currency price) (j_unit_amount price)
         (j_active price) (Some (j_nickname price)) (j_recurring price)).

Definition getPrice (priceId : string) : M Price :=
  price <- makeRequest (GetPrice priceId) ;;
  ret (mkPrice (j_id price) (j_currency price) (j_unit_amount price)
         (j_active price) None (j_recurring price)).

Definition createCoupon (couponData : CouponInput) : M Coupon :=
  coupon <- makeRequest (PostCoupon
    (mkCouponData (ci_name couponData)
       (if truthyZ (ci_percent_off couponData) then "percentage" else "fixed_amount")
       (if truthyZ (ci_percent_off couponData)
        then ci_percent_off couponData else ci_amount_off couponData)
       (ci_currency couponData)
       (ci_duration couponData)
       (ci_duration_in_months couponData))) ;;
  ret (mkCoupon (j_id coupon) (j_name coupon)).

(** [name] between double quotes. *)
Definition quoted (name : string) : string :=
  (String "034" name ++ String "034" EmptyString)%string.

(** [crypto.timingSafeEqual] throws when the two buffers differ in
    length; [update] and [Buffer.from] throw on [undefined], with the
    messages that Node gives to an argument of the wrong type. *)
Definition verifyWebhookSignature (payload signature : option string)
    (secret : string) : M bool :=
  match payload with
  | None =>
      throw (typeError ("The " ++ quoted "data" ++ " argument must be of type string or an " ++
                        "instance of Buffer, TypedArray, or DataView. Received undefined")%string)
  | Some payload =>
      expectedSignature <- get (fun w => createHmac w secret payload) ;;
      match signature with
      | None =>
          throw (typeError ("The first argument must be of type string or an instance of " ++
                            "Buffer, ArrayBuffer, or Array or an Array-like Object. " ++
                            "Received undefined")%string)
      | Some signature =>
          if (String.length signature =? String.length expectedSignature)%nat
          then ret (signature =? expectedSignature)%string
          else throw (mkError RangeError
                        "Input buffers must have the same byte length" None)
      end
  end.

Definition parseWebhook (payload : option string) : M WebhookEvent :=
  parsed <- get (fun w => match payload with
                          | Some payload => JSON_parse w payload
                          | None => None
                          end) ;;
  match parsed with
  | Some event => ret event
  | None => throw (badRequest "Invalid webhook payload")
  end.

End DodoAPI.

(** ** PaymentsService *)

Record PaymentLinkParams := mkParams {
  param_tier : Tier;
  param_cadence : Cadence;
  param_offer : option Offer;
  param_member : option Member;
  param_metadata : option (list (string * string));
  param_successUrl : string;
  param_cancelUrl : string;
  param_email : option string }.

(** The primary key that the store gives to a new price row. *)
Definition fresh_row_id (rows : list DodoPriceRow) : nat :=
  S (fold_right Nat.max 0 (map pr_id rows)).

Definition set_active (a : option bool) (r : DodoPriceRow) : DodoPriceRow :=
  mkPriceRow (pr_id r) (pr_dodo_price_id r) (pr_dodo_product_id r) a
    (pr_nickname r) (pr_currency r) (pr_amount r) (pr_type r) (pr_interval r).

(** The table after [active] is written to the row of primary key [id]. *)
Definition heal (id : nat) (a : bool) (rows : list DodoPriceRow) : list DodoPriceRow :=
  map (fun r => if (pr_id r =? id)%nat then set_active (Some a) r else r) rows.

(** [DodoPriceModel.edit({active}, {id})] *)
Definition edit_price_active (a : bool) (id : nat) : M unit :=
  modify (with_prices (heal id a)).

(** [OfferModel.edit({dodo_coupon_id}, {id})] *)
Definition edit_offer_coupon (coupon : string) (id : string) : M unit :=
  modify (with_offers (map (fun r =>
    if (or_id r =? id)%string
    then mkOfferRow (or_id r) (Some coupon) (or_discount_type r) else r))).

(** The [where] clause of [getPriceForTierCadence]. *)
Definition price_row_matches (product currency : string) (cadence : Cadence)
    (amount : Z) (r : DodoPriceRow) : bool :=
  (pr_dodo_product_id r =? product)%string
  && (pr_currency r =? currency)%string
  && option_eqb String.eqb (pr_interval r) (Some (cadence_str cadence))
  && (pr_amount r =? amount)%Z
  && option_eqb Bool.eqb (pr_active r) (Some true)
  && (pr_type r =? "recurring")%string.

Module PaymentsService.

Definition createCustomerForMember (member : Member) : M Customer :=
  customer <- DodoAPI.createCustomer (member_email member) (member_name member) ;;
  modify (with_customers (fun rows => rows ++
    [mkCustomerRow (member_id member) (c_id customer) (c_email customer)
       (c_name customer)])) ;;
  ret customer.

(** The [for] loop of [getCustomerForMember] over the selected
    [customer_id] column; [None] when the loop falls through. *)
Fixpoint getCustomerForMember_rows (rows : list (option string)) : M (option Customer) :=
  match rows with
  | [] => ret None
  | row :: rest =>
      found <- try_catch
        (customer <- DodoAPI.getCustomer row ;;
         if negb (c_deleted customer) then ret (Some customer) else ret None)
        (fun err => logging Warn (message err) ;; ret None) ;;
      match found with
      | Some customer => ret (Some customer)
      | None => getCustomerForMember_rows rest
      end
  end.

Definition getCustomerForMember (member : Member) : M Customer :=
  rows <- get (fun w => map cr_customer_id
            (filter (fun r => (cr_member_id r =? member_id member)%string)
               (DodoCustomerModel w))) ;;
  found <- getCustomerForMember_rows rows ;;
  match found with
  | Some customer => ret customer
  | None => createCustomerForMember member
  end.

Definition createProductForTier (tier : Tier) : M Product :=
  product <- DodoAPI.createProduct (tier_name tier) ;;
  modify (with_products (fun rows => rows ++
    [mkProductRow (Some (tier_id tier)) (product_id product)])) ;;
  ret product.

(** The [for] loop of [getProductForTier] over the selected
    [dodo_product_id] column. *)
Fixpoint getProductForTier_rows (rows : list string) : M (option string) :=
  match rows with
  | [] => ret None
  | row :: rest =>
      found <- try_catch
        (product <- DodoAPI.getProduct row ;;
         if product_active product then ret (Some (product_id product)) else ret None)
        (fun err => logging Warn (message err) ;; ret None) ;;
      match found with
      | Some id => ret (Some id)
      | None => getProductForTier_rows rest
      end
  end.

(** Returns the [id] of the object [{id}]. *)
Definition getProductForTier (tier : Tier) : M string :=
  rows <- get (fun w => map prod_dodo_product_id
            (filter (fun r => option_eqb String.eqb (prod_product_id r) (Some (tier_id tier)))
               (DodoProductModel w))) ;;
  found <- getProductForTier_rows rows ;;
  match found with
  | Some id => ret id
  | None => product <- createProductForTier tier ;; ret (product_id product)
  end.

Definition createPriceForTierCadence (tier : Tier) (cadence : Cadence) : M Price :=
  product <- getProductForTier tier ;;
  price <- DodoAPI.createPrice
    (mkPriceInput product (cadence_str cadence) (tier_currency tier)
       (getPrice_of tier cadence)
       (match cadence with Month => "Monthly" | Year => "Yearly" end)
       "recurring" true) ;;
  modify (with_prices (fun rows => rows ++
    [mkPriceRow (fresh_row_id rows) (price_id price) product (price_active price)
       (price_nickname price) (price_currency price) (price_unit_amount price)
       "recurring" (Some (cadence_str cadence))])) ;;
  ret price.

(** The test of the [if] in the loop of [getPriceForTierCadence]. *)
Definition price_verified (price : Price) (currency : string) (amount : Z)
    (cadence : Cadence) : bool :=
  match price_active price with Some true => true | _ => false end
  && (toLowerCase (price_currency price) =? currency)%string
  && (price_unit_amount price =? amount)%Z
  && option_eqb String.eqb (price_recurring price) (Some (cadence_str cadence)).

(** The [for] loop of [getPriceForTierCadence] over the selected
    [(id, dodo_price_id)] columns. *)
Fixpoint getPriceForTierCadence_rows (currency : string) (amount : Z) (cadence : Cadence)
    (rows : list (nat * string)) : M (option string) :=
  match rows with
  | [] => ret None
  | row :: rest =>
      found <- try_catch
        (price <- DodoAPI.getPrice (snd row) ;;
         if price_verified price currency amount cadence
         then ret (Some (price_id price))
         else
           edit_price_active
             (match price_active price with Some true => true | _ => false end)
             (fst row) ;;
           ret None)
        (fun err =>
           logging Error ("Failed to lookup Dodo Price " ++ snd row)%string ;;
           logging Error (message err) ;;
           ret None) ;;
      match found with
      | Some id => ret (Some id)
      | None => getPriceForTierCadence_rows currency amount cadence rest
      end
  end.

(** Returns the [id] of the object [{id}]. *)
Definition getPriceForTierCadence (tier : Tier) (cadence : Cadence) : M string :=
  product <- getProductForTier tier ;;
  let currency := toLowerCase (tier_currency tier) in
  let amount := getPrice_of tier cadence in
  rows <- get (fun w => map (fun r => (pr_id r, pr_dodo_price_id r))
            (filter (price_row_matches product currency cadence amount)
               (DodoPriceModel w))) ;;
  found <- getPriceForTierCadence_rows currency amount cadence rows ;;
  match found with
  | Some id => ret id
  | None => price <- createPriceForTierCadence tier cadence ;; ret (price_id price)
  end.

Definition createCouponForOffer (offer : OfferDTO) : M unit :=
  let percent := (dto_type offer =? "percent")%string in
  let couponData :=
    mkCouponInput (dto_name offer) (dto_duration offer)
      (if (dto_duration offer =? "repeating")%string
       then dto_duration_in_months offer else None)
      (if percent then Some (dto_amount offer) else None)
      (if percent then None else Some (dto_amount offer))
      (if percent then None else dto_currency offer) in
  coupon <- DodoAPI.createCoupon couponData ;;
  edit_offer_coupon (coupon_id coupon) (dto_id offer).

(** Returns the [id] of the object [{id}], or [None] for [null].  The
    function calls itself after it has created a coupon; [fuel] bounds
    that recursion. *)
Fixpoint getCouponForOffer (fuel : nat) (offerId : string) : M (option string) :=
  match fuel with
  | O => throw (mkError OutOfFuel "getCouponForOffer" None)
  | S fuel =>
      row <- get (fun w => find (fun r => (or_id r =? offerId)%string) (OfferModel w)) ;;
      match row with
      | None => ret None
      | Some row =>
          if (or_discount_type row =? "trial")%string then ret None
          else
            let create :=
              offer <- get (fun w => find (fun o => (dto_id o =? offerId)%string) (offersAPI w)) ;;
              match offer with
              | None => throw (typeError "Cannot read properties of null (reading 'name')")
              | Some offer =>
                  createCouponForOffer offer ;;
                  getCouponForOffer fuel offerId
              end in
            match or_dodo_coupon_id row with
            | Some id => if (id =? "")%string then create else ret (Some id)
            | None => create
            end
      end
  end.

(** Returns [session.url]. *)
Definition getPaymentLink (fuel : nat) (p : PaymentLinkParams) : M string :=
  let tier := param_tier p in
  ct <- match param_offer p with
        | Some offer =>
            if negb (tier_id tier =? offer_tier offer)%string
            then throw (badRequest "This Offer is not valid for the Tier")
            else if (offer_type offer =? "trial")%string
            then ret (None, Some (offer_amount offer))
            else coupon <- getCouponForOffer fuel (offer_id offer) ;; ret (coupon, None)
        | None => ret (None, None)
        end ;;
  let coupon : option string := fst ct in
  let trialDays : option Z := snd ct in
  customer <- match param_member p with
              | Some member => c <- getCustomerForMember member ;; ret (Some c)
              | None => ret None
              end ;;
  price <- getPriceForTierCadence tier (param_cadence p) ;;
  let data :=
    mkCheckoutData (param_metadata p) (param_successUrl p) (param_cancelUrl p)
      (match trialDays with Some d => Some d | None => tier_trialDays tier end)
      coupon None in
  let data := if truthy (data_coupon data) then delete_trialDays data else data in
  let data :=
    match customer with
    | Some _ => data
    | None => if truthy (param_email p) then set_customerEmail (param_email p) data else data
    end in
  session <- DodoAPI.createCheckoutSession price customer data ;;
  ret (session_url session).

Definition createProductForDonations (name : string) : M Product :=
  product <- DodoAPI.createProduct name ;;
  modify (with_products (fun rows => rows ++ [mkProductRow None (product_id product)])) ;;
  ret product.

(** The [for] loop of [getProductForDonations] over the [dodo_product_id]
    column of the donation prices; the product table is read for each
    row. *)
Fixpoint getProductForDonations_rows (rows : list string) : M (option string) :=
  match rows with
  | [] => ret None
  | row :: rest =>
      product <- get (fun w =>
        find (fun r => (prod_dodo_product_id r =? row)%string) (DodoProductModel w)) ;;
      found <-
        match product with
        | Some _ =>
            try_catch
              (dodoProduct <- DodoAPI.getProduct row ;;
               if product_active dodoProduct
               then ret (Some (product_id dodoProduct)) else ret None)
              (fun err => logging Warn (message err) ;; ret None)
        | None => ret None
        end ;;
      match found with
      | Some id => ret (Some id)
      | None => getProductForDonations_rows rest
      end
  end.

(** Returns the [id] of the object [{id}]. *)
Definition getProductForDonations (name : string) : M string :=
  existingDonationPrices <- get (fun w => map pr_dodo_product_id
    (filter (fun r => (pr_type r =? "donation")%string) (DodoPriceModel w))) ;;
  found <- getProductForDonations_rows existingDonationPrices ;;
  match found with
  | Some id => ret id
  | None => product <- createProductForDonations name ;; ret (product_id product)
  end.

(** [title] is the string of [settingsCache.get('title')].  [substring]
    counts UTF-16 code units, so the strings are sequences of code
    units here. *)
Definition getDonationPriceNickname (title : CodeUnits) : CodeUnits :=
  firstn 250 (code_units "Support " ++ title)%list.

(** The reaction to [OfferCreatedEvent] that the constructor subscribes;
    [offer] is [event.data.offer.id]. *)
Definition on_OfferCreatedEvent (fuel : nat) (offer : string) : M unit :=
  getCouponForOffer fuel offer ;; ret tt.

(** The reaction to [TierCreatedEvent]; [tier] is [event.data.tier]. *)
Definition on_TierCreatedEvent (tier : Tier) : M unit :=
  if (tier_type tier =? "paid")%string
  then
    getPriceForTierCadence tier Month ;;
    getPriceForTierCadence tier Year ;;
    ret tt
  else ret tt.

(** The reaction to [TierPriceChangeEvent]. *)
Definition on_TierPriceChangeEvent (tier : Tier) : M unit :=
  if (tier_type tier =? "paid")%string
  then
    getPriceForTierCadence tier Month ;;
    getPriceForTierCadence tier Year ;;
    ret tt
  else ret tt.


End PaymentsService.

(** ** The member repository and the tier service *)

(** Modelled from the spec: one call to a collaborator that may fail; it
    takes the head of the fault schedule. *)
Definition fault (what : string) : M unit :=
  fun w =>
    match faults w with
    | [] => (Ok tt, w)
    | false :: rest => (Ok tt, with_faults (fun _ => rest) w)
    | true :: rest => (Throw (mkError RepositoryError what None), with_faults (fun _ => rest) w)
    end.

(** Modelled from the spec: the member after a field update.  A key that
    the patch does not set stays; [name: null] takes the name away.  A
    member of this model always has an email: no property about the
    member store takes a patch with [email: null], which is left without
    effect here. *)
Definition apply_patch (p : MemberPatch) (m : Member) : Member :=
  mkMember (member_id m)
    (match p_email p with Some (Some e) => e | _ => member_email m end)
    (match p_name p with Some n => n | None => member_name m end)
    (match p_status p with Some s => s | None => member_status m end)
    (match p_subscribed p with Some b => b | None => member_subscribed m end)
    (match p_tier_id p with Some t => t | None => member_tier m end).

(** Modelled from the spec: the member store after the update of the member
    [id]. *)
Definition update_member (id : string) (p : MemberPatch) (l : list Member) : list Member :=
  map (fun m => if (member_id m =? id)%string then apply_patch p m else m) l.

Module memberRepo.

(** Modelled from the spec: the member repository is not part of the
    sources; it is the keyed store of members of the data model, read by
    identity or by email, and updated field by field.  This is
    [memberRepository.get({id})]. *)
Definition get_by_id (id : string) : M (option Member) :=
  fault "memberRepository.get" ;;
  get (fun w => find (fun m => (member_id m =? id)%string) (memberRepository w)).

(** Modelled from the spec: [memberRepository.get({email})]. *)
Definition get_by_email (email : string) : M (option Member) :=
  fault "memberRepository.get" ;;
  get (fun w => find (fun m => (member_email m =? email)%string) (memberRepository w)).

(** Modelled from the spec: [memberRepository.update(id, data)] writes the
    given fields of the member, and throws when there is no such
    member. *)
Definition update (id : string) (p : MemberPatch) : M unit :=
  fault "memberRepository.update" ;;
  found <- get (fun w => existsb (fun m => (member_id m =? id)%string) (memberRepository w)) ;;
  if found
  then modify (with_members (update_member id p))
  else throw (mkError RepositoryError "Member not found" (Some 404)).

End memberRepo.

(** Modelled from the spec: the tier service is not part of the sources;
    [tiersService.get({id})] reads a tier by identity, and gives [null] for
    the [null] product reference of a donation product. *)
Definition tiersService_get (id : option string) : M (option Tier) :=
  fault "tiersService.get" ;;
  get (fun w => match id with
                | Some id => find (fun t => (tier_id t =? id)%string) (tiersService w)
                | None => None
                end).

(** ** DodoWebhookController *)

Record HttpRequest := mkRequest {
  req_signature : option string;
  req_body : option string }.

Inductive ResponseBody :=
| Received (received : bool)
| ErrorBody (error : string).

Record HttpResponse := mkResponse {
  res_status : nat;
  res_json : ResponseBody }.

Module DodoWebhookController.

Definition show_nullish (n : Nullish) : string :=
  match n with Undefined => "undefined" | Null => "null" end.

(** The message of the [TypeError] for a read of [key] from [undefined] or
    [null]. *)
Definition cannot_read (n : Nullish) (key : string) : string :=
  ("Cannot read properties of " ++ show_nullish n ++ " (reading '" ++ key ++ "')")%string.

(** [event.data.object], and the first read of a key of that object, which
    is [id] in every handler: both precede the [try] of the handler. *)
Definition data_object (event : WebhookEvent) : M EventObject :=
  match ev_data event with
  | Object o => ret o
  | NoData n => throw (typeError (cannot_read n "object"))
  | NoObject n => throw (typeError (cannot_read n "id"))
  end.

(** [a === b] for two values that are a string, [null] ([Some None]) or
    [undefined] ([None]).  [member.email] is a string and [member.name] is
    a string or [null]. *)
Definition strict_eqb (a b : option (option string)) : bool :=
  match a, b with
  | None, None => true
  | Some None, Some None => true
  | Some (Some x), Some (Some y) => (x =? y)%string
  | _, _ => false
  end.

Definition findMemberFromCustomerId (customerId : option string) : M (option Member) :=
  customerRecord <- get (fun w =>
    find (fun r => option_eqb String.eqb (cr_customer_id r) customerId)
      (DodoCustomerModel w)) ;;
  match customerRecord with
  | Some customerRecord => memberRepo.get_by_id (cr_member_id customerRecord)
  | None => ret None
  end.

Definition findMemberFromPayment (payment : EventObject) : M (option Member) :=
  if truthy (o_customer payment)
  then findMemberFromCustomerId (o_customer payment)
  else
    match o_customer_email payment with
    | Some email =>
        if (email =? "")%string then ret None else memberRepo.get_by_email email
    | None => ret None
    end.

Definition findMemberFromSubscription (subscription : EventObject) : M (option Member) :=
  findMemberFromCustomerId (o_customer subscription).

Definition findMemberFromCustomer (customer : EventObject) : M (option Member) :=
  findMemberFromCustomerId (o_id customer).

Definition findTierFromSubscription (subscription : EventObject) : M (option Tier) :=
  try_catch
    (priceRecord <- get (fun w =>
       find (fun r => option_eqb String.eqb (Some (pr_dodo_price_id r)) (o_price_id subscription))
         (DodoPriceModel w)) ;;
     match priceRecord with
     | Some priceRecord =>
         productRecord <- get (fun w =>
           find (fun r => (prod_dodo_product_id r =? pr_dodo_product_id priceRecord)%string)
             (DodoProductModel w)) ;;
         match productRecord with
         | Some productRecord => tiersService_get (prod_product_id productRecord)
         | None => ret None
         end
     | None => ret None
     end)
    (fun error =>
       logging Error ("Error finding tier from subscription: " ++ message error)%string ;;
       ret None).

Definition grantTierAccess (member : Member) (subscription : EventObject) : M unit :=
  try_catch
    (tier <- findTierFromSubscription subscription ;;
     match tier with
     | Some tier =>
         memberRepo.update (member_id member)
           (mkPatch None None (Some (Some (tier_id tier))) None None)
     | None => ret tt
     end)
    (fun error =>
       logging Error ("Error granting tier access: " ++ message error)%string).

Definition revokeTierAccess (member : Member) : M unit :=
  try_catch
    (memberRepo.update (member_id member) (mkPatch None None (Some None) None None))
    (fun error =>
       logging Error ("Error revoking tier access: " ++ message error)%string).

Definition updateMemberSubscription (member : Member) (subscription : EventObject) : M unit :=
  try_catch
    (let active := option_eqb String.eqb (o_status subscription) (Some "active") in
     let updates := mkPatch (Some (if active then "paid" else "free")) None None None None in
     updates <-
       (if active
        then
          tier <- findTierFromSubscription subscription ;;
          match tier with
          | Some tier =>
              ret (mkPatch (p_status updates) None (Some (Some (tier_id tier))) None None)
          | None => ret updates
          end
        else ret (mkPatch (p_status updates) None (Some None) None None)) ;;
     memberRepo.update (member_id member) updates)
    (fun error =>
       logging Error ("Error updating member subscription: " ++ message error)%string).

Definition handlePaymentSucceeded (event : WebhookEvent) : M unit :=
  payment <- data_object event ;;
  logging Info ("Payment succeeded: " ++ show (o_id payment))%string ;;
  try_catch
    (member <- findMemberFromPayment payment ;;
     match member with
     | Some member =>
         memberRepo.update (member_id member) (mkPatch (Some "paid") None None None None) ;;
         logging Info ("Updated member " ++ member_id member ++ " status to paid")%string
     | None => ret tt
     end)
    (fun error =>
       logging Error ("Error processing payment success: " ++ message error)%string).

Definition handlePaymentFailed (event : WebhookEvent) : M unit :=
  payment <- data_object event ;;
  logging Info ("Payment failed: " ++ show (o_id payment))%string ;;
  try_catch
    (member <- findMemberFromPayment payment ;;
     match member with
     | Some member =>
         logging Info ("Payment failed for member " ++ member_id member)%string
     | None => ret tt
     end)
    (fun error =>
       logging Error ("Error processing payment failure: " ++ message error)%string).

Definition handleSubscriptionCreated (event : WebhookEvent) : M unit :=
  subscription <- data_object event ;;
  logging Info ("Subscription created: " ++ show (o_id subscription))%string ;;
  try_catch
    (member <- findMemberFromSubscription subscription ;;
     match member with
     | Some member =>
         memberRepo.update (member_id member) (mkPatch (Some "paid") (Some true) None None None) ;;
         grantTierAccess member subscription ;;
         logging Info ("Granted subscription access to member " ++ member_id member)%string
     | None => ret tt
     end)
    (fun error =>
       logging Error ("Error processing subscription creation: " ++ message error)%string).

Definition handleSubscriptionUpdated (event : WebhookEvent) : M unit :=
  subscription <- data_object event ;;
  logging Info ("Subscription updated: " ++ show (o_id subscription))%string ;;
  try_catch
    (member <- findMemberFromSubscription subscription ;;
     match member with
     | Some member =>
         updateMemberSubscription member subscription ;;
         logging Info ("Updated subscription for member " ++ member_id member)%string
     | None => ret tt
     end)
    (fun error =>
       logging Error ("Error processing subscription update: " ++ message error)%string).

Definition handleSubscriptionCancelled (event : WebhookEvent) : M unit :=
  subscription <- data_object event ;;
  logging Info ("Subscription cancelled: " ++ show (o_id subscription))%string ;;
  try_catch
    (member <- findMemberFromSubscription subscription ;;
     match member with
     | Some member =>
         memberRepo.update (member_id member) (mkPatch (Some "free") (Some false) None None None) ;;
         revokeTierAccess member ;;
         logging Info ("Revoked subscription access for member " ++ member_id member)%string
     | None => ret tt
     end)
    (fun error =>
       logging Error ("Error processing subscription cancellation: " ++ message error)%string).

Definition handleCustomerCreated (event : WebhookEvent) : M unit :=
  customer <- data_object event ;;
  logging Info ("Customer created: " ++ show (o_id customer))%string.

Definition handleCustomerUpdated (event : WebhookEvent) : M unit :=
  customer <- data_object event ;;
  logging Info ("Customer updated: " ++ show (o_id customer))%string ;;
  try_catch
    (member <- findMemberFromCustomer customer ;;
     match member with
     | Some member =>
         if negb (strict_eqb (Some (Some (member_email member))) (o_email customer))
            || negb (strict_eqb (Some (member_name member)) (o_name customer))
         then
           memberRepo.update (member_id member)
             (mkPatch None None None (o_email customer) (o_name customer)) ;;
           logging Info ("Updated member " ++ member_id member ++ " from customer update")%string
         else ret tt
     | None => ret tt
     end)
    (fun error =>
       logging Error ("Error processing customer update: " ++ message error)%string).

Definition handleInvoicePaymentSucceeded (event : WebhookEvent) : M unit :=
  invoice <- data_object event ;;
  logging Info ("Invoice payment succeeded: " ++ show (o_id invoice))%string ;;
  handlePaymentSucceeded
    (mkEvent None
       (Object (mkObject (o_payment_intent invoice) (o_customer invoice) None None None
                  None None None (o_amount_paid invoice) None None))).

Definition handleInvoicePaymentFailed (event : WebhookEvent) : M unit :=
  invoice <- data_object event ;;
  logging Info ("Invoice payment failed: " ++ show (o_id invoice))%string ;;
  handlePaymentFailed
    (mkEvent None
       (Object (mkObject (o_payment_intent invoice) (o_customer invoice) None None None
                  None None None (o_amount_due invoice) None None))).

Definition routeWebhookEvent (event : WebhookEvent) : M unit :=
  let type := match ev_type event with Some t => t | None => "" end in
  if (type =? "payment.succeeded")%string then handlePaymentSucceeded event
  else if (type =? "payment.failed")%string then handlePaymentFailed event
  else if (type =? "subscription.created")%string then handleSubscriptionCreated event
  else if (type =? "subscription.updated")%string then handleSubscriptionUpdated event
  else if (type =? "subscription.cancelled")%string then handleSubscriptionCancelled event
  else if (type =? "customer.created")%string then handleCustomerCreated event
  else if (type =? "customer.updated")%string then handleCustomerUpdated event
  else if (type =? "invoice.payment_succeeded")%string then handleInvoicePaymentSucceeded event
  else if (type =? "invoice.payment_failed")%string then handleInvoicePaymentFailed event
  else logging Info ("Unhandled Dodo webhook event: " ++ show (ev_type event))%string.

(** [req_body] is [JSON.stringify(req.body)], which the source computes
    for the signature and again for the parser.  The result is what the
    handler writes to [res]. *)
Definition handleWebhook (webhookSecret : string) (req : HttpRequest) : M HttpResponse :=
  let signature := req_signature req in
  let payload := req_body req in
  try_catch
    (isValid <- DodoAPI.verifyWebhookSignature payload signature webhookSecret ;;
     (if negb isValid then throw (badRequest "Invalid webhook signature") else ret tt) ;;
     event <- DodoAPI.parseWebhook payload ;;
     logging Info ("Processing Dodo webhook: " ++ show (ev_type event))%string ;;
     routeWebhookEvent event ;;
     ret (mkResponse 200 (Received true)))
    (fun error =>
       logging Error ("Dodo webhook error: " ++ message error)%string ;;
       ret (mkResponse 400 (ErrorBody (message error)))).

End DodoWebhookController.

(** ** A reference provider *)

(** Modelled from the spec: the provider is a remote service and not part of
    the sources.  This one keeps what is created under an identifier it has
    never used, returns it unchanged when asked, answers an unknown
    identifier with status 404, and changes for no other reason. *)
Record ProviderState := mkProvider {
  ps_customers : list Json;
  ps_products : list Json;
  ps_prices : list Json;
  ps_coupons : list Json;
  ps_sessions : list Json }.

Definition emptyJson : Json :=
  mkJson "" "" "" None None "" 0%Z "" None "" None.

Definition ps_ids (s : ProviderState) : list string :=
  map j_id (ps_customers s ++ ps_products s ++ ps_prices s ++ ps_coupons s ++ ps_sessions s).

Fixpoint repeat_x (n : nat) : string :=
  match n with
  | O => EmptyString
  | S n => String "x"%char (repeat_x n)
  end.

(** An identifier longer than every identifier in use. *)
Definition fresh_id (used : list string) : string :=
  repeat_x (S (fold_right Nat.max 0 (map String.length used))).

Definition lookup_json (id : string) (l : list Json) : option Json :=
  find (fun j => (j_id j =? id)%string) l.

Definition not_found_body : Json :=
  mkJson "" "" "" None None "" 0%Z "" None "" (Some "Not found").

Definition found_or_404 (r : option Json) : FetchResult :=
  match r with
  | Some j => Response true 200 (Some j)
  | None => Response false 404 (Some not_found_body)
  end.

(** Modelled from the spec: the answer of the reference provider to one
    request, and its state afterwards. *)
Definition ref_step (s : ProviderState) (rq : Request) : FetchResult * ProviderState :=
  let id := fresh_id (ps_ids s) in
  match rq with
  | PostCheckoutSession d =>
      let j := mkJson id "" "" None None "" 0%Z "" None
                 ("https://checkout.dodopayments.com/" ++ id)%string None in
      (Response true 200 (Some j),
       mkProvider (ps_customers s) (ps_products s) (ps_prices s) (ps_coupons s)
         (ps_sessions s ++ [j]))
  | PostCustomer email name =>
      let j := mkJson id email (match name with Some n => n | None => "" end)
                 None None "" 0%Z "" None "" None in
      (Response true 200 (Some j),
       mkProvider (ps_customers s ++ [j]) (ps_products s) (ps_prices s) (ps_coupons s)
         (ps_sessions s))
  | GetCustomer cid =>
      (found_or_404 (match cid with
                     | Some cid => lookup_json cid (ps_customers s)
                     | None => None
                     end), s)
  | PostProduct name _ _ =>
      let j := mkJson id "" name None (Some true) "" 0%Z "" None "" None in
      (Response true 200 (Some j),
       mkProvider (ps_customers s) (ps_products s ++ [j]) (ps_prices s) (ps_coupons s)
         (ps_sessions s))
  | GetProduct pid => (found_or_404 (lookup_json pid (ps_products s)), s)
  | PostPrice d =>
      let j := mkJson id "" "" None (Some (pd_active d)) (pd_currency d)
                 (pd_unit_amount d) (pd_nickname d) (pd_recurring d) "" None in
      (Response true 200 (Some j),
       mkProvider (ps_customers s) (ps_products s) (ps_prices s ++ [j]) (ps_coupons s)
         (ps_sessions s))
  | GetPrice pid => (found_or_404 (lookup_json pid (ps_prices s)), s)
  | PostCoupon d =>
      let j := mkJson id "" (cd_name d) None None "" 0%Z "" None "" None in
      (Response true 200 (Some j),
       mkProvider (ps_customers s) (ps_products s) (ps_prices s) (ps_coupons s ++ [j])
         (ps_sessions s))
  end.

(** The state of the reference provider after the requests [hist], most
    recent first, starting from [init]. *)
Definition ref_state (init : ProviderState) (hist : list Request) : ProviderState :=
  fold_right (fun rq s => snd (ref_step s rq)) init hist.

Definition ref_provider (init : ProviderState) : list Request -> Request -> FetchResult :=
  fun hist rq => fst (ref_step (ref_state init hist) rq).

Definition emptyProvider : ProviderState := mkProvider [] [] [] [] [].

(** A world with empty tables and stores, no fault, and the reference
    provider started from [init]. *)
Definition emptyWorld (init : ProviderState) : World :=
  mkWorld [] [] [] [] [] [] [] [] (ref_provider init)
    (fun _ payload => payload) (fun _ => None) [] [].

(** * Vocabulary of the properties *)

(** ** Requests and responses *)

(** The error that [makeRequest] throws on a response that is not [ok]. *)
Definition api_error (status : nat) (j : Json) : JsError :=
  mkError BadRequestError
    ("Dodo API Error: " ++
     match j_message j with
     | Some m => if (m =? "")%string then "Unknown error" else m
     | None => "Unknown error"
     end)%string
    (Some status).

(** The world after [makeRequest] has sent [rq], and logged and rethrown
    [e]. *)
Definition request_failed (rq : Request) (e : JsError) (w : World) : World :=
  with_log (cons (Error, ("Dodo API request failed: " ++ message e)%string))
    (with_sent (cons rq) w).

Definition price_of_json (j : Json) : Price :=
  mkPrice (j_id j) (j_currency j) (j_unit_amount j) (j_active j) None (j_recurring j).



(** [!!price.active] *)
Definition provider_active (j : Json) : bool :=
  match j_active j with Some true => true | _ => false end.

Definition is_session (rq : Request) : bool :=
  match rq with PostCheckoutSession _ => true | _ => false end.

Definition no_session (rq : Request) : Prop := is_session rq = false.

(** Every request that [m] sends satisfies [P]. *)
Definition sends (P : Request -> Prop) {A} (m : M A) : Prop :=
  forall w, exists new, sent (snd (m w)) = new ++ sent w /\ Forall P new.

(** A checkout session request carries the coupon [c] and no trial. *)
Definition coupon_without_trial (c : string) (rq : Request) : Prop :=
  forall sd, rq = PostCheckoutSession sd ->
    sd_coupon_id sd = Some c /\ sd_trial_period_days sd = None.


Definition product_rows (w : World) (tier : Tier) : list string :=
  map prod_dodo_product_id
    (filter (fun r => option_eqb String.eqb (prod_product_id r) (Some (tier_id tier)))
       (DodoProductModel w)).




(** ** Webhooks *)

(** The signature header is the HMAC of the payload. *)
Definition signature_valid (w : World) (secret : string) (req : HttpRequest) : bool :=
  match req_body req, req_signature req with
  | Some payload, Some signature => (signature =? createHmac w secret payload)%string
  | _, _ => false
  end.

Definition parsed_event (w : World) (req : HttpRequest) : option WebhookEvent :=
  match req_body req with
  | Some payload => JSON_parse w payload
  | None => None
  end.

(** The types that [routeWebhookEvent] has a [case] for. *)
Definition recognised (type : option string) : bool :=
  match type with
  | Some t =>
      existsb (String.eqb t)
        ["payment.succeeded"; "payment.failed"; "subscription.created";
         "subscription.updated"; "subscription.cancelled"; "customer.created";
         "customer.updated"; "invoice.payment_succeeded"; "invoice.payment_failed"]
  | None => false
  end.

Definition responds (status : nat) (r : Res HttpResponse * World) : Prop :=
  exists body, fst r = Ok (mkResponse status body).

(** Status 400, the member store as it was, and no call to the member
    repository. *)
Definition rejected (w : World) (r : Res HttpResponse * World) : Prop :=
  responds 400 r
  /\ memberRepository (snd r) = memberRepository w
  /\ faults (snd r) = faults w.

(** The customer id that an event refers to: the object itself for a
    customer event, its [customer] key otherwise. *)
Definition referenced_customer (event : WebhookEvent) (o : EventObject) : option string :=
  match ev_type event with
  | Some t =>
      if ((t =? "customer.created") || (t =? "customer.updated"))%string
      then o_id o else o_customer o
  | None => o_customer o
  end.

Definition no_customer_link (w : World) (cid : string) : Prop :=
  forall r, In r (DodoCustomerModel w) -> cr_customer_id r <> Some cid.

Definition untouched (w w' : World) : Prop :=
  memberRepository w' = memberRepository w /\ faults w' = faults w
  /\ DodoCustomerModel w' = DodoCustomerModel w.

(** ** Entitlement *)

Definition entitlement (m : Member) : string * bool * option string :=
  (member_status m, member_subscribed m, member_tier m).

Definition member_of (w : World) (id : string) : option Member :=
  find (fun x => (member_id x =? id)%string) (memberRepository w).

(** The member that the customer id [cid] resolves to. *)
Definition resolves (w : World) (cid : option string) (m : Member) : Prop :=
  exists row,
    find (fun r => option_eqb String.eqb (cr_customer_id r) cid) (DodoCustomerModel w) = Some row
    /\ find (fun x => (member_id x =? cr_member_id row)%string) (memberRepository w) = Some m.

(** The tier that a price id resolves to: price row, product row, tier. *)
Definition tier_of_price (w : World) (price : option string) : option Tier :=
  match find (fun r => option_eqb String.eqb (Some (pr_dodo_price_id r)) price)
          (DodoPriceModel w) with
  | Some priceRecord =>
      match find (fun r => (prod_dodo_product_id r =? pr_dodo_product_id priceRecord)%string)
              (DodoProductModel w) with
      | Some productRecord =>
          match prod_product_id productRecord with
          | Some id => find (fun t => (tier_id t =? id)%string) (tiersService w)
          | None => None
          end
      | None => None
      end
  | None => None
  end.

(** What a handler reads is what it was. *)
Definition stable (w w' : World) : Prop :=
  faults w' = faults w
  /\ DodoCustomerModel w' = DodoCustomerModel w
  /\ DodoPriceModel w' = DodoPriceModel w
  /\ DodoProductModel w' = DodoProductModel w
  /\ tiersService w' = tiersService w.

Definition paid_subscribed : MemberPatch := mkPatch (Some "paid") (Some true) None None None.

Definition free_unsubscribed : MemberPatch := mkPatch (Some "free") (Some false) None None None.

Definition tier_patch (t : option string) : MemberPatch := mkPatch None None (Some t) None None.

(** What [handleSubscriptionCreated] does to the member store when nothing
    fails. *)
Definition created_effect (t : option Tier) (id : string) (l : list Member) : list Member :=
  match t with
  | Some t => update_member id (tier_patch (Some (tier_id t))) (update_member id paid_subscribed l)
  | None => update_member id paid_subscribed l
  end.

(** What [updateMemberSubscription] writes. *)
Definition updates_of (active : bool) (t : option Tier) : MemberPatch :=
  if active
  then mkPatch (Some "paid") None
         (match t with Some t => Some (Some (tier_id t)) | None => None end) None None
  else mkPatch (Some "free") None (Some None) None None.

(** ** Resolution against the reference provider *)

(** [w] talks to the reference provider started from [init]. *)
Definition runs_on (init : ProviderState) (w : World) : Prop :=
  provider w = ref_provider init.

(** The state of that provider now. *)
Definition remote (init : ProviderState) (w : World) : ProviderState :=
  ref_state init (sent w).

Definition same_tables (w w' : World) : Prop :=
  DodoCustomerModel w' = DodoCustomerModel w
  /\ DodoProductModel w' = DodoProductModel w
  /\ DodoPriceModel w' = DodoPriceModel w
  /\ OfferModel w' = OfferModel w
  /\ offersAPI w' = offersAPI w.

(** Nothing changed but the requests sent and the log. *)
Definition quiet (init : ProviderState) (w w' : World) : Prop :=
  runs_on init w' /\ remote init w' = remote init w /\ same_tables w w'.

(** Nothing changed but the price table, the requests sent and the log. *)
Definition quiet_but_prices (init : ProviderState) (w w' : World) : Prop :=
  runs_on init w' /\ remote init w' = remote init w
  /\ DodoCustomerModel w' = DodoCustomerModel w
  /\ DodoProductModel w' = DodoProductModel w
  /\ OfferModel w' = OfferModel w
  /\ offersAPI w' = offersAPI w.

Fixpoint first_some {A B} (f : A -> option B) (l : list A) : option B :=
  match l with
  | [] => None
  | a :: l => match f a with Some b => Some b | None => first_some f l end
  end.

Definition one_more (l l' : list Json) : Prop := l' = l \/ exists j, l' = l ++ [j].

(** *** Products *)

Definition live_product (products : list Json) (pid : string) : option string :=
  match lookup_json pid products with
  | Some j => match j_active j with Some false => None | _ => Some (j_id j) end
  | None => None
  end.

(** The product that [getProductForTier] finds without creating one. *)
Definition settled_product (init : ProviderState) (w : World) (tier : Tier) : option string :=
  first_some (live_product (ps_products (remote init w))) (product_rows w tier).

(** The product that the provider creates for [tier] in state [s]. *)
Definition new_product (s : ProviderState) (tier : Tier) : Json :=
  mkJson (fresh_id (ps_ids s)) "" (tier_name tier) None (Some true) "" 0%Z "" None "" None.

Definition add_product (s : ProviderState) (j : Json) : ProviderState :=
  mkProvider (ps_customers s) (ps_products s ++ [j]) (ps_prices s) (ps_coupons s)
    (ps_sessions s).

(** What one call of [getProductForTier] leaves behind: either nothing but
    requests, or one new product and its row. *)
Definition product_step (init : ProviderState) (tier : Tier) (w w' : World) : Prop :=
  quiet init w w'
  \/ (runs_on init w'
      /\ remote init w' = add_product (remote init w) (new_product (remote init w) tier)
      /\ DodoProductModel w' =
           DodoProductModel w ++
             [mkProductRow (Some (tier_id tier)) (fresh_id (ps_ids (remote init w)))]
      /\ DodoCustomerModel w' = DodoCustomerModel w
      /\ DodoPriceModel w' = DodoPriceModel w
      /\ OfferModel w' = OfferModel w
      /\ offersAPI w' = offersAPI w).

(** *** Customers *)






(** *** Prices *)

Inductive Verdict :=
| Verified (id : string)
| Diverged (active : bool)
| LookupFailed.

Section PriceScan.

Variables (prices : list Json) (currency : string) (amount : Z) (cadence : Cadence).

(** What the loop of [getPriceForTierCadence] finds for a price id. *)
Definition verdict (pid : string) : Verdict :=
  match lookup_json pid prices with
  | Some j =>
      if PaymentsService.price_verified (price_of_json j) currency amount cadence
      then Verified (j_id j) else Diverged (provider_active j)
  | None => LookupFailed
  end.

Definition verified (row : nat * string) : option string :=
  match verdict (snd row) with
  | Verified id => Some id
  | _ => None
  end.

(** The table after the loop over [rows]. *)
Fixpoint healed_table (rows : list (nat * string)) (tbl : list DodoPriceRow)
    : list DodoPriceRow :=
  match rows with
  | [] => tbl
  | row :: rest =>
      match verdict (snd row) with
      | Verified _ => tbl
      | Diverged a => healed_table rest (heal (fst row) a tbl)
      | LookupFailed => healed_table rest tbl
      end
  end.

(** A row and what the loop may have made of it. *)
Definition healed_row (r r' : DodoPriceRow) : Prop :=
  r' = r
  \/ exists a, verdict (pr_dodo_price_id r) = Diverged a /\ r' = set_active (Some a) r.

(** The first selected row that the provider verifies. *)
Definition first_verified (q : DodoPriceRow -> bool) (tbl : list DodoPriceRow)
    : option string :=
  first_some verified (map (fun r => (pr_id r, pr_dodo_price_id r)) (filter q tbl)).

End PriceScan.

(** Every selected row is the row of the table with its primary key. *)
Definition rows_of (rows : list (nat * string)) (tbl : list DodoPriceRow) : Prop :=
  forall id pid, In (id, pid) rows ->
    forall r, In r tbl -> pr_id r = id -> pr_dodo_price_id r = pid.

Definition price_query (product : string) (tier : Tier) (cadence : Cadence)
    : DodoPriceRow -> bool :=
  price_row_matches product (toLowerCase (tier_currency tier)) cadence (getPrice_of tier cadence).

(** The price that [getPriceForTierCadence] finds without creating one. *)
Definition settled_price (init : ProviderState) (w : World) (tier : Tier) (cadence : Cadence)
    : option string :=
  match settled_product init w tier with
  | Some product =>
      first_verified (ps_prices (remote init w)) (toLowerCase (tier_currency tier))
        (getPrice_of tier cadence) cadence (price_query product tier cadence)
        (DodoPriceModel w)
  | None => None
  end.

Definition new_price (s : ProviderState) (tier : Tier) (cadence : Cadence) : Json :=
  mkJson (fresh_id (ps_ids s)) "" "" None (Some true)
    (toLowerCase (tier_currency tier)) (getPrice_of tier cadence)
    (match cadence with Month => "Monthly" | Year => "Yearly" end)
    (Some (cadence_str cadence)) "" None.

Definition add_price (s : ProviderState) (j : Json) : ProviderState :=
  mkProvider (ps_customers s) (ps_products s) (ps_prices s ++ [j]) (ps_coupons s)
    (ps_sessions s).

(** What one call of [getPriceForTierCadence] does to the provider. *)
Definition price_step (init : ProviderState) (w w' : World) : Prop :=
  runs_on init w'
  /\ ps_customers (remote init w') = ps_customers (remote init w)
  /\ ps_coupons (remote init w') = ps_coupons (remote init w)
  /\ one_more (ps_products (remote init w)) (ps_products (remote init w'))
  /\ one_more (ps_prices (remote init w)) (ps_prices (remote init w')).

(** *** Coupons *)


(** The body that [createCoupon] posts for [offer]. *)
Definition coupon_data (offer : OfferDTO) : CouponData :=
  let percent := (dto_type offer =? "percent")%string in
  mkCouponData (dto_name offer)
    (if truthyZ (if percent then Some (dto_amount offer) else None)
     then "percentage" else "fixed_amount")
    (if truthyZ (if percent then Some (dto_amount offer) else None)
     then (if percent then Some (dto_amount offer) else None)
     else (if percent then None else Some (dto_amount offer)))
    (if percent then None else dto_currency offer)
    (dto_duration offer)
    (if (dto_duration offer =? "repeating")%string
     then dto_duration_in_months offer else None).




(** *** Idempotency *)







(** * Example worlds *)

Definition gold : Tier := mkTier "t1" "Gold" "USD" 500 5000 (Some 7%Z) "paid".

Definition alice : Member :=
  mkMember "m1" "alice@example.com" (Some "Alice") "free" false None.

(** A member with a paid subscription to [gold]. *)
Definition bob : Member :=
  mkMember "m1" "bob@example.com" (Some "Bob") "paid" true (Some "t1").

Definition product_1 : Json :=
  mkJson "prod_1" "" "Gold" None (Some true) "" 0%Z "" None "" None.

Definition price_1 (active : bool) (amount : Z) : Json :=
  mkJson "price_1" "" "" None (Some active) "usd" amount "Monthly" (Some "month") "" None.

Definition price_row_1 : DodoPriceRow :=
  mkPriceRow 1 "price_1" "prod_1" (Some true) (Some "Monthly") "usd" 500 "recurring"
    (Some "month").

(** The cache holds the monthly price of [gold] at 500; the provider holds
    it with [active] and [amount]. *)
Definition drifted_world (active : bool) (amount : Z) : World :=
  mkWorld [] [mkProductRow (Some "t1") "prod_1"] [price_row_1] [] [] [] [] []
    (ref_provider (mkProvider [] [product_1] [price_1 active amount] [] []))
    (fun _ payload => payload) (fun _ => None) [] [].

Definition subscription (customer status : string) : EventObject :=
  mkObject (Some "sub_1") (Some customer) None (Some status) (Some "price_1")
    None None None None None None.

(** The texts stand for the JSON of the events. *)
Definition parse_example (payload : string) : option WebhookEvent :=
  if (payload =? "{subscription.created cus_1}")%string
  then Some (mkEvent (Some "subscription.created") (Object (subscription "cus_1" "active")))
  else if (payload =? "{subscription.created cus_9}")%string
  then Some (mkEvent (Some "subscription.created") (Object (subscription "cus_9" "active")))
  else if (payload =? "{payment.succeeded}")%string
  then Some (mkEvent (Some "payment.succeeded") (NoData Undefined))
  else None.

(** One member linked to the customer [cus_1], and the catalog of
    [gold]. *)
Definition member_world (m : Member) (schedule : list bool) : World :=
  mkWorld [mkCustomerRow "m1" (Some "cus_1") (Some (member_email m)) (member_name m)]
    [mkProductRow (Some "t1") "prod_1"] [price_row_1] [] [] [m] [gold] schedule
    (ref_provider emptyProvider)
    (fun secret payload => (secret ++ payload)%string) parse_example [] [].

Definition signed (payload : string) : HttpRequest :=
  mkRequest (Some ("whsec" ++ payload)%string) (Some payload).

Definition created_event : WebhookEvent :=
  mkEvent (Some "subscription.created") (Object (subscription "cus_1" "active")).

Definition updated_event (status : string) : WebhookEvent :=
  mkEvent (Some "subscription.updated") (Object (subscription "cus_1" status)).

Definition cancelled_event : WebhookEvent :=
  mkEvent (Some "subscription.cancelled") (Object (subscription "cus_1" "cancelled")).

(** Two offers on [gold]: [o1] is a discount whose coupon is [stored], [o2]
    is a trial. *)
Definition offer_world (stored : option string) : World :=
  mkWorld [] [] [] [mkOfferRow "o1" stored "percent"; mkOfferRow "o2" None "trial"]
    [mkOfferDTO "o1" "Spring" "percent" 20 None "forever" None;
     mkOfferDTO "o2" "Try it" "trial" 14 None "trial" None]
    [] [] [] (ref_provider emptyProvider)
    (fun _ payload => payload) (fun _ => None) [] [].

Definition checkout (offer_tier : string) : PaymentLinkParams :=
  mkParams gold Month (Some (mkOffer "o1" offer_tier "percent" 20)) None None
    "https://example.com/ok" "https://example.com/cancel" (Some "alice@example.com").








(** * Vocabulary of further properties *)

(** Every run of [m] takes a world to one that [R] relates to it. *)
Definition keeps (R : World -> World -> Prop) {A} (m : M A) : Prop :=
  forall w, R w (snd (m w)).

(** What the webhook controller leaves alone: everything but the member
    store, the fault schedule and the log. *)
Definition webhook_frame (w w' : World) : Prop :=
  sent w' = sent w
  /\ DodoCustomerModel w' = DodoCustomerModel w
  /\ DodoProductModel w' = DodoProductModel w
  /\ DodoPriceModel w' = DodoPriceModel w
  /\ OfferModel w' = OfferModel w
  /\ offersAPI w' = offersAPI w
  /\ tiersService w' = tiersService w
  /\ provider w' = provider w
  /\ createHmac w' = createHmac w
  /\ JSON_parse w' = JSON_parse w.

Definition extends {A} (l l' : list A) : Prop := exists extra, l' = l ++ extra.

(** A price row without its [active] flag, and an offer row without its
    coupon id. *)
Definition forget_active (r : DodoPriceRow) : DodoPriceRow := set_active None r.

Definition forget_coupon (r : OfferRow) : OfferRow :=
  mkOfferRow (or_id r) None (or_discount_type r).

(** What reconciliation leaves alone: the members, the fault schedule, the
    tiers, the offers API and the provider; and how the cache may change:
    rows are added at the end of a table, a price row may change its
    [active] flag and an offer row its coupon id, primary keys stay
    unique. *)
Definition reconciliation_frame (w w' : World) : Prop :=
  memberRepository w' = memberRepository w
  /\ faults w' = faults w
  /\ tiersService w' = tiersService w
  /\ offersAPI w' = offersAPI w
  /\ provider w' = provider w
  /\ extends (DodoCustomerModel w) (DodoCustomerModel w')
  /\ extends (DodoProductModel w) (DodoProductModel w')
  /\ extends (map forget_active (DodoPriceModel w)) (map forget_active (DodoPriceModel w'))
  /\ map forget_coupon (OfferModel w') = map forget_coupon (OfferModel w)
  /\ (NoDup (map pr_id (DodoPriceModel w)) -> NoDup (map pr_id (DodoPriceModel w'))).


(** ** Webhook effects *)

(** The event types whose handler calls [memberRepository.update]. *)
Definition writes_members (type : option string) : bool :=
  match type with
  | Some t =>
      existsb (String.eqb t)
        ["payment.succeeded"; "subscription.created"; "subscription.updated";
         "subscription.cancelled"; "customer.updated"; "invoice.payment_succeeded"]
  | None => false
  end.

Definition members_kept (w w' : World) : Prop := memberRepository w' = memberRepository w.

(** The update of [handlePaymentSucceeded]. *)
Definition paid : MemberPatch := mkPatch (Some "paid") None None None None.

(** The member that a customer id is linked to: the first customer row
    with the id, then the member of that row. *)
Definition linked_member (w : World) (cid : option string) : option Member :=
  match find (fun r => option_eqb String.eqb (cr_customer_id r) cid) (DodoCustomerModel w) with
  | Some row => find (fun x => (member_id x =? cr_member_id row)%string) (memberRepository w)
  | None => None
  end.

Definition member_by_email (w : World) (email : string) : option Member :=
  find (fun m => (member_email m =? email)%string) (memberRepository w).

(** A member without the tier. *)
Definition standing (m : Member) : string * string * option string * string * bool :=
  (member_id m, member_email m, member_name m, member_status m, member_subscribed m).

Definition standing_kept (w w' : World) : Prop :=
  map standing (memberRepository w') = map standing (memberRepository w).

(** The update of [handleCustomerUpdated]. *)
Definition contact_patch (o : EventObject) : MemberPatch :=
  mkPatch None None None (o_email o) (o_name o).

Definition subscription_types : list (option string) :=
  [Some "subscription.created"; Some "subscription.updated"; Some "subscription.cancelled"].

(** A lookup either finds no link, or is the first call to fail. *)
Definition lookup_fails (find : M (option Member)) (w : World) : Prop :=
  find w = (Ok None, w)
  \/ exists e w', find w = (Throw e, w') /\ memberRepository w' = memberRepository w.

(** ** Requests by kind *)

Definition is_customer_request (rq : Request) : bool :=
  match rq with PostCustomer _ _ | GetCustomer _ => true | _ => false end.

Definition is_catalog_request (rq : Request) : bool :=
  match rq with
  | PostProduct _ _ _ | GetProduct _ | PostPrice _ | GetPrice _ => true
  | _ => false
  end.

Definition is_coupon_request (rq : Request) : bool :=
  match rq with PostCoupon _ => true | _ => false end.

Definition customer_only (rq : Request) : Prop := is_customer_request rq = true.

Definition catalog_only (rq : Request) : Prop := is_catalog_request rq = true.

Definition coupon_only (rq : Request) : Prop := is_coupon_request rq = true.

(** The requests that a checkout with the parameters [p] may send: about
    customers only for a member, about coupons only for an offer that is
    not a trial. *)
Definition allowed (p : PaymentLinkParams) (rq : Request) : Prop :=
  (is_customer_request rq = true -> param_member p <> None)
  /\ (is_coupon_request rq = true ->
      exists offer, param_offer p = Some offer /\ offer_type offer <> "trial").

(** The tables and the stores of [w'] are those of [w]. *)
Definition same_data (w w' : World) : Prop :=
  same_tables w w'
  /\ memberRepository w' = memberRepository w
  /\ tiersService w' = tiersService w
  /\ faults w' = faults w
  /\ provider w' = provider w.

(** ** Coupons *)

(** The provider answers every coupon creation with an empty id. *)
Definition blank_coupons (w : World) : Prop :=
  forall hist d, exists status j,
    provider w hist (PostCoupon d) = Response true status (Some j) /\ j_id j = "".

(** The offer row asks for a coupon: it is no trial and holds no coupon
    id. *)
Definition wants_coupon (w : World) (offerId : string) : Prop :=
  exists row,
    find (fun r => (or_id r =? offerId)%string) (OfferModel w) = Some row
    /\ or_discount_type row <> "trial"
    /\ truthy (or_dodo_coupon_id row) = false.

(** The offer table after the coupon of the offer is written. *)
Definition with_coupon (coupon offerId : string) (w : World) : World :=
  snd (edit_offer_coupon coupon offerId w).

(** ** Donations and catalog events *)

(** No donation price of the cache points to a product of the product
    table. *)
Definition no_donation_product (w : World) : Prop :=
  forall r, In r (DodoPriceModel w) -> pr_type r = "donation" ->
    find (fun p => (prod_dodo_product_id p =? pr_dodo_product_id r)%string)
      (DodoProductModel w) = None.

(** [tier] with another spelling of its currency. *)
Definition with_currency (currency : string) (tier : Tier) : Tier :=
  mkTier (tier_id tier) (tier_name tier) currency (tier_monthlyPrice tier)
    (tier_yearlyPrice tier) (tier_trialDays tier) (tier_type tier).

(** ** Further example worlds *)

Definition payment (customer email : option string) : EventObject :=
  mkObject (Some "pay_1") customer email None None None None None (Some 500%Z) None None.

Definition invoice (customer email : option string) : EventObject :=
  mkObject (Some "in_1") customer email None None None None (Some "pay_1") None
    (Some 500%Z) None.

Definition customer_object (id email name : string) : EventObject :=
  mkObject (Some id) None None None None (Some (Some email)) (Some (Some name)) None None None
    None.

(** A member whose name is [null], and a customer of the same email whose
    payload carries no name. *)
Definition nameless : Member :=
  mkMember "m1" "bob@example.com" None "paid" true (Some "t1").

Definition customer_without_name : EventObject :=
  mkObject (Some "cus_1") None None None None (Some (Some "bob@example.com")) None None None None
    None.

(** A provider whose customer lookups fail with status 503, and which is
    the reference provider otherwise. *)
Definition unavailable : Json :=
  mkJson "" "" "" None None "" 0%Z "" None "" (Some "Service unavailable").

Definition outage_provider (hist : list Request) (rq : Request) : FetchResult :=
  match rq with
  | GetCustomer _ => Response false 503 (Some unavailable)
  | _ => ref_provider emptyProvider hist rq
  end.

Definition outage_world : World :=
  mkWorld [mkCustomerRow "m1" (Some "cus_1") (Some "alice@example.com") (Some "Alice")]
    [] [] [] [] [alice] [] [] outage_provider
    (fun _ payload => payload) (fun _ => None) [] [].

(** A checkout of [gold] with a trial offer of [days] days, for a visitor
    with an email. *)
Definition trial_checkout (days : Z) : PaymentLinkParams :=
  mkParams gold Month (Some (mkOffer "o2" "t1" "trial" days)) None None
    "https://example.com/ok" "https://example.com/cancel" (Some "alice@example.com").

(** A provider that creates coupons without an id. *)
Definition blank_provider (hist : list Request) (rq : Request) : FetchResult :=
  match rq with
  | PostCoupon _ => Response true 200 (Some emptyJson)
  | _ => ref_provider emptyProvider hist rq
  end.

Definition blank_world : World :=
  mkWorld [] [] [] [mkOfferRow "o1" None "percent"]
    [mkOfferDTO "o1" "Spring" "percent" 20 None "forever" None]
    [] [] [] blank_provider (fun _ payload => payload) (fun _ => None) [] [].

(** A cache with one donation price whose product row is gone. *)
Definition donation_world : World :=
  mkWorld [] [mkProductRow (Some "t1") "prod_1"]
    [mkPriceRow 1 "price_d" "prod_d" (Some true) (Some "Support Blog") "usd" 0 "donation" None]
    [] [] [] [] [] (ref_provider emptyProvider)
    (fun _ payload => payload) (fun _ => None) [] [].

(** * Properties *)

Import PaymentsService DodoWebhookController.

(** ** The webhook endpoint *)

Ltac unfold_m := unfold bind, ret, throw, try_catch, get, modify, logging in *.

(** A handler reads the object of an event that carries one. *)
Lemma data_object_some (event : WebhookEvent) (o : EventObject) :
  ev_data_object event = Some o -> data_object event = ret o.
Proof.
  unfold ev_data_object, data_object. destruct (ev_data event); intros E; inversion E; reflexivity.
Qed.

Lemma data_object_none (event : WebhookEvent) :
  ev_data_object event = None -> exists e, data_object event = throw e.
Proof.
  unfold ev_data_object, data_object.
  destruct (ev_data event); intros E; [| |discriminate]; eexists; reflexivity.
Qed.

Lemma try_catch_logged (m : M unit) (msg : JsError -> string) (w : World) :
  exists w', try_catch m (fun error => logging Error (msg error)) w = (Ok tt, w').
Proof.
  unfold try_catch. destruct (m w) as [[[]|e] w1].
  - eexists; reflexivity.
  - unfold logging, modify. eexists; reflexivity.
Qed.

Lemma verify_valid w secret req :
  signature_valid w secret req = true ->
  DodoAPI.verifyWebhookSignature (req_body req) (req_signature req) secret w = (Ok true, w).
Proof.
  unfold signature_valid, DodoAPI.verifyWebhookSignature.
  destruct (req_body req) as [payload|]; [|discriminate].
  destruct (req_signature req) as [signature|]; [|discriminate].
  intros H. unfold_m. rewrite H.
  apply String.eqb_eq in H. rewrite <- H, Nat.eqb_refl. reflexivity.
Qed.

Lemma verify_invalid w secret req :
  signature_valid w secret req = false ->
  exists r, DodoAPI.verifyWebhookSignature (req_body req) (req_signature req) secret w = (r, w)
            /\ r <> Ok true.
Proof.
  unfold signature_valid, DodoAPI.verifyWebhookSignature.
  destruct (req_body req) as [payload|].
  2:{ intros _. eexists; split; [reflexivity|discriminate]. }
  destruct (req_signature req) as [signature|].
  2:{ intros _. unfold_m. eexists; split; [reflexivity|discriminate]. }
  intros H. unfold_m. rewrite H.
  destruct (_ =? _)%nat; eexists; split; try reflexivity; discriminate.
Qed.

Lemma handler_prelude_total (event : WebhookEvent) (o : EventObject) (label : string)
    (body : EventObject -> M unit) (msg : JsError -> string) (w : World) :
  ev_data_object event = Some o ->
  exists w',
    (x <- data_object event ;;
     logging Info (label ++ show (o_id x))%string ;;
     try_catch (body x) (fun error => logging Error (msg error))) w = (Ok tt, w').
Proof.
  intros Ho. rewrite (data_object_some _ _ Ho).
  unfold bind at 1. unfold ret at 1. unfold bind at 1. unfold logging at 1, modify at 1.
  apply try_catch_logged.
Qed.

Lemma handlePaymentSucceeded_total event o w :
  ev_data_object event = Some o ->
  exists w', handlePaymentSucceeded event w = (Ok tt, w').
Proof.
  intros Ho. unfold handlePaymentSucceeded.
  eapply handler_prelude_total with (body := fun payment => _) (msg := fun error => _); eauto.
Qed.

Ltac by_prelude Ho :=
  eapply handler_prelude_total with (body := fun x => _) (msg := fun error => _);
  exact Ho.

Lemma handlePaymentFailed_total event o w :
  ev_data_object event = Some o ->
  exists w', handlePaymentFailed event w = (Ok tt, w').
Proof. intros Ho. unfold handlePaymentFailed. by_prelude Ho. Qed.

Lemma handleSubscriptionCreated_total event o w :
  ev_data_object event = Some o ->
  exists w', handleSubscriptionCreated event w = (Ok tt, w').
Proof. intros Ho. unfold handleSubscriptionCreated. by_prelude Ho. Qed.

Lemma handleSubscriptionUpdated_total event o w :
  ev_data_object event = Some o ->
  exists w', handleSubscriptionUpdated event w = (Ok tt, w').
Proof. intros Ho. unfold handleSubscriptionUpdated. by_prelude Ho. Qed.

Lemma handleSubscriptionCancelled_total event o w :
  ev_data_object event = Some o ->
  exists w', handleSubscriptionCancelled event w = (Ok tt, w').
Proof. intros Ho. unfold handleSubscriptionCancelled. by_prelude Ho. Qed.

Lemma handleCustomerUpdated_total event o w :
  ev_data_object event = Some o ->
  exists w', handleCustomerUpdated event w = (Ok tt, w').
Proof. intros Ho. unfold handleCustomerUpdated. by_prelude Ho. Qed.

Lemma handleCustomerCreated_total event o w :
  ev_data_object event = Some o ->
  exists w', handleCustomerCreated event w = (Ok tt, w').
Proof.
  intros Ho. unfold handleCustomerCreated. rewrite (data_object_some _ _ Ho).
  unfold_m. eexists; reflexivity.
Qed.

Lemma handleInvoicePaymentSucceeded_total event o w :
  ev_data_object event = Some o ->
  exists w', handleInvoicePaymentSucceeded event w = (Ok tt, w').
Proof.
  intros Ho. unfold handleInvoicePaymentSucceeded. rewrite (data_object_some _ _ Ho).
  unfold bind at 1. unfold ret at 1. unfold bind at 1. unfold logging at 1, modify at 1.
  eapply handlePaymentSucceeded_total. reflexivity.
Qed.

Lemma handleInvoicePaymentFailed_total event o w :
  ev_data_object event = Some o ->
  exists w', handleInvoicePaymentFailed event w = (Ok tt, w').
Proof.
  intros Ho. unfold handleInvoicePaymentFailed. rewrite (data_object_some _ _ Ho).
  unfold bind at 1. unfold ret at 1. unfold bind at 1. unfold logging at 1, modify at 1.
  eapply handlePaymentFailed_total. reflexivity.
Qed.

Lemma routeWebhookEvent_total event o w :
  ev_data_object event = Some o ->
  exists w', routeWebhookEvent event w = (Ok tt, w').
Proof.
  intros Ho. unfold routeWebhookEvent.
  repeat match goal with
         | |- context [if ?b then _ else _] => destruct b
         end;
    eauto using handlePaymentSucceeded_total, handlePaymentFailed_total,
      handleSubscriptionCreated_total, handleSubscriptionUpdated_total,
      handleSubscriptionCancelled_total, handleCustomerCreated_total,
      handleCustomerUpdated_total, handleInvoicePaymentSucceeded_total,
      handleInvoicePaymentFailed_total.
  unfold_m. eexists; reflexivity.
Qed.

Lemma routeWebhookEvent_unrecognised event w :
  recognised (ev_type event) = false ->
  routeWebhookEvent event w =
    (Ok tt, with_log (cons (Info, ("Unhandled Dodo webhook event: " ++ show (ev_type event))%string)) w).
Proof.
  unfold recognised, routeWebhookEvent.
  destruct (ev_type event) as [t|]; [|intros _; reflexivity].
  cbn [existsb]. intros H.
  repeat (apply orb_false_iff in H; destruct H as [?H H]).
  repeat match goal with
         | E : (t =? ?s) = false |- _ => rewrite E; clear E
         end.
  reflexivity.
Qed.

(** The handler of a recognised type throws what the read of the object
    throws, before its [try]. *)
Lemma routeWebhookEvent_no_object event w :
  recognised (ev_type event) = true ->
  ev_data_object event = None ->
  routeWebhookEvent event w =
    (Throw (typeError (match ev_data event with
                       | NoData n => cannot_read n "object"
                       | NoObject n => cannot_read n "id"
                       | Object _ => ""
                       end)), w).
Proof.
  unfold recognised, routeWebhookEvent, ev_data_object.
  destruct (ev_type event) as [t|]; [|discriminate].
  cbn [existsb]. intros H Ho.
  unfold handlePaymentSucceeded, handlePaymentFailed, handleSubscriptionCreated,
    handleSubscriptionUpdated, handleSubscriptionCancelled, handleCustomerCreated,
    handleCustomerUpdated, handleInvoicePaymentSucceeded, handleInvoicePaymentFailed,
    data_object.
  destruct (ev_data event) as [n|n|o]; [| |discriminate];
    repeat match goal with
           | |- context [if ?b then _ else _] => destruct b eqn:?
           end; try reflexivity;
    cbn in H; discriminate.
Qed.

Lemma handleWebhook_invalid_signature w secret req :
  signature_valid w secret req = false ->
  rejected w (handleWebhook secret req w).
Proof.
  intros H. destruct (verify_invalid _ _ _ H) as (r & Hr & Hne).
  unfold handleWebhook, try_catch. unfold bind at 1. rewrite Hr.
  destruct r as [[|]|e].
  - congruence.
  - cbn. repeat split. eexists; reflexivity.
  - cbn. repeat split. eexists; reflexivity.
Qed.

Lemma parseWebhook_spec w req :
  DodoAPI.parseWebhook (req_body req) w =
    (match parsed_event w req with
     | Some event => Ok event
     | None => Throw (badRequest "Invalid webhook payload")
     end, w).
Proof.
  unfold DodoAPI.parseWebhook, parsed_event. unfold_m.
  destruct (req_body req) as [p|]; [destruct (JSON_parse w p)|]; reflexivity.
Qed.

Lemma handleWebhook_valid w secret req :
  signature_valid w secret req = true ->
  handleWebhook secret req w =
    match parsed_event w req with
    | None =>
        (Ok (mkResponse 400 (ErrorBody "Invalid webhook payload")),
         with_log (cons (Error, "Dodo webhook error: Invalid webhook payload")) w)
    | Some event =>
        match routeWebhookEvent event
                (with_log (cons (Info, ("Processing Dodo webhook: " ++ show (ev_type event))%string)) w) with
        | (Ok _, w') => (Ok (mkResponse 200 (Received true)), w')
        | (Throw error, w') =>
            (Ok (mkResponse 400 (ErrorBody (message error))),
             with_log (cons (Error, ("Dodo webhook error: " ++ message error)%string)) w')
        end
    end.
Proof.
  intros H. unfold handleWebhook, try_catch. unfold bind at 1.
  rewrite (verify_valid _ _ _ H). cbn [negb].
  unfold bind at 1. unfold ret at 1. unfold bind at 1.
  rewrite parseWebhook_spec.
  destruct (parsed_event w req) as [event|]; [|reflexivity].
  unfold bind at 1. unfold logging at 1, modify at 1. unfold bind at 1.
  destruct (routeWebhookEvent event _) as [[[]|e] w']; reflexivity.
Qed.

(** ** Events about an unknown customer *)

Lemma no_customer_link_find w cid :
  no_customer_link w cid ->
  find (fun r => option_eqb String.eqb (cr_customer_id r) (Some cid)) (DodoCustomerModel w) = None.
Proof.
  unfold no_customer_link. induction (DodoCustomerModel w) as [|r l IH]; intros H.
  - reflexivity.
  - cbn [find]. destruct (option_eqb String.eqb (cr_customer_id r) (Some cid)) eqn:E.
    + exfalso. apply (H r (or_introl eq_refl)).
      destruct (cr_customer_id r); cbn in E; [|discriminate].
      apply String.eqb_eq in E. congruence.
    + apply IH. intros r' Hr'. apply H. right. exact Hr'.
Qed.

Lemma findMemberFromCustomerId_unknown w cid :
  no_customer_link w cid ->
  findMemberFromCustomerId (Some cid) w = (Ok None, w).
Proof.
  intros H. unfold findMemberFromCustomerId. unfold_m.
  rewrite (no_customer_link_find _ _ H). reflexivity.
Qed.

Lemma truthy_some cid : cid <> "" -> truthy (Some cid) = true.
Proof. intros H. cbn. apply String.eqb_neq in H. rewrite H. reflexivity. Qed.

Lemma handlePaymentSucceeded_unknown event o cid w :
  ev_data_object event = Some o -> o_customer o = Some cid -> cid <> "" ->
  no_customer_link w cid ->
  exists w', handlePaymentSucceeded event w = (Ok tt, w') /\ untouched w w'.
Proof.
  intros Ho Hc Hne Hno. unfold handlePaymentSucceeded.
  rewrite (data_object_some _ _ Ho).
  unfold bind at 1. unfold ret at 1. unfold bind at 1. unfold logging at 1, modify at 1.
  unfold findMemberFromPayment. rewrite Hc, (truthy_some _ Hne).
  unfold try_catch, bind.
  rewrite findMemberFromCustomerId_unknown by exact Hno.
  eexists; split; [reflexivity|]. repeat split.
Qed.

Lemma handlePaymentFailed_unknown event o cid w :
  ev_data_object event = Some o -> o_customer o = Some cid -> cid <> "" ->
  no_customer_link w cid ->
  exists w', handlePaymentFailed event w = (Ok tt, w') /\ untouched w w'.
Proof.
  intros Ho Hc Hne Hno. unfold handlePaymentFailed.
  rewrite (data_object_some _ _ Ho).
  unfold bind at 1. unfold ret at 1. unfold bind at 1. unfold logging at 1, modify at 1.
  unfold findMemberFromPayment. rewrite Hc, (truthy_some _ Hne).
  unfold try_catch, bind.
  rewrite findMemberFromCustomerId_unknown by exact Hno.
  eexists; split; [reflexivity|]. repeat split.
Qed.

Ltac subscription_unknown Ho Hc Hno :=
  rewrite (data_object_some _ _ Ho);
  unfold bind at 1; unfold ret at 1; unfold bind at 1; unfold logging at 1, modify at 1;
  unfold findMemberFromSubscription, findMemberFromCustomer; rewrite Hc;
  unfold try_catch, bind;
  rewrite findMemberFromCustomerId_unknown by exact Hno;
  eexists; split; [reflexivity|]; repeat split.

Lemma routeWebhookEvent_unknown event o cid w :
  ev_data_object event = Some o ->
  referenced_customer event o = Some cid -> cid <> "" ->
  no_customer_link w cid ->
  exists w', routeWebhookEvent event w = (Ok tt, w') /\ untouched w w'.
Proof.
  intros Ho Hc Hne Hno. unfold routeWebhookEvent, referenced_customer in *.
  destruct (ev_type event) as [t|].
  2:{ cbn. unfold_m. eexists; split; [reflexivity|]. repeat split. }
  destruct (t =? "payment.succeeded") eqn:E1.
  { apply String.eqb_eq in E1; subst t; cbn in Hc.
    eapply handlePaymentSucceeded_unknown; eauto. }
  destruct (t =? "payment.failed") eqn:E2.
  { apply String.eqb_eq in E2; subst t; cbn in Hc.
    eapply handlePaymentFailed_unknown; eauto. }
  destruct (t =? "subscription.created") eqn:E3.
  { apply String.eqb_eq in E3; subst t; cbn in Hc.
    unfold handleSubscriptionCreated. subscription_unknown Ho Hc Hno. }
  destruct (t =? "subscription.updated") eqn:E4.
  { apply String.eqb_eq in E4; subst t; cbn in Hc.
    unfold handleSubscriptionUpdated. subscription_unknown Ho Hc Hno. }
  destruct (t =? "subscription.cancelled") eqn:E5.
  { apply String.eqb_eq in E5; subst t; cbn in Hc.
    unfold handleSubscriptionCancelled. subscription_unknown Ho Hc Hno. }
  destruct (t =? "customer.created") eqn:E6.
  { unfold handleCustomerCreated. rewrite (data_object_some _ _ Ho). unfold_m.
    eexists; split; [reflexivity|]. repeat split. }
  destruct (t =? "customer.updated") eqn:E7.
  { cbn in Hc. unfold handleCustomerUpdated. subscription_unknown Ho Hc Hno. }
  cbn in Hc.
  destruct (t =? "invoice.payment_succeeded") eqn:E8.
  { unfold handleInvoicePaymentSucceeded. rewrite (data_object_some _ _ Ho).
    unfold bind at 1. unfold ret at 1. unfold bind at 1. unfold logging at 1, modify at 1.
    edestruct handlePaymentSucceeded_unknown as (w' & Hw' & Hu);
      [| | exact Hne | | rewrite Hw'; eexists; split; [reflexivity|exact Hu]];
      [reflexivity | exact Hc | exact Hno]. }
  destruct (t =? "invoice.payment_failed") eqn:E9.
  { unfold handleInvoicePaymentFailed. rewrite (data_object_some _ _ Ho).
    unfold bind at 1. unfold ret at 1. unfold bind at 1. unfold logging at 1, modify at 1.
    edestruct handlePaymentFailed_unknown as (w' & Hw' & Hu);
      [| | exact Hne | | rewrite Hw'; eexists; split; [reflexivity|exact Hu]];
      [reflexivity | exact Hc | exact Hno]. }
  unfold_m. eexists; split; [reflexivity|]. repeat split.
Qed.

(** C8.  A signed event that refers to a customer id with no row in the
    customer table: the handler returns without an error and with the
    member store as it was, and the endpoint answers 200, whatever the
    fault schedule. *)
Theorem webhook_unknown_customer :
  forall w secret req event o cid,
    signature_valid w secret req = true ->
    parsed_event w req = Some event ->
    ev_data_object event = Some o ->
    referenced_customer event o = Some cid ->
    cid <> "" ->
    no_customer_link w cid ->
    (exists w1, routeWebhookEvent event w = (Ok tt, w1)
                /\ memberRepository w1 = memberRepository w)
    /\ responds 200 (handleWebhook secret req w)
    /\ memberRepository (snd (handleWebhook secret req w)) = memberRepository w.
Proof.
  intros w secret req event o cid Hv Hp Ho Hc Hne Hno. split.
  - destruct (routeWebhookEvent_unknown event o cid w Ho Hc Hne Hno) as (w1 & H1 & Hu).
    exists w1. split; [exact H1|apply Hu].
  - rewrite (handleWebhook_valid _ _ _ Hv), Hp.
    destruct (routeWebhookEvent_unknown event o cid
                (with_log (cons (Info, ("Processing Dodo webhook: " ++ show (ev_type event))%string)) w)
                Ho Hc Hne Hno) as (w1 & H1 & Hu).
    rewrite H1. split; [eexists; reflexivity|]. apply Hu.
Qed.

(** ** Entitlement after subscription events *)

Lemma stable_refl w : stable w w.
Proof. repeat split. Qed.

Lemma stable_trans w1 w2 w3 : stable w1 w2 -> stable w2 w3 -> stable w1 w3.
Proof. unfold stable. intuition congruence. Qed.

Lemma stable_tier w w' price : stable w w' -> tier_of_price w' price = tier_of_price w price.
Proof.
  intros (_ & _ & Hp & Hd & Ht). unfold tier_of_price. rewrite Hp, Hd, Ht. reflexivity.
Qed.

Lemma fault_none what w : faults w = [] -> fault what w = (Ok tt, w).
Proof. intros H. unfold fault. rewrite H. reflexivity. Qed.

Lemma get_by_id_nofault id w :
  faults w = [] ->
  memberRepo.get_by_id id w =
    (Ok (find (fun m => (member_id m =? id)%string) (memberRepository w)), w).
Proof.
  intros H. unfold memberRepo.get_by_id, bind. rewrite (fault_none _ _ H). reflexivity.
Qed.

Lemma update_nofault id p w :
  faults w = [] ->
  existsb (fun m => (member_id m =? id)%string) (memberRepository w) = true ->
  memberRepo.update id p w = (Ok tt, with_members (update_member id p) w).
Proof.
  intros H He. unfold memberRepo.update, bind. rewrite (fault_none _ _ H).
  unfold get. rewrite He. reflexivity.
Qed.

Lemma findTierFromSubscription_nofault o w :
  faults w = [] ->
  findTierFromSubscription o w = (Ok (tier_of_price w (o_price_id o)), w).
Proof.
  intros H. unfold findTierFromSubscription, tier_of_price, try_catch, bind, get.
  destruct (find _ (DodoPriceModel w)) as [pr|]; [|reflexivity].
  destruct (find _ (DodoProductModel w)) as [pd|]; [|reflexivity].
  unfold tiersService_get, bind. rewrite (fault_none _ _ H). reflexivity.
Qed.

Lemma member_id_patch p m : member_id (apply_patch p m) = member_id m.
Proof. reflexivity. Qed.

Lemma existsb_update_member id id' p l :
  existsb (fun m => (member_id m =? id)%string) (update_member id' p l) =
  existsb (fun m => (member_id m =? id)%string) l.
Proof.
  induction l as [|m l IH]; [reflexivity|].
  cbn [update_member map existsb]. fold (update_member id' p l). rewrite IH.
  destruct (member_id m =? id'); reflexivity.
Qed.

Lemma find_update_member id id' p l :
  find (fun m => (member_id m =? id)%string) (update_member id' p l) =
  option_map (fun m => if (member_id m =? id')%string then apply_patch p m else m)
    (find (fun m => (member_id m =? id)%string) l).
Proof.
  induction l as [|m l IH]; [reflexivity|].
  cbn [update_member map find]. fold (update_member id' p l).
  destruct (member_id m =? id') eqn:E.
  - rewrite member_id_patch. destruct (member_id m =? id); [cbn; rewrite E; reflexivity|exact IH].
  - destruct (member_id m =? id); [cbn; rewrite E; reflexivity|exact IH].
Qed.

Lemma find_member_id id l m :
  find (fun m => (member_id m =? id)%string) l = Some m -> member_id m = id.
Proof. intros H. apply find_some in H. apply String.eqb_eq. apply H. Qed.

Lemma find_member_existsb id l m :
  find (fun m => (member_id m =? id)%string) l = Some m ->
  existsb (fun m => (member_id m =? id)%string) l = true.
Proof.
  intros H. apply existsb_exists. exists m. apply find_some in H. exact H.
Qed.

Lemma findMemberFromCustomerId_resolves w cid m :
  faults w = [] -> resolves w cid m ->
  findMemberFromCustomerId cid w = (Ok (Some m), w)
  /\ existsb (fun x => (member_id x =? member_id m)%string) (memberRepository w) = true.
Proof.
  intros Hf (row & Hrow & Hm). split.
  - unfold findMemberFromCustomerId, bind, get. rewrite Hrow.
    rewrite get_by_id_nofault by exact Hf. rewrite Hm. reflexivity.
  - rewrite (find_member_id _ _ _ Hm). eapply find_member_existsb. exact Hm.
Qed.

Lemma handleSubscriptionCreated_nofault w event o m :
  faults w = [] ->
  ev_data_object event = Some o ->
  resolves w (o_customer o) m ->
  exists w',
    handleSubscriptionCreated event w = (Ok tt, w')
    /\ stable w w'
    /\ memberRepository w' =
       created_effect (tier_of_price w (o_price_id o)) (member_id m) (memberRepository w).
Proof.
  intros Hf Ho Hm. unfold handleSubscriptionCreated. rewrite (data_object_some _ _ Ho).
  unfold bind at 1. unfold ret at 1. unfold bind at 1. unfold logging at 1, modify at 1.
  set (w1 := with_log _ w).
  assert (Hf1 : faults w1 = []) by exact Hf.
  assert (Hm1 : resolves w1 (o_customer o) m) by exact Hm.
  destruct (findMemberFromCustomerId_resolves _ _ _ Hf1 Hm1) as [Hfind Hex].
  unfold try_catch. unfold bind at 1. unfold findMemberFromSubscription. rewrite Hfind.
  unfold bind at 1. rewrite (update_nofault _ _ _ Hf1 Hex).
  set (w2 := with_members _ w1).
  unfold bind at 1. unfold grantTierAccess, try_catch. unfold bind at 1.
  assert (Hf2 : faults w2 = []) by exact Hf.
  rewrite (findTierFromSubscription_nofault _ _ Hf2).
  change (tier_of_price w2 (o_price_id o)) with (tier_of_price w (o_price_id o)).
  unfold created_effect.
  destruct (tier_of_price w (o_price_id o)) as [t|].
  - rewrite update_nofault; [| exact Hf2 |].
    2:{ unfold w2. cbn [memberRepository with_members]. rewrite existsb_update_member. exact Hex. }
    unfold logging, modify. eexists; split; [reflexivity|]. split; [repeat split|reflexivity].
  - unfold ret, logging, modify. eexists; split; [reflexivity|]. split; [repeat split|reflexivity].
Qed.

Lemma handleSubscriptionUpdated_nofault w event o m :
  faults w = [] ->
  ev_data_object event = Some o ->
  resolves w (o_customer o) m ->
  exists w',
    handleSubscriptionUpdated event w = (Ok tt, w')
    /\ stable w w'
    /\ memberRepository w' =
       update_member (member_id m)
         (updates_of (option_eqb String.eqb (o_status o) (Some "active"))
            (tier_of_price w (o_price_id o)))
         (memberRepository w).
Proof.
  intros Hf Ho Hm. unfold handleSubscriptionUpdated. rewrite (data_object_some _ _ Ho).
  unfold bind at 1. unfold ret at 1. unfold bind at 1. unfold logging at 1, modify at 1.
  set (w1 := with_log _ w).
  assert (Hf1 : faults w1 = []) by exact Hf.
  assert (Hm1 : resolves w1 (o_customer o) m) by exact Hm.
  destruct (findMemberFromCustomerId_resolves _ _ _ Hf1 Hm1) as [Hfind Hex].
  unfold try_catch at 1. unfold bind at 1. unfold findMemberFromSubscription. rewrite Hfind.
  unfold bind at 1. unfold updateMemberSubscription, try_catch. unfold bind at 1.
  unfold updates_of.
  destruct (option_eqb String.eqb (o_status o) (Some "active")).
  - unfold bind at 1. rewrite (findTierFromSubscription_nofault _ _ Hf1).
    change (tier_of_price w1 (o_price_id o)) with (tier_of_price w (o_price_id o)).
    destruct (tier_of_price w (o_price_id o)) as [t|]; unfold ret at 1;
      rewrite (update_nofault _ _ _ Hf1 Hex); unfold logging, modify;
      (eexists; split; [reflexivity|]; split; [repeat split|reflexivity]).
  - unfold ret at 1. rewrite (update_nofault _ _ _ Hf1 Hex). unfold logging, modify.
    eexists; split; [reflexivity|]. split; [repeat split|reflexivity].
Qed.

Lemma handleSubscriptionCancelled_nofault w event o m :
  faults w = [] ->
  ev_data_object event = Some o ->
  resolves w (o_customer o) m ->
  exists w',
    handleSubscriptionCancelled event w = (Ok tt, w')
    /\ stable w w'
    /\ memberRepository w' =
       update_member (member_id m) (tier_patch None)
         (update_member (member_id m) free_unsubscribed (memberRepository w)).
Proof.
  intros Hf Ho Hm. unfold handleSubscriptionCancelled. rewrite (data_object_some _ _ Ho).
  unfold bind at 1. unfold ret at 1. unfold bind at 1. unfold logging at 1, modify at 1.
  set (w1 := with_log _ w).
  assert (Hf1 : faults w1 = []) by exact Hf.
  assert (Hm1 : resolves w1 (o_customer o) m) by exact Hm.
  destruct (findMemberFromCustomerId_resolves _ _ _ Hf1 Hm1) as [Hfind Hex].
  unfold try_catch at 1. unfold bind at 1. unfold findMemberFromSubscription. rewrite Hfind.
  unfold bind at 1. rewrite (update_nofault _ _ _ Hf1 Hex).
  set (w2 := with_members _ w1).
  unfold bind at 1. unfold revokeTierAccess, try_catch.
  assert (Hf2 : faults w2 = []) by exact Hf.
  rewrite update_nofault; [| exact Hf2 |].
  2:{ unfold w2. cbn [memberRepository with_members]. rewrite existsb_update_member. exact Hex. }
  unfold logging, modify. eexists; split; [reflexivity|]. split; [repeat split|reflexivity].
Qed.

Lemma route_created event :
  ev_type event = Some "subscription.created" ->
  routeWebhookEvent event = handleSubscriptionCreated event.
Proof. intros H. unfold routeWebhookEvent. rewrite H. reflexivity. Qed.

Lemma route_updated event :
  ev_type event = Some "subscription.updated" ->
  routeWebhookEvent event = handleSubscriptionUpdated event.
Proof. intros H. unfold routeWebhookEvent. rewrite H. reflexivity. Qed.

Lemma route_cancelled event :
  ev_type event = Some "subscription.cancelled" ->
  routeWebhookEvent event = handleSubscriptionCancelled event.
Proof. intros H. unfold routeWebhookEvent. rewrite H. reflexivity. Qed.

Lemma resolves_update_member w w' cid m p :
  DodoCustomerModel w' = DodoCustomerModel w ->
  memberRepository w' = update_member (member_id m) p (memberRepository w) ->
  resolves w cid m ->
  resolves w' cid (apply_patch p m).
Proof.
  intros Hc Hl (row & Hrow & Hm). exists row. rewrite Hc, Hl. split; [exact Hrow|].
  rewrite find_update_member, Hm. cbn. rewrite String.eqb_refl. reflexivity.
Qed.

Lemma update_member_twice id p q l :
  update_member id q (update_member id p l) =
  map (fun m => if (member_id m =? id)%string then apply_patch q (apply_patch p m) else m) l.
Proof.
  unfold update_member. rewrite map_map. apply map_ext. intros m.
  destruct (member_id m =? id) eqn:E.
  - rewrite member_id_patch, E. reflexivity.
  - rewrite E. reflexivity.
Qed.

Lemma created_then_updated id t l :
  update_member id (updates_of true t) (created_effect t id l) =
  created_effect t id (update_member id (updates_of true t) l).
Proof.
  unfold created_effect. destruct t as [t|]; rewrite !update_member_twice.
  - unfold update_member. rewrite !map_map. apply map_ext. intros m.
    destruct (member_id m =? id) eqn:E; cbn; rewrite ?E; reflexivity.
  - reflexivity.
Qed.

Lemma created_effect_member id t l m :
  find (fun x => (member_id x =? id)%string) l = Some m ->
  member_id m = id ->
  option_map entitlement
    (find (fun x => (member_id x =? id)%string)
       (update_member id (updates_of true t) (created_effect t id l))) =
  Some ("paid", true, match t with Some t => Some (tier_id t) | None => member_tier m end).
Proof.
  intros Hm Hid. subst id. unfold created_effect.
  destruct t as [t|]; rewrite !find_update_member, Hm;
    cbn [option_map]; rewrite !String.eqb_refl;
    repeat (rewrite member_id_patch, String.eqb_refl); reflexivity.
Qed.

(** C2.  When nothing fails, the member resolves from the customer id of
    both events and both price ids resolve to the same tier (or to none),
    [subscription.created] then [subscription.updated], both active, leave
    the same member store as the opposite order: the member is paid,
    subscribed, and on the resolved tier. *)
Theorem created_updated_any_order :
  forall w created updated oc ou cid m,
    faults w = [] ->
    ev_type created = Some "subscription.created" ->
    ev_data_object created = Some oc ->
    ev_type updated = Some "subscription.updated" ->
    ev_data_object updated = Some ou ->
    o_status oc = Some "active" ->
    o_status ou = Some "active" ->
    o_customer oc = cid ->
    o_customer ou = cid ->
    resolves w cid m ->
    tier_of_price w (o_price_id oc) = tier_of_price w (o_price_id ou) ->
    let w12 := snd (routeWebhookEvent updated (snd (routeWebhookEvent created w))) in
    let w21 := snd (routeWebhookEvent created (snd (routeWebhookEvent updated w))) in
    memberRepository w12 = memberRepository w21
    /\ option_map entitlement (member_of w12 (member_id m)) =
       Some ("paid", true,
             match tier_of_price w (o_price_id ou) with
             | Some t => Some (tier_id t)
             | None => member_tier m
             end).
Proof.
  intros w created updated oc ou cid m Hf Htc Hoc Htu Hou Hsc Hsu Hcc Hcu Hm Ht.
  rewrite (route_created _ Htc), (route_updated _ Htu). subst cid.
  assert (Hmu : resolves w (o_customer ou) m) by (rewrite Hcu; exact Hm).
  (* created, then updated *)
  destruct (handleSubscriptionCreated_nofault w created oc m Hf Hoc Hm)
    as (w1 & E1 & S1 & L1).
  assert (Hm1 : exists m1, resolves w1 (o_customer ou) m1 /\ member_id m1 = member_id m).
  { destruct S1 as (_ & Hc1 & _). unfold created_effect in L1.
    destruct (tier_of_price w (o_price_id oc)) as [t|].
    - exists (apply_patch (tier_patch (Some (tier_id t))) (apply_patch paid_subscribed m)).
      split; [|reflexivity].
      apply (resolves_update_member
               (with_members (update_member (member_id m) paid_subscribed) w) w1
               (o_customer ou) (apply_patch paid_subscribed m)
               (tier_patch (Some (tier_id t)))); [exact Hc1 | exact L1 |].
      apply (resolves_update_member w _ _ m paid_subscribed);
        [reflexivity | reflexivity | exact Hmu].
    - exists (apply_patch paid_subscribed m). split; [|reflexivity].
      eapply resolves_update_member; [exact Hc1 | exact L1 | exact Hmu]. }
  destruct Hm1 as (m1 & Hm1 & Hid1).
  assert (Hf1 : faults w1 = []) by (destruct S1 as (F & _); rewrite F; exact Hf).
  destruct (handleSubscriptionUpdated_nofault w1 updated ou m1 Hf1 Hou Hm1)
    as (w12 & E12 & S12 & L12).
  (* updated, then created *)
  destruct (handleSubscriptionUpdated_nofault w updated ou m Hf Hou Hmu)
    as (w2 & E2 & S2 & L2).
  assert (Hm2 : exists m2, resolves w2 (o_customer oc) m2 /\ member_id m2 = member_id m).
  { destruct S2 as (_ & Hc2 & _).
    eexists. split; [eapply resolves_update_member; [exact Hc2 | exact L2 | exact Hm]|].
    reflexivity. }
  destruct Hm2 as (m2 & Hm2 & Hid2).
  assert (Hf2 : faults w2 = []) by (destruct S2 as (F & _); rewrite F; exact Hf).
  destruct (handleSubscriptionCreated_nofault w2 created oc m2 Hf2 Hoc Hm2)
    as (w21 & E21 & S21 & L21).
  cbv zeta. rewrite E1. cbn [snd]. rewrite E12. rewrite E2. cbn [snd]. rewrite E21.
  cbn [snd]. unfold member_of.
  rewrite L12, L1, L21, L2, Hid1, Hid2, Hsu.
  rewrite (stable_tier _ _ _ S1), (stable_tier _ _ _ S2), Ht.
  change (option_eqb String.eqb (Some "active") (Some "active")) with true.
  split.
  - apply created_then_updated.
  - destruct Hm as (row & Hrow & Hfind).
    pose proof (find_member_id _ _ _ Hfind) as Hid.
    apply created_effect_member.
    + rewrite Hid. exact Hfind.
    + reflexivity.
Qed.


(** ** One candidate of the price scan *)

Lemma makeRequest_ok rq w status j :
  provider w (sent w) rq = Response true status (Some j) ->
  DodoAPI.makeRequest rq w = (Ok j, with_sent (cons rq) w).
Proof. intros H. unfold DodoAPI.makeRequest, try_catch. rewrite H. reflexivity. Qed.

Lemma getPrice_ok pid w status j :
  provider w (sent w) (GetPrice pid) = Response true status (Some j) ->
  DodoAPI.getPrice pid w = (Ok (price_of_json j), with_sent (cons (GetPrice pid)) w).
Proof.
  intros H. unfold DodoAPI.getPrice, bind. rewrite (makeRequest_ok _ _ _ _ H). reflexivity.
Qed.

(** C1, as amended.  When the provider's record of a candidate is not
    verified, the loop writes the provider's own [active] flag, as a
    boolean, to the row of the candidate, and scans the remaining rows
    from the world so changed: the flag is [false] when the provider's
    price is not active. *)
Theorem price_candidate_healed :
  forall currency amount cadence id pid rest w status j,
    provider w (sent w) (GetPrice pid) = Response true status (Some j) ->
    price_verified (price_of_json j) currency amount cadence = false ->
    let w' := with_prices (heal id (provider_active j)) (with_sent (cons (GetPrice pid)) w) in
    getPriceForTierCadence_rows currency amount cadence ((id, pid) :: rest) w =
      getPriceForTierCadence_rows currency amount cadence rest w'
    /\ (forall r, In r (DodoPriceModel w') -> pr_id r = id ->
          pr_active r = Some (provider_active j))
    /\ (j_active j <> Some true ->
        forall r, In r (DodoPriceModel w') -> pr_id r = id -> pr_active r = Some false).
Proof.
  intros currency amount cadence id pid rest w status j Hget Hver w'.
  assert (Hrows : forall r, In r (DodoPriceModel w') -> pr_id r = id ->
                    pr_active r = Some (provider_active j)).
  { intros r Hin Hid. unfold w' in Hin. cbn [DodoPriceModel with_prices with_sent] in Hin.
    unfold heal in Hin. apply in_map_iff in Hin. destruct Hin as (r0 & Hr0 & _).
    destruct (pr_id r0 =? id)%nat eqn:E.
    - subst r. reflexivity.
    - subst r. apply Nat.eqb_neq in E. contradiction. }
  split; [|split].
  - cbn [getPriceForTierCadence_rows fst snd]. unfold bind at 1. unfold try_catch.
    unfold bind at 1. rewrite (getPrice_ok _ _ _ _ Hget), Hver.
    reflexivity.
  - exact Hrows.
  - intros Hin r Hr Hid. rewrite (Hrows r Hr Hid). unfold provider_active.
    destruct (j_active j) as [[|]|]; congruence.
Qed.

(** ** Customers that the provider has lost *)

Lemma makeRequest_not_ok rq w status j :
  provider w (sent w) rq = Response false status (Some j) ->
  DodoAPI.makeRequest rq w = (Throw (api_error status j), request_failed rq (api_error status j) w).
Proof. intros H. unfold DodoAPI.makeRequest, try_catch. rewrite H. reflexivity. Qed.







(** ** The requests that a call sends *)

Lemma sends_ret P A (a : A) : sends P (ret a).
Proof. intros w. exists []. split; [reflexivity|constructor]. Qed.

Lemma sends_throw P A e : sends P (@throw A e).
Proof. intros w. exists []. split; [reflexivity|constructor]. Qed.

Lemma sends_get P A (f : World -> A) : sends P (get f).
Proof. intros w. exists []. split; [reflexivity|constructor]. Qed.

Lemma sends_modify P f : (forall w, sent (f w) = sent w) -> sends P (modify f).
Proof. intros H w. exists []. split; [apply H|constructor]. Qed.

Lemma sends_logging P l msg : sends P (logging l msg).
Proof. apply sends_modify. reflexivity. Qed.

Lemma sends_bind P A B (m : M A) (f : A -> M B) :
  sends P m -> (forall a, sends P (f a)) -> sends P (bind m f).
Proof.
  intros Hm Hf w. unfold bind. destruct (Hm w) as (n1 & E1 & F1).
  destruct (m w) as [[a|e] w1]; cbn [snd] in *.
  - destruct (Hf a w1) as (n2 & E2 & F2). exists (n2 ++ n1).
    rewrite E2, E1, app_assoc. split; [reflexivity|]. apply Forall_app; split; assumption.
  - exists n1. split; assumption.
Qed.

Lemma sends_try_catch P A (m : M A) (h : JsError -> M A) :
  sends P m -> (forall e, sends P (h e)) -> sends P (try_catch m h).
Proof.
  intros Hm Hh w. unfold try_catch. destruct (Hm w) as (n1 & E1 & F1).
  destruct (m w) as [[a|e] w1]; cbn [snd] in *.
  - exists n1. split; assumption.
  - destruct (Hh e w1) as (n2 & E2 & F2). exists (n2 ++ n1).
    rewrite E2, E1, app_assoc. split; [reflexivity|]. apply Forall_app; split; assumption.
Qed.

Lemma sends_weaken (P Q : Request -> Prop) A (m : M A) :
  (forall rq, P rq -> Q rq) -> sends P m -> sends Q m.
Proof.
  intros H Hm w. destruct (Hm w) as (n & E & F). exists n. split; [exact E|].
  eapply Forall_impl; [exact H|exact F].
Qed.

Lemma sends_makeRequest (P : Request -> Prop) rq : P rq -> sends P (DodoAPI.makeRequest rq).
Proof.
  intros H w. exists [rq]. split; [|repeat constructor; exact H].
  unfold DodoAPI.makeRequest, try_catch.
  destruct (provider w (sent w) rq) as [e|ok status [j|]]; [| destruct ok |]; reflexivity.
Qed.

Ltac sends_step :=
  first [ apply sends_ret | apply sends_throw | apply sends_get | apply sends_logging
        | apply sends_modify; reflexivity
        | apply sends_makeRequest; reflexivity
        | apply sends_bind; [|intros ?]
        | apply sends_try_catch; [|intros ?] ].

Ltac sends_auto :=
  repeat first
    [ sends_step
    | match goal with
      | |- sends _ (match ?x with _ => _ end) => destruct x
      | |- sends _ (if ?b then _ else _) => destruct b
      end ].

Lemma sends_getCustomer cid : sends no_session (DodoAPI.getCustomer cid).
Proof. unfold DodoAPI.getCustomer. sends_auto. Qed.

Lemma sends_createCustomerForMember member : sends no_session (createCustomerForMember member).
Proof. unfold createCustomerForMember, DodoAPI.createCustomer. sends_auto. Qed.

Lemma sends_getCustomerForMember_rows rows : sends no_session (getCustomerForMember_rows rows).
Proof.
  induction rows as [|row rest IH]; cbn [getCustomerForMember_rows].
  - sends_auto.
  - apply sends_bind.
    + apply sends_try_catch; [|intros ?; sends_auto].
      apply sends_bind; [apply sends_getCustomer|intros ?; sends_auto].
    + intros [c|]; [sends_auto|exact IH].
Qed.

Lemma sends_getCustomerForMember member : sends no_session (getCustomerForMember member).
Proof.
  unfold getCustomerForMember. apply sends_bind; [sends_auto|intros rows].
  apply sends_bind; [apply sends_getCustomerForMember_rows|].
  intros [c|]; [sends_auto|apply sends_createCustomerForMember].
Qed.

Lemma sends_getProductForTier_rows rows : sends no_session (getProductForTier_rows rows).
Proof.
  induction rows as [|row rest IH]; cbn [getProductForTier_rows].
  - sends_auto.
  - apply sends_bind.
    + unfold DodoAPI.getProduct. sends_auto.
    + intros [c|]; [sends_auto|exact IH].
Qed.

Lemma sends_getProductForTier tier : sends no_session (getProductForTier tier).
Proof.
  unfold getProductForTier. apply sends_bind; [sends_auto|intros rows].
  apply sends_bind; [apply sends_getProductForTier_rows|].
  intros [c|]; [sends_auto|].
  unfold createProductForTier, DodoAPI.createProduct. sends_auto.
Qed.

Lemma sends_getPriceForTierCadence_rows currency amount cadence rows :
  sends no_session (getPriceForTierCadence_rows currency amount cadence rows).
Proof.
  induction rows as [|row rest IH]; cbn [getPriceForTierCadence_rows].
  - sends_auto.
  - apply sends_bind.
    + unfold DodoAPI.getPrice, edit_price_active. sends_auto.
    + intros [c|]; [sends_auto|exact IH].
Qed.

Lemma sends_getPriceForTierCadence tier cadence :
  sends no_session (getPriceForTierCadence tier cadence).
Proof.
  unfold getPriceForTierCadence.
  apply sends_bind; [apply sends_getProductForTier|intros product].
  apply sends_bind; [sends_auto|intros rows].
  apply sends_bind; [apply sends_getPriceForTierCadence_rows|].
  intros [c|]; [sends_auto|].
  unfold createPriceForTierCadence.
  apply sends_bind; [|intros ?; sends_auto].
  apply sends_bind; [apply sends_getProductForTier|intros product'].
  unfold DodoAPI.createPrice. sends_auto.
Qed.

Lemma sends_getCouponForOffer fuel offerId :
  sends no_session (getCouponForOffer fuel offerId).
Proof.
  induction fuel as [|fuel IH]; cbn [getCouponForOffer].
  - sends_auto.
  - apply sends_bind; [sends_auto|intros [row|]]; [|sends_auto].
    assert (Hc : sends no_session
      (offer <- get (fun w => find (fun o => (dto_id o =? offerId)%string) (offersAPI w)) ;;
       match offer with
       | None => throw (typeError "Cannot read properties of null (reading 'name')")
       | Some offer => createCouponForOffer offer ;; getCouponForOffer fuel offerId
       end)).
    { apply sends_bind; [sends_auto|intros [offer|]]; [|sends_auto].
      apply sends_bind; [|intros _; exact IH].
      unfold createCouponForOffer, DodoAPI.createCoupon, edit_offer_coupon. sends_auto. }
    destruct (or_discount_type row =? "trial"); [sends_auto|].
    destruct (or_dodo_coupon_id row) as [id|]; [destruct (id =? "")|]; try exact Hc.
    sends_auto.
Qed.

Lemma no_session_any c rq : no_session rq -> coupon_without_trial c rq.
Proof. intros H sd ->. discriminate. Qed.

Lemma getCouponForOffer_truthy fuel offerId :
  forall w c w1,
    getCouponForOffer fuel offerId w = (Ok (Some c), w1) -> c <> "".
Proof.
  induction fuel as [|fuel IH]; intros w c w1; cbn [getCouponForOffer].
  - discriminate.
  - unfold bind at 1. unfold get at 1.
    destruct (find _ (OfferModel w)) as [row|]; [|discriminate].
    assert (Hc : forall w,
      (offer <- get (fun w => find (fun o => (dto_id o =? offerId)%string) (offersAPI w)) ;;
       match offer with
       | None => throw (typeError "Cannot read properties of null (reading 'name')")
       | Some offer => createCouponForOffer offer ;; getCouponForOffer fuel offerId
       end) w = (Ok (Some c), w1) -> c <> "").
    { intros w0. unfold bind at 1. unfold get at 1.
      destruct (find _ (offersAPI w0)) as [offer|]; [|discriminate].
      unfold bind at 1. destruct (createCouponForOffer offer w0) as [[[]|e] w2]; [|discriminate].
      apply IH. }
    destruct (or_discount_type row =? "trial")%string; [discriminate|].
    destruct (or_dodo_coupon_id row) as [id|]; [|apply Hc].
    destruct (id =? "")%string eqn:E; [apply Hc|].
    intros H. injection H as -> _. apply String.eqb_neq. exact E.
Qed.

Lemma sends_createCheckoutSession_with_coupon priceId customer data c :
  data_coupon data = Some c -> c <> ""%string -> data_trialDays data = None ->
  sends (coupon_without_trial c) (DodoAPI.createCheckoutSession priceId customer data).
Proof.
  intros Hc Hne Ht. unfold DodoAPI.createCheckoutSession.
  apply sends_bind; [|intros ?; apply sends_ret].
  apply sends_makeRequest. intros sd Hsd. injection Hsd as <-.
  cbn [sd_coupon_id sd_trial_period_days]. rewrite Hc, Ht.
  cbn. apply String.eqb_neq in Hne. rewrite Hne. split; reflexivity.
Qed.

Lemma getPaymentLink_sessions_carry_coupon :
  forall fuel p offer c w w1,
    param_offer p = Some offer ->
    tier_id (param_tier p) = offer_tier offer ->
    offer_type offer <> "trial"%string ->
    getCouponForOffer fuel (offer_id offer) w = (Ok (Some c), w1) ->
    exists new,
      sent (snd (getPaymentLink fuel p w)) = new ++ sent w
      /\ Forall (coupon_without_trial c) new.
Proof.
  intros fuel p offer c w w1 Hoffer Htier Htype Hcoupon.
  assert (Hc : c <> ""%string) by (eapply getCouponForOffer_truthy; eauto).
  destruct (sends_getCouponForOffer fuel (offer_id offer) w) as (n0 & E0 & F0).
  rewrite Hcoupon in E0. cbn [snd] in E0.
  unfold getPaymentLink. rewrite Hoffer, Htier, String.eqb_refl. cbn [negb].
  apply String.eqb_neq in Htype. rewrite Htype.
  unfold bind at 1. unfold bind at 1. rewrite Hcoupon. unfold ret at 1. cbn [fst snd].
  match goal with
  | |- exists new, sent (snd (?R w1)) = _ /\ _ =>
      assert (HR : sends (coupon_without_trial c) R)
  end.
  { apply sends_bind.
    - destruct (param_member p) as [member|]; [|apply sends_ret].
      apply sends_bind; [|intros ?; apply sends_ret].
      eapply sends_weaken; [apply no_session_any|apply sends_getCustomerForMember].
    - intros customer. apply sends_bind.
      + eapply sends_weaken; [apply no_session_any|apply sends_getPriceForTierCadence].
      + intros price. apply sends_bind; [|intros ?; apply sends_ret].
        apply String.eqb_neq in Hc.
        apply sends_createCheckoutSession_with_coupon with (c := c).
        * cbn. rewrite Hc. cbn. destruct customer; [reflexivity|].
          destruct (truthy (param_email p)); reflexivity.
        * apply String.eqb_neq. exact Hc.
        * cbn. rewrite Hc. cbn. destruct customer; [reflexivity|].
          destruct (truthy (param_email p)); reflexivity. }
  destruct (HR w1) as (n1 & E1 & F1). exists (n1 ++ n0).
  rewrite E1, E0, app_assoc. split; [reflexivity|].
  apply Forall_app. split; [exact F1|].
  eapply Forall_impl; [apply no_session_any|exact F0].
Qed.

Lemma bind_Ok A B (m : M A) (f : A -> M B) w b w' :
  bind m f w = (Ok b, w') -> exists a w1, m w = (Ok a, w1) /\ f a w1 = (Ok b, w').
Proof.
  unfold bind. destruct (m w) as [[a|e] w1]; [|discriminate].
  intros H. exists a, w1. split; [reflexivity|exact H].
Qed.

Lemma makeRequest_sent rq w : sent (snd (DodoAPI.makeRequest rq w)) = rq :: sent w.
Proof.
  unfold DodoAPI.makeRequest, try_catch.
  destruct (provider w (sent w) rq) as [e|ok status [j|]]; [| destruct ok |]; reflexivity.
Qed.

Lemma getPaymentLink_ok_session fuel p offer c w w1 url w' :
  param_offer p = Some offer ->
  tier_id (param_tier p) = offer_tier offer ->
  offer_type offer <> "trial"%string ->
  getCouponForOffer fuel (offer_id offer) w = (Ok (Some c), w1) ->
  getPaymentLink fuel p w = (Ok url, w') ->
  exists sd rest,
    sent w' = PostCheckoutSession sd :: rest
    /\ sd_coupon_id sd = Some c /\ sd_trial_period_days sd = None.
Proof.
  intros Hoffer Htier Htype Hcoupon.
  assert (Hc : c <> ""%string) by (eapply getCouponForOffer_truthy; eauto).
  unfold getPaymentLink. rewrite Hoffer, Htier, String.eqb_refl. cbn [negb].
  apply String.eqb_neq in Htype. rewrite Htype.
  unfold bind at 1. unfold bind at 1. rewrite Hcoupon. unfold ret at 1. cbn [fst snd].
  intros H.
  apply bind_Ok in H. destruct H as (customer & w2 & _ & H).
  apply bind_Ok in H. destruct H as (price & w3 & _ & H).
  apply bind_Ok in H. destruct H as (session & w4 & H & Hret).
  injection Hret as _ <-.
  unfold DodoAPI.createCheckoutSession in H.
  apply bind_Ok in H. destruct H as (j & w5 & H & Hret).
  injection Hret as _ <-.
  match type of H with
  | DodoAPI.makeRequest ?rq _ = _ => pose proof (makeRequest_sent rq w3) as Hs
  end.
  rewrite H in Hs. cbn [snd] in Hs.
  eexists. eexists. split; [exact Hs|].
  apply String.eqb_neq in Hc.
  cbn. rewrite Hc. cbn.
  destruct customer; cbn; rewrite ?Hc; cbn.
  - split; reflexivity.
  - destruct (truthy (param_email p)); cbn; rewrite Hc; split; reflexivity.
Qed.


(** ** Resolution against the reference provider *)

Lemma same_tables_refl w : same_tables w w.
Proof. repeat split. Qed.

Lemma same_tables_trans w1 w2 w3 : same_tables w1 w2 -> same_tables w2 w3 -> same_tables w1 w3.
Proof. unfold same_tables. intuition congruence. Qed.

Section Reference.

Variable init : ProviderState.

Lemma ref_fetch w rq :
  runs_on init w ->
  provider w (sent w) rq = fst (ref_step (remote init w) rq).
Proof. intros H. rewrite H. reflexivity. Qed.

Lemma remote_sent w rq :
  remote init (with_sent (cons rq) w) = snd (ref_step (remote init w) rq).
Proof. reflexivity. Qed.

(** A lookup that finds [j]. *)
Lemma get_found (rq : Request) (w : World) (j : Json) :
  runs_on init w ->
  ref_step (remote init w) rq = (Response true 200 (Some j), remote init w) ->
  exists w',
    DodoAPI.makeRequest rq w = (Ok j, w')
    /\ runs_on init w' /\ remote init w' = remote init w /\ same_tables w w'.
Proof.
  intros Hr Hs. exists (with_sent (cons rq) w). split.
  - apply makeRequest_ok with (status := 200). rewrite (ref_fetch _ _ Hr), Hs. reflexivity.
  - split; [exact Hr|]. split; [|repeat split].
    rewrite remote_sent, Hs. reflexivity.
Qed.

(** A lookup that finds nothing. *)
Lemma get_missing (rq : Request) (w : World) (j : Json) :
  runs_on init w ->
  ref_step (remote init w) rq = (Response false 404 (Some j), remote init w) ->
  exists w',
    DodoAPI.makeRequest rq w = (Throw (api_error 404 j), w')
    /\ runs_on init w' /\ remote init w' = remote init w /\ same_tables w w'.
Proof.
  intros Hr Hs. exists (request_failed rq (api_error 404 j) w). split.
  - apply makeRequest_not_ok. rewrite (ref_fetch _ _ Hr), Hs. reflexivity.
  - split; [exact Hr|]. split; [|repeat split].
    unfold request_failed. change (remote init (with_log _ ?x)) with (remote init x).
    rewrite remote_sent, Hs. reflexivity.
Qed.

(** A creation. *)
Lemma post_created (rq : Request) (w : World) (j : Json) (s' : ProviderState) :
  runs_on init w ->
  ref_step (remote init w) rq = (Response true 200 (Some j), s') ->
  exists w',
    DodoAPI.makeRequest rq w = (Ok j, w')
    /\ runs_on init w' /\ remote init w' = s' /\ same_tables w w'.
Proof.
  intros Hr Hs. exists (with_sent (cons rq) w). split.
  - apply makeRequest_ok with (status := 200). rewrite (ref_fetch _ _ Hr), Hs. reflexivity.
  - split; [exact Hr|]. split; [|repeat split].
    rewrite remote_sent, Hs. reflexivity.
Qed.

End Reference.

(** *** Fresh identifiers *)

Lemma length_repeat_x n : String.length (repeat_x n) = n.
Proof. induction n; cbn; congruence. Qed.

Lemma fresh_id_longer used id :
  In id used -> String.length id < String.length (fresh_id used).
Proof.
  unfold fresh_id. rewrite length_repeat_x.
  induction used as [|u used IH]; [contradiction|].
  intros [->|H]; cbn [map fold_right]; [lia|]. specialize (IH H). lia.
Qed.

Lemma fresh_id_fresh used : ~ In (fresh_id used) used.
Proof. intros H. apply fresh_id_longer in H. lia. Qed.


Lemma lookup_json_app id l j :
  lookup_json id (l ++ [j]) =
  match lookup_json id l with
  | Some x => Some x
  | None => if (j_id j =? id)%string then Some j else None
  end.
Proof.
  unfold lookup_json. induction l as [|x l IH]; cbn [app find].
  - destruct (j_id j =? id)%string; reflexivity.
  - destruct (j_id x =? id)%string; [reflexivity|exact IH].
Qed.

Lemma lookup_json_id id l j : lookup_json id l = Some j -> j_id j = id.
Proof. unfold lookup_json. intros H. apply find_some in H. apply String.eqb_eq, H. Qed.

Lemma lookup_json_in id l j : lookup_json id l = Some j -> In (j_id j) (map j_id l).
Proof. unfold lookup_json. intros H. apply find_some in H. apply in_map, H. Qed.

Lemma lookup_fresh_none id l used :
  incl (map j_id l) used -> id = fresh_id used -> lookup_json id l = None.
Proof.
  intros Hincl ->. destruct (lookup_json (fresh_id used) l) as [j|] eqn:E; [|reflexivity].
  exfalso. apply (fresh_id_fresh used). apply Hincl.
  rewrite <- (lookup_json_id _ _ _ E). eapply lookup_json_in. exact E.
Qed.

(** *** Products *)

Lemma quiet_trans init w1 w2 w3 : quiet init w1 w2 -> quiet init w2 w3 -> quiet init w1 w3.
Proof.
  intros (R1 & S1 & T1) (R2 & S2 & T2). split; [exact R2|]. split; [congruence|].
  eapply same_tables_trans; eassumption.
Qed.

Lemma quiet_log init w l : runs_on init w -> quiet init w (with_log l w).
Proof. intros H. split; [exact H|]. split; [reflexivity|repeat split]. Qed.

Section ReferenceProducts.

Variable init : ProviderState.

Lemma getProduct_ref pid w :
  runs_on init w ->
  exists w',
    quiet init w w'
    /\ DodoAPI.getProduct pid w =
       (match lookup_json pid (ps_products (remote init w)) with
        | Some j => Ok (mkProduct (j_id j) (j_name j)
                          (match j_active j with Some false => false | _ => true end))
        | None => Throw (api_error 404 not_found_body)
        end, w').
Proof.
  intros Hr. unfold DodoAPI.getProduct, bind.
  destruct (lookup_json pid (ps_products (remote init w))) as [j|] eqn:E.
  - destruct (get_found init (GetProduct pid) w j Hr) as (w' & Hm & Hq).
    { cbn [ref_step]. rewrite E. reflexivity. }
    exists w'. split; [exact Hq|]. rewrite Hm. reflexivity.
  - destruct (get_missing init (GetProduct pid) w not_found_body Hr) as (w' & Hm & Hq).
    { cbn [ref_step]. rewrite E. reflexivity. }
    exists w'. split; [exact Hq|]. rewrite Hm. reflexivity.
Qed.

Lemma getProductForTier_rows_ref rows :
  forall w, runs_on init w ->
    exists w',
      getProductForTier_rows rows w =
        (Ok (first_some (live_product (ps_products (remote init w))) rows), w')
      /\ quiet init w w'.
Proof.
  induction rows as [|pid rest IH]; intros w Hr.
  - exists w. split; [reflexivity|]. split; [exact Hr|]. split; [reflexivity|apply same_tables_refl].
  - cbn [getProductForTier_rows first_some]. unfold bind at 1. unfold try_catch. unfold bind at 1.
    destruct (getProduct_ref pid w Hr) as (w1 & Hq1 & E1). rewrite E1.
    unfold live_product.
    destruct (lookup_json pid (ps_products (remote init w))) as [j|].
    + destruct (j_active j) as [[|]|]; cbn [product_active product_id]; unfold ret at 1.
      * exists w1. split; [reflexivity|exact Hq1].
      * destruct (IH w1 (proj1 Hq1)) as (w2 & E2 & Hq2).
        rewrite E2. rewrite (proj1 (proj2 Hq1)).
        exists w2. split; [reflexivity|]. eapply quiet_trans; eassumption.
      * exists w1. split; [reflexivity|exact Hq1].
    + unfold bind at 1. unfold logging at 1, modify at 1. unfold ret at 1.
      match goal with |- context [getProductForTier_rows rest ?x] => set (w1' := x) end.
      assert (Hq1' : quiet init w w1').
      { eapply quiet_trans; [exact Hq1|]. apply quiet_log. exact (proj1 Hq1). }
      destruct (IH w1' (proj1 Hq1')) as (w2 & E2 & Hq2).
      rewrite E2. rewrite (proj1 (proj2 Hq1')).
      exists w2. split; [reflexivity|]. eapply quiet_trans; eassumption.
Qed.

Lemma getProductForTier_settled tier w id :
  runs_on init w ->
  settled_product init w tier = Some id ->
  exists w', getProductForTier tier w = (Ok id, w') /\ quiet init w w'.
Proof.
  intros Hr Hs. unfold getProductForTier. unfold bind at 1. unfold get at 1.
  fold (product_rows w tier). unfold bind at 1.
  destruct (getProductForTier_rows_ref (product_rows w tier) w Hr) as (w1 & E1 & Hq1).
  rewrite E1. unfold settled_product in Hs. rewrite Hs.
  exists w1. split; [reflexivity|exact Hq1].
Qed.

Lemma ps_products_ids s : incl (map j_id (ps_products s)) (ps_ids s).
Proof.
  unfold ps_ids. intros x Hx. rewrite !map_app. apply in_or_app. right.
  apply in_or_app. left. exact Hx.
Qed.

Lemma first_live_after products j rows :
  lookup_json (j_id j) products = None ->
  j_active j = Some true ->
  first_some (live_product products) rows = None ->
  first_some (live_product (products ++ [j])) (rows ++ [j_id j]) = Some (j_id j).
Proof.
  intros Hfresh Hact. induction rows as [|pid rest IH]; cbn [app first_some]; intros Hnone.
  - unfold live_product. rewrite lookup_json_app, Hfresh, String.eqb_refl, Hact. reflexivity.
  - unfold live_product in *. rewrite lookup_json_app.
    destruct (lookup_json pid products) as [x|] eqn:E.
    + destruct (j_active x) as [[|]|]; try discriminate. apply IH. exact Hnone.
    + destruct (j_id j =? pid)%string eqn:Eid.
      * rewrite Hact. reflexivity.
      * apply IH. exact Hnone.
Qed.

Lemma getProductForTier_ref tier w :
  runs_on init w ->
  exists id w',
    getProductForTier tier w = (Ok id, w')
    /\ product_step init tier w w'
    /\ settled_product init w' tier = Some id.
Proof.
  intros Hr.
  destruct (settled_product init w tier) as [id|] eqn:Hs.
  - destruct (getProductForTier_settled tier w id Hr Hs) as (w' & E & Hq).
    exists id, w'. split; [exact E|]. split; [left; exact Hq|].
    unfold settled_product, product_rows in *.
    destruct Hq as (_ & Hrem & _ & Hp & _). rewrite Hrem, Hp. exact Hs.
  - unfold getProductForTier. unfold bind at 1. unfold get at 1.
    fold (product_rows w tier). unfold bind at 1.
    destruct (getProductForTier_rows_ref (product_rows w tier) w Hr) as (w1 & E1 & Hq1).
    rewrite E1. unfold settled_product in Hs. rewrite Hs.
    unfold createProductForTier, DodoAPI.createProduct.
    unfold bind at 1. unfold bind at 1. unfold bind at 1.
    destruct Hq1 as (Hr1 & Hrem1 & Ht1).
    destruct (post_created init (PostProduct (tier_name tier) "" "service") w1
                (new_product (remote init w) tier)
                (add_product (remote init w) (new_product (remote init w) tier)) Hr1)
      as (w2 & E2 & Hr2 & Hrem2 & Ht2).
    { rewrite Hrem1. reflexivity. }
    rewrite E2. unfold ret at 1. unfold bind at 1. unfold modify at 1. unfold ret at 1.
    cbn [product_id new_product j_id].
    eexists. eexists. split; [reflexivity|]. split.
    + right. split; [exact Hr2|]. split; [exact Hrem2|].
      destruct Ht1 as (C1 & P1 & R1 & O1 & A1). destruct Ht2 as (C2 & P2 & R2 & O2 & A2).
      cbn. rewrite P2, P1, C2, C1, R2, R1, O2, O1, A2, A1. repeat split.
    + unfold settled_product, product_rows.
      change (remote init (with_products ?f ?x)) with (remote init x).
      rewrite Hrem2.
      cbn [DodoProductModel with_products add_product ps_products].
      destruct Ht1 as (C1 & P1 & R1 & O1 & A1). destruct Ht2 as (C2 & P2 & R2 & O2 & A2).
      rewrite P2, P1, filter_app, map_app. cbn [filter prod_product_id option_eqb].
      rewrite String.eqb_refl. cbn [map prod_dodo_product_id].
      apply (first_live_after (ps_products (remote init w)) (new_product (remote init w) tier)).
      * eapply lookup_fresh_none; [apply ps_products_ids|reflexivity].
      * reflexivity.
      * exact Hs.
Qed.

End ReferenceProducts.

(** *** Customers *)

Section ReferenceCustomers.

Variable init : ProviderState.








End ReferenceCustomers.

(** *** Prices *)

Section PriceScanFacts.

Variables (prices : list Json) (currency : string) (amount : Z) (cadence : Cadence).

Local Abbreviation healed_row := (healed_row prices currency amount cadence).
Local Abbreviation verdict := (verdict prices currency amount cadence).
Local Abbreviation verified := (verified prices currency amount cadence).
Local Abbreviation healed_table := (healed_table prices currency amount cadence).
Local Abbreviation first_verified := (first_verified prices currency amount cadence).

Lemma healed_row_id r r' : healed_row r r' -> pr_id r' = pr_id r.
Proof. intros [->|(a & _ & ->)]; reflexivity. Qed.

Lemma healed_row_price r r' : healed_row r r' -> pr_dodo_price_id r' = pr_dodo_price_id r.
Proof. intros [->|(a & _ & ->)]; reflexivity. Qed.

Lemma heal_healed rows tbl tbl' id pid a :
  rows_of rows tbl -> In (id, pid) rows ->
  verdict pid = Diverged a ->
  Forall2 healed_row tbl tbl' ->
  Forall2 healed_row tbl (heal id a tbl').
Proof.
  intros Hrows Hin Hv H.
  assert (Hall : forall r, In r tbl -> pr_id r = id -> pr_dodo_price_id r = pid)
    by (apply (Hrows id pid Hin)).
  clear Hrows Hin. induction H as [|r r' l l' Hr Hl IH]; cbn [heal map]; constructor.
  - destruct (pr_id r' =? id)%nat eqn:E; [|exact Hr].
    apply Nat.eqb_eq in E. right. exists a. split.
    + rewrite (Hall r (or_introl eq_refl)); [exact Hv|].
      rewrite <- (healed_row_id _ _ Hr). exact E.
    + destruct Hr as [->|(a' & _ & ->)]; reflexivity.
  - apply IH. intros r0 H0. apply Hall. right. exact H0.
Qed.

Lemma healed_table_healed rows :
  forall tbl tbl',
    rows_of rows tbl -> Forall2 healed_row tbl tbl' ->
    Forall2 healed_row tbl (healed_table rows tbl').
Proof.
  induction rows as [|[id pid] rest IH]; intros tbl tbl' Hrows H; cbn [healed_table fst snd].
  - exact H.
  - assert (Hrest : rows_of rest tbl).
    { intros i p Hi. apply Hrows. right. exact Hi. }
    destruct (verdict pid) as [x|a|] eqn:Hv.
    + exact H.
    + apply IH; [exact Hrest|].
      eapply heal_healed; [exact Hrows|left; reflexivity|exact Hv|exact H].
    + apply IH; assumption.
Qed.

Lemma first_verified_healed q tbl tbl' :
  Forall2 healed_row tbl tbl' ->
  first_verified q tbl' = first_verified q tbl.
Proof.
  unfold first_verified. induction 1 as [|r r' l l' Hr Hl IH]; [reflexivity|].
  cbn [filter].
  assert (Hnone : forall a, verdict (pr_dodo_price_id r) = Diverged a ->
                    forall i, verified (i, pr_dodo_price_id r) = None).
  { intros a Hv i. unfold verified. cbn [snd]. rewrite Hv. reflexivity. }
  destruct Hr as [->|(a & Hv & ->)].
  - destruct (q r); cbn [map first_some]; [rewrite IH|]; [reflexivity|exact IH].
  - destruct (q (set_active (Some a) r)), (q r); cbn [map first_some pr_id pr_dodo_price_id set_active];
      rewrite ?(Hnone a Hv); exact IH.
Qed.

End PriceScanFacts.

Lemma NoDup_pr_id (tbl : list DodoPriceRow) r1 r2 :
  NoDup (map pr_id tbl) -> In r1 tbl -> In r2 tbl -> pr_id r1 = pr_id r2 -> r1 = r2.
Proof.
  induction tbl as [|r l IH]; [contradiction|].
  cbn [map]. intros Hnd H1 H2 Hid. inversion Hnd as [|x xs Hnot Hnd']; subst.
  destruct H1 as [->|H1], H2 as [->|H2].
  - reflexivity.
  - exfalso. apply Hnot. rewrite Hid. apply in_map. exact H2.
  - exfalso. apply Hnot. rewrite <- Hid. apply in_map. exact H1.
  - apply IH; assumption.
Qed.

Lemma rows_of_query (q : DodoPriceRow -> bool) tbl :
  NoDup (map pr_id tbl) ->
  rows_of (map (fun r => (pr_id r, pr_dodo_price_id r)) (filter q tbl)) tbl.
Proof.
  intros Hnd id pid Hin r Hr Hid.
  apply in_map_iff in Hin. destruct Hin as (r0 & E0 & H0).
  apply filter_In in H0. destruct H0 as [H0 _].
  injection E0 as E1 E2. subst id pid.
  rewrite (NoDup_pr_id tbl r r0 Hnd Hr H0 Hid). reflexivity.
Qed.

Lemma quiet_quiet_but_prices init w w' : quiet init w w' -> quiet_but_prices init w w'.
Proof. intros (R & S & C & P & _ & O & A). repeat split; assumption. Qed.

Lemma quiet_but_prices_trans init w1 w2 w3 :
  quiet_but_prices init w1 w2 -> quiet_but_prices init w2 w3 -> quiet_but_prices init w1 w3.
Proof. unfold quiet_but_prices. intuition congruence. Qed.

Section ReferencePrices.

Variable init : ProviderState.

Lemma getPrice_ref pid w :
  runs_on init w ->
  exists w',
    quiet init w w'
    /\ DodoAPI.getPrice pid w =
       (match lookup_json pid (ps_prices (remote init w)) with
        | Some j => Ok (price_of_json j)
        | None => Throw (api_error 404 not_found_body)
        end, w').
Proof.
  intros Hr. unfold DodoAPI.getPrice, bind.
  destruct (lookup_json pid (ps_prices (remote init w))) as [j|] eqn:E.
  - destruct (get_found init (GetPrice pid) w j Hr) as (w' & Hm & Hq).
    { cbn [ref_step]. rewrite E. reflexivity. }
    exists w'. split; [exact Hq|]. rewrite Hm. reflexivity.
  - destruct (get_missing init (GetPrice pid) w not_found_body Hr) as (w' & Hm & Hq).
    { cbn [ref_step]. rewrite E. reflexivity. }
    exists w'. split; [exact Hq|]. rewrite Hm. reflexivity.
Qed.

Lemma getPriceForTierCadence_rows_ref currency amount cadence rows :
  forall w, runs_on init w ->
    exists w',
      getPriceForTierCadence_rows currency amount cadence rows w =
        (Ok (first_some (verified (ps_prices (remote init w)) currency amount cadence) rows), w')
      /\ quiet_but_prices init w w'
      /\ DodoPriceModel w' =
         healed_table (ps_prices (remote init w)) currency amount cadence rows
           (DodoPriceModel w).
Proof.
  induction rows as [|[id pid] rest IH]; intros w Hr.
  - exists w. split; [reflexivity|]. split; [|reflexivity]. repeat split. exact Hr.
  - cbn [getPriceForTierCadence_rows first_some healed_table fst snd].
    unfold bind at 1. unfold try_catch. unfold bind at 1.
    destruct (getPrice_ref pid w Hr) as (w1 & Hq1 & E1). rewrite E1.
    unfold verified, verdict. cbn [snd].
    destruct (lookup_json pid (ps_prices (remote init w))) as [j|].
    + destruct (price_verified (price_of_json j) currency amount cadence).
      * unfold ret at 1. exists w1. split; [reflexivity|].
        split; [apply quiet_quiet_but_prices; exact Hq1|].
        destruct Hq1 as (_ & _ & _ & _ & Hp & _). exact Hp.
      * unfold bind at 1. unfold edit_price_active, modify at 1. unfold ret at 1.
        match goal with |- context [getPriceForTierCadence_rows _ _ _ rest ?x] => set (w2 := x) end.
        assert (Hq2 : quiet_but_prices init w w2).
        { destruct Hq1 as (R & S & C & P & _ & O & A). repeat split; assumption. }
        destruct (IH w2 (proj1 Hq2)) as (w3 & E3 & Hq3 & Hp3).
        rewrite E3. rewrite (proj1 (proj2 Hq2)) in *.
        exists w3. split; [reflexivity|].
        split; [eapply quiet_but_prices_trans; eassumption|].
        rewrite Hp3. unfold w2. cbn [DodoPriceModel with_prices].
        destruct Hq1 as (_ & _ & _ & _ & Hp & _). rewrite Hp. reflexivity.
    + unfold bind at 1. unfold logging at 1, modify at 1.
      unfold bind at 1. unfold logging at 1, modify at 1. unfold ret at 1.
      match goal with |- context [getPriceForTierCadence_rows _ _ _ rest ?x] => set (w2 := x) end.
      assert (Hq2 : quiet init w w2).
      { destruct Hq1 as (R & S & T). split; [exact R|]. split; [exact S|exact T]. }
      destruct (IH w2 (proj1 Hq2)) as (w3 & E3 & Hq3 & Hp3).
      rewrite E3. rewrite (proj1 (proj2 Hq2)) in *.
      exists w3. split; [reflexivity|].
      split; [eapply quiet_but_prices_trans; [apply quiet_quiet_but_prices|]; eassumption|].
      rewrite Hp3. destruct Hq2 as (_ & _ & _ & _ & Hp & _). rewrite Hp. reflexivity.
Qed.

End ReferencePrices.

Lemma lower_ascii_idem c : lower_ascii (lower_ascii c) = lower_ascii c.
Proof. destruct c as [[] [] [] [] [] [] [] []]; reflexivity. Qed.

Lemma toLowerCase_idem s : toLowerCase (toLowerCase s) = toLowerCase s.
Proof. induction s as [|c s IH]; cbn; [reflexivity|]. rewrite lower_ascii_idem, IH. reflexivity. Qed.

Lemma one_more_refl l : one_more l l.
Proof. left. reflexivity. Qed.

Lemma first_verified_after prices currency amount cadence rows j n :
  lookup_json (j_id j) prices = None ->
  price_verified (price_of_json j) currency amount cadence = true ->
  first_some (verified prices currency amount cadence) rows = None ->
  first_some (verified (prices ++ [j]) currency amount cadence) (rows ++ [(n, j_id j)]) =
    Some (j_id j).
Proof.
  intros Hfresh Hver. induction rows as [|[i pid] rest IH]; cbn [app first_some]; intros Hnone.
  - unfold verified, verdict. cbn [snd].
    rewrite lookup_json_app, Hfresh, String.eqb_refl, Hver. reflexivity.
  - unfold verified, verdict in *. cbn [snd] in *. rewrite lookup_json_app.
    destruct (lookup_json pid prices) as [x|] eqn:E.
    + destruct (price_verified (price_of_json x) currency amount cadence); [discriminate|].
      apply IH. exact Hnone.
    + destruct (j_id j =? pid)%string eqn:Eid.
      * rewrite Hver. reflexivity.
      * apply IH. exact Hnone.
Qed.

Section ReferencePriceResolution.

Variable init : ProviderState.

Lemma ps_prices_ids s : incl (map j_id (ps_prices s)) (ps_ids s).
Proof.
  unfold ps_ids. intros x Hx. rewrite !map_app. apply in_or_app. right.
  apply in_or_app. right. apply in_or_app. left. exact Hx.
Qed.

Lemma new_price_verified s tier cadence :
  price_verified (price_of_json (new_price s tier cadence))
    (toLowerCase (tier_currency tier)) (getPrice_of tier cadence) cadence = true.
Proof.
  unfold price_verified, price_of_json, new_price. cbn.
  rewrite toLowerCase_idem, String.eqb_refl, Z.eqb_refl, String.eqb_refl. reflexivity.
Qed.

Lemma product_step_facts tier w w' :
  runs_on init w ->
  product_step init tier w w' ->
  runs_on init w'
  /\ DodoPriceModel w' = DodoPriceModel w
  /\ ps_prices (remote init w') = ps_prices (remote init w)
  /\ ps_customers (remote init w') = ps_customers (remote init w)
  /\ ps_coupons (remote init w') = ps_coupons (remote init w)
  /\ one_more (ps_products (remote init w)) (ps_products (remote init w')).
Proof.
  intros Hr [(R & S & _ & _ & P & _)|(R & S & _ & _ & P & _)].
  - rewrite S. repeat split; try assumption. apply one_more_refl.
  - rewrite S. repeat split; try assumption. right. eexists. reflexivity.
Qed.

Lemma settled_product_same tier w w' :
  remote init w' = remote init w ->
  DodoProductModel w' = DodoProductModel w ->
  settled_product init w' tier = settled_product init w tier.
Proof. intros S P. unfold settled_product, product_rows. rewrite S, P. reflexivity. Qed.

Lemma getPriceForTierCadence_settled tier cadence w x :
  runs_on init w ->
  settled_price init w tier cadence = Some x ->
  exists w', getPriceForTierCadence tier cadence w = (Ok x, w')
             /\ quiet_but_prices init w w'.
Proof.
  intros Hr Hs. unfold settled_price in Hs.
  destruct (settled_product init w tier) as [product|] eqn:Hp; [|discriminate].
  destruct (getProductForTier_settled init tier w product Hr Hp) as (w1 & E1 & Hq1).
  unfold getPriceForTierCadence. unfold bind at 1. rewrite E1.
  unfold bind at 1. unfold get at 1. unfold bind at 1.
  destruct Hq1 as (R1 & S1 & C1 & P1 & T1 & O1 & A1).
  destruct (getPriceForTierCadence_rows_ref init (toLowerCase (tier_currency tier))
              (getPrice_of tier cadence) cadence
              (map (fun r => (pr_id r, pr_dodo_price_id r))
                 (filter (price_row_matches product (toLowerCase (tier_currency tier)) cadence
                            (getPrice_of tier cadence)) (DodoPriceModel w1))) w1 R1)
    as (w2 & E2 & Hq2 & _).
  rewrite E2. rewrite S1, T1.
  unfold first_verified, price_query in Hs. rewrite Hs.
  exists w2. split; [reflexivity|].
  eapply quiet_but_prices_trans; [|exact Hq2]. repeat split; assumption.
Qed.

End ReferencePriceResolution.

Lemma Forall2_refl_healed prices currency amount cadence tbl :
  Forall2 (healed_row prices currency amount cadence) tbl tbl.
Proof. induction tbl; constructor; [left; reflexivity|assumption]. Qed.

Section ReferencePriceCreation.

Variable init : ProviderState.

Lemma getPriceForTierCadence_ref tier cadence w :
  runs_on init w ->
  NoDup (map pr_id (DodoPriceModel w)) ->
  exists x w',
    getPriceForTierCadence tier cadence w = (Ok x, w')
    /\ price_step init w w'
    /\ settled_price init w' tier cadence = Some x.
Proof.
  intros Hr Hnd.
  destruct (getProductForTier_ref init tier w Hr) as (product & w1 & E1 & Hstep & Hp1).
  destruct (product_step_facts init tier w w1 Hr Hstep)
    as (R1 & T1 & SP1 & SC1 & SK1 & SO1).
  unfold getPriceForTierCadence. unfold bind at 1. rewrite E1.
  unfold bind at 1. unfold get at 1. unfold bind at 1.
  set (currency := toLowerCase (tier_currency tier)).
  set (amount := getPrice_of tier cadence).
  set (q := price_row_matches product currency cadence amount).
  set (rows := map (fun r => (pr_id r, pr_dodo_price_id r)) (filter q (DodoPriceModel w1))).
  destruct (getPriceForTierCadence_rows_ref init currency amount cadence rows w1 R1)
    as (w2 & E2 & Hq2 & T2).
  rewrite E2.
  destruct Hq2 as (R2 & S2 & C2 & P2 & O2 & A2).
  set (prices := ps_prices (remote init w1)) in *.
  assert (Hheal : Forall2 (healed_row prices currency amount cadence)
                    (DodoPriceModel w1) (DodoPriceModel w2)).
  { rewrite T2. apply healed_table_healed; [|apply Forall2_refl_healed].
    apply rows_of_query. rewrite T1. exact Hnd. }
  assert (Hfv : first_verified prices currency amount cadence q (DodoPriceModel w2) =
                first_some (verified prices currency amount cadence) rows).
  { rewrite (first_verified_healed _ _ _ _ _ _ _ Hheal). reflexivity. }
  assert (Hp2 : settled_product init w2 tier = Some product).
  { rewrite (settled_product_same init tier w1 w2 S2 P2). exact Hp1. }
  destruct (first_some (verified prices currency amount cadence) rows) as [x|] eqn:Hres.
  - (* a cached price is verified *)
    exists x, w2. split; [reflexivity|]. split.
    + split; [exact R2|]. rewrite S2. repeat split; try assumption.
      left. exact SP1.
    + unfold settled_price. rewrite Hp2, S2. exact Hfv.
  - (* no candidate survives: a price is created *)
    unfold createPriceForTierCadence. unfold bind at 1. unfold bind at 1.
    destruct (getProductForTier_settled init tier w2 product R2 Hp2) as (w3 & E3 & Hq3).
    rewrite E3. destruct Hq3 as (R3 & S3 & C3 & P3 & T3 & O3 & A3).
    unfold bind at 1. unfold DodoAPI.createPrice. unfold bind at 1.
    destruct (post_created init
                (PostPrice (mkPriceData product (toLowerCase (tier_currency tier))
                              (getPrice_of tier cadence) (Some (cadence_str cadence))
                              (match cadence with Month => "Monthly" | Year => "Yearly" end)
                              true))
                w3 (new_price (remote init w3) tier cadence)
                (add_price (remote init w3) (new_price (remote init w3) tier cadence)) R3)
      as (w4 & E4 & R4 & S4 & C4 & P4 & T4 & O4 & A4).
    { reflexivity. }
    cbn [pi_product pi_currency pi_amount pi_type pi_interval pi_nickname pi_active].
    change ("recurring" =? "recurring")%string with true. cbv iota.
    rewrite E4. unfold ret at 1. unfold bind at 1. unfold modify at 1. unfold ret at 1.
    cbn [price_id price_active price_nickname price_currency price_unit_amount
         new_price j_id j_active j_nickname j_currency j_unit_amount j_recurring].
    eexists. eexists. split; [reflexivity|]. split.
    + split; [exact R4|].
      change (remote init (with_prices ?f ?x)) with (remote init x).
      rewrite S4, S3, S2. cbn [add_price ps_customers ps_coupons ps_products ps_prices].
      repeat split; try assumption.
      right. eexists. unfold prices in SP1. rewrite SP1. reflexivity.
    + unfold settled_price.
      assert (Hp5 : settled_product init
                      (with_prices
                         (fun rows0 => rows0 ++
                            [mkPriceRow (fresh_row_id rows0) (fresh_id (ps_ids (remote init w3)))
                               product (Some true)
                               (Some (match cadence with Month => "Monthly" | Year => "Yearly" end))
                               (toLowerCase (tier_currency tier)) (getPrice_of tier cadence)
                               "recurring" (Some (cadence_str cadence))]) w4) tier =
                    Some product).
      { rewrite <- Hp2. unfold settled_product, product_rows.
        change (remote init (with_prices ?f ?x)) with (remote init x).
        cbn [DodoProductModel with_prices]. rewrite S4, P4, P3, S3. reflexivity. }
      rewrite Hp5.
      change (remote init (with_prices ?f ?x)) with (remote init x).
      rewrite S4. cbn [DodoPriceModel with_prices add_price ps_prices].
      rewrite T4, T3, S3, S2. fold prices. fold currency. fold amount.
      unfold first_verified, price_query. fold currency. fold amount. fold q.
      rewrite filter_app, map_app.
      assert (Hq : q (mkPriceRow (fresh_row_id (DodoPriceModel w2))
                        (fresh_id (ps_ids (remote init w1))) product (Some true)
                        (Some (match cadence with Month => "Monthly" | Year => "Yearly" end))
                        currency amount "recurring" (Some (cadence_str cadence))) = true).
      { unfold q, price_row_matches. cbn.
        rewrite !String.eqb_refl, Z.eqb_refl. reflexivity. }
      cbn [filter]. rewrite Hq. cbn [map pr_id pr_dodo_price_id].
      apply (first_verified_after prices currency amount cadence _
               (new_price (remote init w1) tier cadence)).
      * eapply lookup_fresh_none; [apply ps_prices_ids|reflexivity].
      * apply new_price_verified.
      * rewrite <- Hfv. reflexivity.
Qed.

End ReferencePriceCreation.

(** *** Coupons *)

Lemma find_edit_offer offerId coupon tbl row :
  find (fun r => (or_id r =? offerId)%string) tbl = Some row ->
  find (fun r => (or_id r =? offerId)%string)
    (map (fun r => if (or_id r =? offerId)%string
                   then mkOfferRow (or_id r) (Some coupon) (or_discount_type r) else r) tbl) =
  Some (mkOfferRow (or_id row) (Some coupon) (or_discount_type row)).
Proof.
  induction tbl as [|r l IH]; [discriminate|]. cbn [find map].
  destruct (or_id r =? offerId)%string eqn:E.
  - intros H. injection H as ->. cbn [find or_id]. rewrite E. reflexivity.
  - intros H. rewrite E. apply IH. exact H.
Qed.

Section ReferenceCoupons.

Variable init : ProviderState.



End ReferenceCoupons.



(** ** The checkout link *)

(** C4.  When an offer that is not a trial applies and its coupon resolves
    to [c], every checkout session that [getPaymentLink] sends carries the
    coupon [c] and no trial days, whatever the trial days of the tier; and
    when the call returns a link, the last request sent is such a
    session. *)
Theorem coupon_excludes_trial :
  forall fuel p offer c w w1,
    param_offer p = Some offer ->
    tier_id (param_tier p) = offer_tier offer ->
    offer_type offer <> "trial"%string ->
    getCouponForOffer fuel (offer_id offer) w = (Ok (Some c), w1) ->
    (exists new,
        sent (snd (getPaymentLink fuel p w)) = new ++ sent w
        /\ Forall (coupon_without_trial c) new)
    /\ (forall url w',
          getPaymentLink fuel p w = (Ok url, w') ->
          exists sd rest,
            sent w' = PostCheckoutSession sd :: rest
            /\ sd_coupon_id sd = Some c /\ sd_trial_period_days sd = None).
Proof.
  intros fuel p offer c w w1 Hoffer Htier Htype Hcoupon. split.
  - eapply getPaymentLink_sessions_carry_coupon; eassumption.
  - intros url w' Hok. eapply getPaymentLink_ok_session; eassumption.
Qed.

(** C7.  An offer on another tier makes [getPaymentLink] throw a
    [BadRequestError] and leave the world as it was: no customer, coupon or
    price is resolved, and no request is sent. *)
Theorem getPaymentLink_offer_tier_mismatch :
  forall fuel p offer w,
    param_offer p = Some offer ->
    tier_id (param_tier p) <> offer_tier offer ->
    getPaymentLink fuel p w =
      (Throw (badRequest "This Offer is not valid for the Tier"), w).
Proof.
  intros fuel p offer w Hoffer Hneq.
  unfold getPaymentLink.
  rewrite Hoffer.
  apply String.eqb_neq in Hneq. rewrite Hneq. reflexivity.
Qed.

(** C9.  For an offer stored with the discount kind [trial],
    [getCouponForOffer] returns [null]; for an offer of another kind stored
    with a coupon id, it returns that id.  In both cases the world is as it
    was: nothing is created. *)
Theorem getCouponForOffer_trial_or_stored :
  forall fuel offerId row w,
    find (fun r => (or_id r =? offerId)%string) (OfferModel w) = Some row ->
    (or_discount_type row = "trial"%string ->
       getCouponForOffer (S fuel) offerId w = (Ok None, w))
    /\ (forall id,
          or_discount_type row <> "trial"%string ->
          or_dodo_coupon_id row = Some id ->
          id <> ""%string ->
          getCouponForOffer (S fuel) offerId w = (Ok (Some id), w)).
Proof.
  intros fuel offerId row w Hrow. split.
  - intros Htrial. simpl. unfold_m. rewrite Hrow, Htrial. reflexivity.
  - intros id Hkind Hid Hne. simpl. unfold_m. rewrite Hrow.
    apply String.eqb_neq in Hkind. rewrite Hkind, Hid.
    apply String.eqb_neq in Hne. rewrite Hne. reflexivity.
Qed.

(** ** Lapsed subscriptions *)

(** What an update with a status other than [active] leaves of the
    entitlement when nothing fails: the subscribed flag is the one the
    member had. *)
Lemma inactive_update_entitlement w event o m :
  faults w = [] ->
  ev_data_object event = Some o ->
  option_eqb String.eqb (o_status o) (Some "active"%string) = false ->
  resolves w (o_customer o) m ->
  option_map entitlement
    (member_of (snd (handleSubscriptionUpdated event w)) (member_id m)) =
  Some ("free"%string, member_subscribed m, None).
Proof.
  intros Hf Ho Hs Hm.
  destruct (handleSubscriptionUpdated_nofault w event o m Hf Ho Hm) as (w' & E & _ & L).
  rewrite E. cbn [snd]. unfold member_of. rewrite L, Hs, find_update_member.
  destruct Hm as (row & _ & Hfind).
  pose proof (find_member_id _ _ _ Hfind) as Hid. rewrite <- Hid in Hfind. rewrite Hfind.
  cbn [option_map]. rewrite String.eqb_refl. reflexivity.
Qed.

(** What a cancellation leaves of it. *)
Lemma cancelled_entitlement w event o m :
  faults w = [] ->
  ev_data_object event = Some o ->
  resolves w (o_customer o) m ->
  option_map entitlement
    (member_of (snd (handleSubscriptionCancelled event w)) (member_id m)) =
  Some ("free"%string, false, None).
Proof.
  intros Hf Ho Hm.
  destruct (handleSubscriptionCancelled_nofault w event o m Hf Ho Hm) as (w' & E & _ & L).
  rewrite E. cbn [snd]. unfold member_of. rewrite L, !find_update_member.
  destruct Hm as (row & _ & Hfind).
  pose proof (find_member_id _ _ _ Hfind) as Hid. rewrite <- Hid in Hfind. rewrite Hfind.
  cbn [option_map]. rewrite String.eqb_refl, member_id_patch, String.eqb_refl. reflexivity.
Qed.

(** C3.  The code on a subscribed member: [subscription.updated] with the
    status [cancelled] leaves the member free and without a tier but still
    subscribed, where [subscription.cancelled] clears the flag. *)
Theorem inactive_update_keeps_subscribed :
  option_map entitlement
    (member_of (snd (routeWebhookEvent (updated_event "cancelled") (member_world bob []))) "m1") =
    Some ("free"%string, true, None)
  /\ option_map entitlement
       (member_of (snd (routeWebhookEvent cancelled_event (member_world bob []))) "m1") =
     Some ("free"%string, false, None).
Proof. split; reflexivity. Qed.

(** * The properties on the example worlds *)

(** C1 as the specification has it fails here: the provider holds the price
    as active with another amount, and after the call the cached row is
    still active. *)
Lemma diverged_active_price_stays_active :
  fst (DodoAPI.getPrice "price_1" (drifted_world true 900)) =
    Ok (price_of_json (price_1 true 900))
  /\ price_verified (price_of_json (price_1 true 900)) "usd" 500 Month = false
  /\ map (fun r => (pr_id r, pr_dodo_price_id r, pr_active r))
       (DodoPriceModel (snd (getPriceForTierCadence gold Month (drifted_world true 900)))) =
     [(1, "price_1"%string, Some true); (2, "xxxxxxxx"%string, Some true)].
Proof. split; [reflexivity|]. split; reflexivity. Qed.

Lemma price_candidate_healed_witness :
  provider (drifted_world false 500) (sent (drifted_world false 500)) (GetPrice "price_1") =
    Response true 200 (Some (price_1 false 500))
  /\ price_verified (price_of_json (price_1 false 500)) "usd" 500 Month = false
  /\ getPriceForTierCadence_rows "usd" 500 Month [(1, "price_1"%string)]
       (drifted_world false 500) =
     getPriceForTierCadence_rows "usd" 500 Month []
       (with_prices (heal 1 false)
          (with_sent (cons (GetPrice "price_1")) (drifted_world false 500))).
Proof.
  split; [reflexivity|]. split; [reflexivity|].
  apply (proj1 (price_candidate_healed "usd" 500 Month 1 "price_1" []
                 (drifted_world false 500) 200 (price_1 false 500) eq_refl eq_refl)).
Defined.

Lemma created_updated_any_order_witness :
  memberRepository
    (snd (routeWebhookEvent (updated_event "active")
            (snd (routeWebhookEvent created_event (member_world alice []))))) =
  memberRepository
    (snd (routeWebhookEvent created_event
            (snd (routeWebhookEvent (updated_event "active") (member_world alice [])))))
  /\ option_map entitlement
       (member_of
          (snd (routeWebhookEvent (updated_event "active")
                  (snd (routeWebhookEvent created_event (member_world alice [])))))
          "m1") =
     Some ("paid"%string, true, Some "t1"%string).
Proof.
  apply (created_updated_any_order (member_world alice []) created_event
           (updated_event "active") (subscription "cus_1" "active")
           (subscription "cus_1" "active") (Some "cus_1"%string) alice);
    try reflexivity.
  eexists. split; reflexivity.
Defined.

Lemma coupon_excludes_trial_witness :
  tier_trialDays (param_tier (checkout "t1")) = Some 7%Z
  /\ getCouponForOffer 1 "o1" (offer_world (Some "coupon_1"%string)) =
       (Ok (Some "coupon_1"%string), offer_world (Some "coupon_1"%string))
  /\ exists new,
       sent (snd (getPaymentLink 1 (checkout "t1") (offer_world (Some "coupon_1"%string)))) =
         new ++ sent (offer_world (Some "coupon_1"%string))
       /\ Forall (coupon_without_trial "coupon_1") new.
Proof.
  split; [reflexivity|]. split; [reflexivity|].
  apply (proj1 (coupon_excludes_trial 1 (checkout "t1") (mkOffer "o1" "t1" "percent" 20)
                 "coupon_1" (offer_world (Some "coupon_1"%string))
                 (offer_world (Some "coupon_1"%string))
                 eq_refl eq_refl ltac:(discriminate) eq_refl)).
Defined.

(** The session of that checkout, as it is sent. *)
Example checkout_with_coupon_and_trial_default :
  hd_error (sent (snd (getPaymentLink 1 (checkout "t1") (offer_world (Some "coupon_1"%string))))) =
  Some (PostCheckoutSession
          (mkSessionData "xx" "https://example.com/ok" "https://example.com/cancel" []
             "subscription" None (Some "alice@example.com"%string) None
             (Some "coupon_1"%string))).
Proof. reflexivity. Qed.

(** C5.  A signed request whose payload parses to an event of a recognised
    type without [data] is answered 400, with the message of the
    [TypeError] that the handler throws before its [try], and the error is
    logged by the endpoint; the same event under an unknown type is
    acknowledged with 200, and so is an event whose handler fails inside
    its [try]. *)
Lemma recognised_event_without_object_is_rejected :
  signature_valid (member_world alice []) "whsec" (signed "{payment.succeeded}") = true
  /\ parsed_event (member_world alice []) (signed "{payment.succeeded}") =
       Some (mkEvent (Some "payment.succeeded"%string) (NoData Undefined))
  /\ handleWebhook "whsec" (signed "{payment.succeeded}") (member_world alice []) =
       (Ok (mkResponse 400
              (ErrorBody "Cannot read properties of undefined (reading 'object')")),
        with_log
          (fun _ =>
             [(Error,
               ("Dodo webhook error: " ++
                "Cannot read properties of undefined (reading 'object')")%string);
              (Info, "Processing Dodo webhook: payment.succeeded"%string)])
          (member_world alice []))
  /\ fst (handleWebhook "whsec" (signed "{subscription.created cus_1}")
            (member_world alice [true; true])) = Ok (mkResponse 200 (Received true)).
Proof. split; [reflexivity|]. split; [reflexivity|]. split; reflexivity. Qed.


Lemma getPaymentLink_offer_tier_mismatch_witness :
  tier_id (param_tier (checkout "t2")) <> "t2"%string
  /\ getPaymentLink 1 (checkout "t2") (offer_world None) =
       (Throw (badRequest "This Offer is not valid for the Tier"), offer_world None).
Proof.
  split; [discriminate|].
  apply (getPaymentLink_offer_tier_mismatch 1 (checkout "t2")
           (mkOffer "o1" "t2" "percent" 20) (offer_world None) eq_refl).
  discriminate.
Defined.

Lemma webhook_unknown_customer_witness :
  (exists w1,
      routeWebhookEvent
        (mkEvent (Some "subscription.created"%string) (Object (subscription "cus_9" "active")))
        (member_world alice []) = (Ok tt, w1)
      /\ memberRepository w1 = memberRepository (member_world alice []))
  /\ responds 200
       (handleWebhook "whsec" (signed "{subscription.created cus_9}") (member_world alice []))
  /\ memberRepository
       (snd (handleWebhook "whsec" (signed "{subscription.created cus_9}")
               (member_world alice []))) =
     memberRepository (member_world alice []).
Proof.
  apply (webhook_unknown_customer (member_world alice []) "whsec"
           (signed "{subscription.created cus_9}")
           (mkEvent (Some "subscription.created"%string) (Object (subscription "cus_9" "active")))
           (subscription "cus_9" "active") "cus_9");
    try reflexivity.
  - discriminate.
  - intros r [<-|[]]. discriminate.
Defined.

Lemma getCouponForOffer_trial_or_stored_witness :
  getCouponForOffer 1 "o2" (offer_world (Some "coupon_1"%string)) =
    (Ok None, offer_world (Some "coupon_1"%string))
  /\ getCouponForOffer 1 "o1" (offer_world (Some "coupon_1"%string)) =
       (Ok (Some "coupon_1"%string), offer_world (Some "coupon_1"%string)).
Proof.
  split.
  - apply (proj1 (getCouponForOffer_trial_or_stored 0 "o2" (mkOfferRow "o2" None "trial")
                    (offer_world (Some "coupon_1"%string)) eq_refl)).
    reflexivity.
  - apply (proj2 (getCouponForOffer_trial_or_stored 0 "o1"
                    (mkOfferRow "o1" (Some "coupon_1"%string) "percent")
                    (offer_world (Some "coupon_1"%string)) eq_refl) "coupon_1"%string).
    + discriminate.
    + reflexivity.
    + discriminate.
Defined.




(** * Further properties *)

(** ** What a call leaves alone *)

Section Keeps.

Variable R : World -> World -> Prop.
Hypothesis R_refl : forall w, R w w.
Hypothesis R_trans : forall w1 w2 w3, R w1 w2 -> R w2 w3 -> R w1 w3.

Lemma keeps_ret A (a : A) : keeps R (ret a).
Proof. intros w. apply R_refl. Qed.

Lemma keeps_throw A e : keeps R (@throw A e).
Proof. intros w. apply R_refl. Qed.

Lemma keeps_get A (f : World -> A) : keeps R (get f).
Proof. intros w. apply R_refl. Qed.

Lemma keeps_modify f : (forall w, R w (f w)) -> keeps R (modify f).
Proof. intros H w. apply H. Qed.

Lemma keeps_bind A B (m : M A) (f : A -> M B) :
  keeps R m -> (forall a, keeps R (f a)) -> keeps R (bind m f).
Proof.
  intros Hm Hf w. unfold bind. specialize (Hm w).
  destruct (m w) as [[a|e] w1]; cbn [snd] in *.
  - eapply R_trans; [exact Hm|apply Hf].
  - exact Hm.
Qed.

Lemma keeps_try_catch A (m : M A) (h : JsError -> M A) :
  keeps R m -> (forall e, keeps R (h e)) -> keeps R (try_catch m h).
Proof.
  intros Hm Hh w. unfold try_catch. specialize (Hm w).
  destruct (m w) as [[a|e] w1]; cbn [snd] in *.
  - exact Hm.
  - eapply R_trans; [exact Hm|apply Hh].
Qed.

End Keeps.

Lemma webhook_frame_refl w : webhook_frame w w.
Proof. repeat split. Qed.

Lemma webhook_frame_trans w1 w2 w3 :
  webhook_frame w1 w2 -> webhook_frame w2 w3 -> webhook_frame w1 w3.
Proof. unfold webhook_frame. intuition congruence. Qed.

Ltac frame_step refl trans :=
  lazymatch goal with
  | |- keeps _ (ret _) => apply keeps_ret; exact refl
  | |- keeps _ (throw _) => apply keeps_throw; exact refl
  | |- keeps _ (get _) => apply keeps_get; exact refl
  | |- keeps _ (modify _) => apply keeps_modify; intros ?; repeat split
  | |- keeps _ (logging _ _) => unfold logging; apply keeps_modify; intros ?; repeat split
  | |- keeps _ (bind _ _) => apply keeps_bind; [exact trans | | intros ?]
  | |- keeps _ (try_catch _ _) => apply keeps_try_catch; [exact trans | | intros ?]
  | |- keeps _ (match ?x with _ => _ end) => destruct x
  | |- keeps _ (if ?b then _ else _) => destruct b
  end.

Ltac frame_auto refl trans := repeat frame_step refl trans.

Ltac webhook_auto := frame_auto webhook_frame_refl webhook_frame_trans.

Lemma keeps_fault what : keeps webhook_frame (fault what).
Proof. intros w. unfold fault. destruct (faults w) as [|[|] rest]; repeat split. Qed.

Lemma keeps_get_by_id id : keeps webhook_frame (memberRepo.get_by_id id).
Proof.
  unfold memberRepo.get_by_id.
  apply keeps_bind; [exact webhook_frame_trans|apply keeps_fault|intros _; webhook_auto].
Qed.

Lemma keeps_get_by_email email : keeps webhook_frame (memberRepo.get_by_email email).
Proof.
  unfold memberRepo.get_by_email.
  apply keeps_bind; [exact webhook_frame_trans|apply keeps_fault|intros _; webhook_auto].
Qed.

Lemma keeps_update id p : keeps webhook_frame (memberRepo.update id p).
Proof.
  unfold memberRepo.update, logging.
  apply keeps_bind; [exact webhook_frame_trans|apply keeps_fault|intros _; webhook_auto].
Qed.

Lemma keeps_tiersService_get id : keeps webhook_frame (tiersService_get id).
Proof.
  unfold tiersService_get.
  apply keeps_bind; [exact webhook_frame_trans|apply keeps_fault|intros _; webhook_auto].
Qed.

Lemma keeps_findMemberFromCustomerId cid : keeps webhook_frame (findMemberFromCustomerId cid).
Proof.
  unfold findMemberFromCustomerId.
  apply keeps_bind; [exact webhook_frame_trans|webhook_auto|].
  intros [row|]; [apply keeps_get_by_id|webhook_auto].
Qed.

Lemma keeps_findMemberFromPayment o : keeps webhook_frame (findMemberFromPayment o).
Proof.
  unfold findMemberFromPayment.
  destruct (truthy (o_customer o)); [apply keeps_findMemberFromCustomerId|].
  destruct (o_customer_email o) as [email|]; [|webhook_auto].
  destruct (email =? "")%string; [webhook_auto|apply keeps_get_by_email].
Qed.

Lemma keeps_findTierFromSubscription o : keeps webhook_frame (findTierFromSubscription o).
Proof.
  unfold findTierFromSubscription, logging.
  apply keeps_try_catch; [exact webhook_frame_trans| |intros ?; webhook_auto].
  apply keeps_bind; [exact webhook_frame_trans|webhook_auto|].
  intros [pr|]; [|webhook_auto].
  apply keeps_bind; [exact webhook_frame_trans|webhook_auto|].
  intros [pd|]; [apply keeps_tiersService_get|webhook_auto].
Qed.

Ltac webhook_calls :=
  repeat first
    [ apply keeps_update
    | apply keeps_findMemberFromCustomerId
    | apply keeps_findMemberFromPayment
    | apply keeps_findTierFromSubscription
    | frame_step webhook_frame_refl webhook_frame_trans ].

Lemma keeps_routeWebhookEvent event : keeps webhook_frame (routeWebhookEvent event).
Proof.
  unfold routeWebhookEvent, handlePaymentSucceeded, handlePaymentFailed,
    handleSubscriptionCreated, handleSubscriptionUpdated, handleSubscriptionCancelled,
    handleCustomerCreated, handleCustomerUpdated, handleInvoicePaymentSucceeded,
    handleInvoicePaymentFailed, handlePaymentSucceeded, handlePaymentFailed,
    grantTierAccess, revokeTierAccess, updateMemberSubscription,
    findMemberFromSubscription, findMemberFromCustomer, data_object, logging.
  webhook_calls.
Qed.

(** X1.  Whatever the request, [handleWebhook] sends nothing to the
    provider and writes to no cache table: the requests sent, the customer,
    product and price tables, the offers, the tiers and the provider are
    afterwards what they were.  A webhook changes the member store, the
    fault schedule and the log, and nothing else. *)
Theorem handleWebhook_leaves_cache_and_provider :
  forall secret req w,
    webhook_frame w (snd (handleWebhook secret req w)).
Proof.
  intros secret req. change (keeps webhook_frame (handleWebhook secret req)).
  unfold handleWebhook, DodoAPI.verifyWebhookSignature, DodoAPI.parseWebhook, logging.
  apply keeps_try_catch; [exact webhook_frame_trans| |intros ?; webhook_auto].
  apply keeps_bind; [exact webhook_frame_trans|webhook_auto|intros isValid].
  apply keeps_bind; [exact webhook_frame_trans|webhook_auto|intros _].
  apply keeps_bind; [exact webhook_frame_trans|webhook_auto|intros event].
  apply keeps_bind; [exact webhook_frame_trans|webhook_auto|intros _].
  apply keeps_bind; [exact webhook_frame_trans|apply keeps_routeWebhookEvent|intros _].
  webhook_auto.
Qed.

(** ** What reconciliation leaves alone *)

Lemma extends_refl A (l : list A) : extends l l.
Proof. exists []. symmetry. apply app_nil_r. Qed.

Lemma extends_trans A (l1 l2 l3 : list A) : extends l1 l2 -> extends l2 l3 -> extends l1 l3.
Proof. intros [a ->] [b ->]. exists (a ++ b). symmetry. apply app_assoc. Qed.

Lemma reconciliation_frame_same w w' :
  memberRepository w' = memberRepository w -> faults w' = faults w ->
  tiersService w' = tiersService w -> offersAPI w' = offersAPI w ->
  provider w' = provider w ->
  DodoCustomerModel w' = DodoCustomerModel w -> DodoProductModel w' = DodoProductModel w ->
  DodoPriceModel w' = DodoPriceModel w -> OfferModel w' = OfferModel w ->
  reconciliation_frame w w'.
Proof.
  intros Hm Hf Ht Ho Hp Hc Hd Hr Hx. unfold reconciliation_frame.
  rewrite Hm, Hf, Ht, Ho, Hp, Hc, Hd, Hr, Hx.
  repeat (split; [first [reflexivity | apply extends_refl]|]). exact (fun H => H).
Qed.

Lemma reconciliation_frame_refl w : reconciliation_frame w w.
Proof. apply reconciliation_frame_same; reflexivity. Qed.

Lemma reconciliation_frame_trans w1 w2 w3 :
  reconciliation_frame w1 w2 -> reconciliation_frame w2 w3 -> reconciliation_frame w1 w3.
Proof.
  intros (Hm & Hf & Ht & Ho & Hp & Hc & Hd & Hr & Hx & Hn)
         (Hm' & Hf' & Ht' & Ho' & Hp' & Hc' & Hd' & Hr' & Hx' & Hn').
  unfold reconciliation_frame.
  repeat (split; [first [congruence | eapply extends_trans; eassumption]|]).
  intros H. apply Hn', Hn, H.
Qed.

Lemma fresh_row_id_above rows n : In n (map pr_id rows) -> n < fresh_row_id rows.
Proof.
  unfold fresh_row_id. induction rows as [|r rows IH]; cbn [map fold_right In]; [tauto|].
  intros [<-|H]; [lia|]. specialize (IH H). lia.
Qed.

Lemma map_pr_id_heal id a rows : map pr_id (heal id a rows) = map pr_id rows.
Proof.
  unfold heal. rewrite map_map. apply map_ext. intros r. destruct (pr_id r =? id)%nat; reflexivity.
Qed.

Lemma map_forget_active_heal id a rows :
  map forget_active (heal id a rows) = map forget_active rows.
Proof.
  unfold heal. rewrite map_map. apply map_ext. intros r. destruct (pr_id r =? id)%nat; reflexivity.
Qed.

Lemma keeps_log_recon l msg : keeps reconciliation_frame (logging l msg).
Proof. intros w. apply reconciliation_frame_same; reflexivity. Qed.

Lemma keeps_makeRequest_recon rq : keeps reconciliation_frame (DodoAPI.makeRequest rq).
Proof.
  intros w. unfold DodoAPI.makeRequest, try_catch, bind, logging, modify, throw.
  destruct (provider w (sent w) rq) as [e|ok status [j|]]; [| destruct ok|];
    apply reconciliation_frame_same; reflexivity.
Qed.

Lemma keeps_add_customer row :
  keeps reconciliation_frame (modify (with_customers (fun rows => rows ++ [row]))).
Proof.
  intros w. unfold reconciliation_frame. cbn.
  repeat (split; [first [reflexivity | apply extends_refl | eexists; reflexivity]|]).
  exact (fun H => H).
Qed.

Lemma keeps_add_product row :
  keeps reconciliation_frame (modify (with_products (fun rows => rows ++ [row]))).
Proof.
  intros w. unfold reconciliation_frame. cbn.
  repeat (split; [first [reflexivity | apply extends_refl | eexists; reflexivity]|]).
  exact (fun H => H).
Qed.

Lemma keeps_add_price a b c d e f g h :
  keeps reconciliation_frame
    (modify (with_prices (fun rows => rows ++ [mkPriceRow (fresh_row_id rows) a b c d e f g h]))).
Proof.
  intros w. unfold reconciliation_frame. cbn.
  repeat (split; [first [reflexivity | apply extends_refl]|]).
  split; [rewrite map_app; eexists; reflexivity|].
  split; [reflexivity|].
  intros H. rewrite map_app. cbn. apply NoDup_app; [exact H|repeat constructor; intros []|].
  intros n Hn [<-|[]]. apply fresh_row_id_above in Hn. lia.
Qed.

Lemma keeps_heal id a : keeps reconciliation_frame (modify (with_prices (heal id a))).
Proof.
  intros w. unfold reconciliation_frame. cbn.
  rewrite map_forget_active_heal, map_pr_id_heal.
  repeat (split; [first [reflexivity | apply extends_refl]|]). exact (fun H => H).
Qed.

Lemma keeps_edit_offer coupon id : keeps reconciliation_frame (edit_offer_coupon coupon id).
Proof.
  intros w. unfold reconciliation_frame. cbn.
  repeat (split; [first [reflexivity | apply extends_refl]|]).
  split; [|exact (fun H => H)].
  rewrite map_map. apply map_ext. intros r. destruct (or_id r =? id)%string; reflexivity.
Qed.

Ltac recon_prim :=
  lazymatch goal with
  | |- keeps _ (DodoAPI.makeRequest _) => apply keeps_makeRequest_recon
  | |- keeps _ (logging _ _) => apply keeps_log_recon
  | |- keeps _ (modify (with_customers _)) => apply keeps_add_customer
  | |- keeps _ (modify (with_products _)) => apply keeps_add_product
  | |- keeps _ (modify (with_prices (heal _ _))) => apply keeps_heal
  | |- keeps _ (modify (with_prices _)) => apply keeps_add_price
  | |- keeps _ (edit_offer_coupon _ _) => apply keeps_edit_offer
  | |- keeps _ (let x := _ in _) => cbv zeta
  | _ => frame_step reconciliation_frame_refl reconciliation_frame_trans
  end.

Ltac recon_auto := repeat recon_prim.

Ltac unfold_api :=
  unfold DodoAPI.createCheckoutSession, DodoAPI.createCustomer, DodoAPI.getCustomer,
    DodoAPI.createProduct, DodoAPI.getProduct, DodoAPI.createPrice, DodoAPI.getPrice,
    DodoAPI.createCoupon, edit_price_active.

Lemma keeps_createCustomerForMember member :
  keeps reconciliation_frame (createCustomerForMember member).
Proof. unfold createCustomerForMember. unfold_api. recon_auto. Qed.

Lemma keeps_getCustomerForMember_rows rows :
  keeps reconciliation_frame (getCustomerForMember_rows rows).
Proof.
  induction rows as [|row rest IH]; cbn [getCustomerForMember_rows]; unfold_api; recon_auto.
  exact IH.
Qed.

Lemma keeps_getCustomerForMember member :
  keeps reconciliation_frame (getCustomerForMember member).
Proof.
  unfold getCustomerForMember.
  apply keeps_bind; [exact reconciliation_frame_trans|recon_auto|intros rows].
  apply keeps_bind; [exact reconciliation_frame_trans|apply keeps_getCustomerForMember_rows|].
  intros [c|]; [recon_auto|apply keeps_createCustomerForMember].
Qed.

Lemma keeps_createProductForTier tier : keeps reconciliation_frame (createProductForTier tier).
Proof. unfold createProductForTier. unfold_api. recon_auto. Qed.

Lemma keeps_getProductForTier_rows rows :
  keeps reconciliation_frame (getProductForTier_rows rows).
Proof.
  induction rows as [|row rest IH]; cbn [getProductForTier_rows]; unfold_api; recon_auto.
  exact IH.
Qed.

Lemma keeps_getProductForTier tier : keeps reconciliation_frame (getProductForTier tier).
Proof.
  unfold getProductForTier.
  apply keeps_bind; [exact reconciliation_frame_trans|recon_auto|intros rows].
  apply keeps_bind; [exact reconciliation_frame_trans|apply keeps_getProductForTier_rows|].
  intros [c|]; [recon_auto|].
  apply keeps_bind; [exact reconciliation_frame_trans|apply keeps_createProductForTier|].
  intros ?. recon_auto.
Qed.

Lemma keeps_createPriceForTierCadence tier cadence :
  keeps reconciliation_frame (createPriceForTierCadence tier cadence).
Proof.
  unfold createPriceForTierCadence.
  apply keeps_bind; [exact reconciliation_frame_trans|apply keeps_getProductForTier|intros product].
  unfold_api. recon_auto.
Qed.

Lemma keeps_getPriceForTierCadence_rows currency amount cadence rows :
  keeps reconciliation_frame (getPriceForTierCadence_rows currency amount cadence rows).
Proof.
  induction rows as [|row rest IH]; cbn [getPriceForTierCadence_rows]; unfold_api; recon_auto.
  exact IH.
Qed.

Lemma keeps_getPriceForTierCadence tier cadence :
  keeps reconciliation_frame (getPriceForTierCadence tier cadence).
Proof.
  unfold getPriceForTierCadence.
  apply keeps_bind; [exact reconciliation_frame_trans|apply keeps_getProductForTier|intros product].
  cbv zeta.
  apply keeps_bind; [exact reconciliation_frame_trans|recon_auto|intros rows].
  apply keeps_bind;
    [exact reconciliation_frame_trans|apply keeps_getPriceForTierCadence_rows|].
  intros [c|]; [recon_auto|].
  apply keeps_bind;
    [exact reconciliation_frame_trans|apply keeps_createPriceForTierCadence|].
  intros ?. recon_auto.
Qed.

Lemma keeps_createCouponForOffer offer : keeps reconciliation_frame (createCouponForOffer offer).
Proof. unfold createCouponForOffer. unfold_api. recon_auto. Qed.

Lemma keeps_getCouponForOffer fuel offerId :
  keeps reconciliation_frame (getCouponForOffer fuel offerId).
Proof.
  induction fuel as [|fuel IH]; cbn [getCouponForOffer]; [recon_auto|].
  assert (Hcreate : keeps reconciliation_frame
    (offer <- get (fun w => find (fun o => (dto_id o =? offerId)%string) (offersAPI w)) ;;
     match offer with
     | None => throw (typeError "Cannot read properties of null (reading 'name')")
     | Some offer => createCouponForOffer offer ;; getCouponForOffer fuel offerId
     end)).
  { apply keeps_bind; [exact reconciliation_frame_trans|recon_auto|].
    intros [offer|]; [|recon_auto].
    apply keeps_bind;
      [exact reconciliation_frame_trans|apply keeps_createCouponForOffer|intros _; exact IH]. }
  apply keeps_bind; [exact reconciliation_frame_trans|recon_auto|].
  intros [row|]; [|recon_auto].
  destruct (or_discount_type row =? "trial")%string; [recon_auto|].
  cbv zeta. destruct (or_dodo_coupon_id row) as [id|]; [|exact Hcreate].
  destruct (id =? "")%string; [exact Hcreate|recon_auto].
Qed.

(** X2.  Whatever the parameters and whatever the provider answers,
    [getPaymentLink] leaves the members alone and calls neither the member
    repository nor the tier service.  In the cache it only adds rows at the
    end of the customer, product and price tables, writes the [active] flag
    of price rows and the coupon id of offer rows, and keeps the primary
    keys of the price rows unique. *)
Theorem getPaymentLink_leaves_members_and_keeps_rows :
  forall fuel p w, reconciliation_frame w (snd (getPaymentLink fuel p w)).
Proof.
  intros fuel p. change (keeps reconciliation_frame (getPaymentLink fuel p)).
  unfold getPaymentLink. cbv zeta.
  apply keeps_bind; [exact reconciliation_frame_trans| |intros ct].
  { destruct (param_offer p) as [offer|]; [|recon_auto].
    destruct (negb (tier_id (param_tier p) =? offer_tier offer)%string); [recon_auto|].
    destruct (offer_type offer =? "trial")%string; [recon_auto|].
    apply keeps_bind;
      [exact reconciliation_frame_trans|apply keeps_getCouponForOffer|intros ?; recon_auto]. }
  apply keeps_bind; [exact reconciliation_frame_trans| |intros customer].
  { destruct (param_member p) as [member|]; [|recon_auto].
    apply keeps_bind;
      [exact reconciliation_frame_trans|apply keeps_getCustomerForMember|intros ?; recon_auto]. }
  apply keeps_bind;
    [exact reconciliation_frame_trans|apply keeps_getPriceForTierCadence|intros price].
  unfold_api. recon_auto.
Qed.

(** ** Events that only observe *)

Lemma members_kept_refl w : members_kept w w.
Proof. reflexivity. Qed.

Lemma members_kept_trans w1 w2 w3 : members_kept w1 w2 -> members_kept w2 w3 -> members_kept w1 w3.
Proof. unfold members_kept. congruence. Qed.

Ltac observe_auto := frame_auto members_kept_refl members_kept_trans.

Lemma observes_fault what : keeps members_kept (fault what).
Proof. intros w. unfold fault. destruct (faults w) as [|[|] rest]; reflexivity. Qed.

Lemma observes_findMemberFromPayment o : keeps members_kept (findMemberFromPayment o).
Proof.
  unfold findMemberFromPayment, findMemberFromCustomerId, memberRepo.get_by_id,
    memberRepo.get_by_email.
  destruct (truthy (o_customer o)).
  - apply keeps_bind; [exact members_kept_trans|observe_auto|].
    intros [row|]; [|observe_auto].
    apply keeps_bind; [exact members_kept_trans|apply observes_fault|intros _; observe_auto].
  - destruct (o_customer_email o) as [email|]; [|observe_auto].
    destruct (email =? "")%string; [observe_auto|].
    apply keeps_bind; [exact members_kept_trans|apply observes_fault|intros _; observe_auto].
Qed.

Lemma observes_handlePaymentFailed event : keeps members_kept (handlePaymentFailed event).
Proof.
  unfold handlePaymentFailed, data_object.
  apply keeps_bind; [exact members_kept_trans|observe_auto|intros payment].
  apply keeps_bind; [exact members_kept_trans|observe_auto|intros _].
  apply keeps_try_catch; [exact members_kept_trans| |intros ?; observe_auto].
  apply keeps_bind; [exact members_kept_trans|apply observes_findMemberFromPayment|].
  intros [m|]; observe_auto.
Qed.

Lemma observes_handleInvoicePaymentFailed event :
  keeps members_kept (handleInvoicePaymentFailed event).
Proof.
  unfold handleInvoicePaymentFailed, data_object.
  apply keeps_bind; [exact members_kept_trans|observe_auto|intros invoice].
  apply keeps_bind; [exact members_kept_trans|observe_auto|intros _].
  apply observes_handlePaymentFailed.
Qed.

(** X3.  An event whose type is none of [payment.succeeded],
    [subscription.created], [subscription.updated],
    [subscription.cancelled], [customer.updated] and
    [invoice.payment_succeeded] leaves the member store as it was, whatever
    the event carries and whether or not the repository fails:
    [payment.failed], [invoice.payment_failed], [customer.created] and
    every unhandled type only read and log. *)
Theorem observing_events_write_nothing :
  forall event w,
    writes_members (ev_type event) = false ->
    memberRepository (snd (routeWebhookEvent event w)) = memberRepository w.
Proof.
  intros event w H. revert w. change (keeps members_kept (routeWebhookEvent event)).
  unfold routeWebhookEvent. cbv zeta.
  destruct (ev_type event) as [t|].
  - cbn [writes_members existsb] in H.
    repeat (apply orb_false_iff in H; destruct H as [? H]).
    repeat match goal with E : String.eqb _ _ = false |- _ => rewrite E; clear E end.
    destruct (t =? "payment.failed")%string; [apply observes_handlePaymentFailed|].
    destruct (t =? "customer.created")%string.
    { unfold handleCustomerCreated, data_object. observe_auto. }
    destruct (t =? "invoice.payment_failed")%string; [|observe_auto].
    apply observes_handleInvoicePaymentFailed.
  - cbn. observe_auto.
Qed.

Lemma observing_events_write_nothing_witness :
  memberRepository
    (snd (routeWebhookEvent
            (mkEvent (Some "payment.failed") (Object (payment (Some "cus_1") None)))
            (member_world bob [false; true]))) =
  memberRepository (member_world bob [false; true]).
Proof.
  apply (observing_events_write_nothing
           (mkEvent (Some "payment.failed") (Object (payment (Some "cus_1") None)))
           (member_world bob [false; true])).
  reflexivity.
Defined.

(** ** The signature check *)

(** X4.  What the endpoint answers to a signature that is not the HMAC of
    the payload depends on its length: when the lengths differ,
    [timingSafeEqual] throws and the body carries its message; the message
    [Invalid webhook signature] is for a signature of the right length
    only; a request without the header gets the message of [Buffer.from]
    for [undefined].
    In each case the status is 400 and nothing but one error line is
    written. *)
Theorem handleWebhook_bad_signature_messages :
  forall w secret payload,
    let answer msg :=
      (Ok (mkResponse 400 (ErrorBody msg)),
       with_log (cons (Error, ("Dodo webhook error: " ++ msg)%string)) w) in
    (forall signature,
        String.length signature <> String.length (createHmac w secret payload) ->
        handleWebhook secret (mkRequest (Some signature) (Some payload)) w =
          answer "Input buffers must have the same byte length")
    /\ (forall signature,
          String.length signature = String.length (createHmac w secret payload) ->
          signature <> createHmac w secret payload ->
          handleWebhook secret (mkRequest (Some signature) (Some payload)) w =
            answer "Invalid webhook signature")
    /\ handleWebhook secret (mkRequest None (Some payload)) w =
         answer ("The first argument must be of type string or an instance of Buffer, " ++
                 "ArrayBuffer, or Array or an Array-like Object. Received undefined")%string.
Proof.
  intros w secret payload answer. subst answer. cbv beta.
  unfold handleWebhook, DodoAPI.verifyWebhookSignature. cbn [req_signature req_body].
  unfold try_catch, bind, get, ret, throw, logging, modify.
  split; [|split].
  - intros signature H. apply Nat.eqb_neq in H. rewrite H. reflexivity.
  - intros signature H Hne. apply Nat.eqb_eq in H. rewrite H.
    apply String.eqb_neq in Hne. rewrite Hne. reflexivity.
  - reflexivity.
Qed.

Lemma handleWebhook_bad_signature_messages_witness :
  handleWebhook "whsec"
    (mkRequest (Some "forged") (Some "{subscription.created cus_1}")) (member_world alice []) =
    (Ok (mkResponse 400 (ErrorBody "Input buffers must have the same byte length")),
     with_log
       (cons (Error, "Dodo webhook error: Input buffers must have the same byte length"))
       (member_world alice []))
  /\ handleWebhook "whsec"
       (mkRequest (Some "whsec{subscription.created cus_9}")
          (Some "{subscription.created cus_1}")) (member_world alice []) =
       (Ok (mkResponse 400 (ErrorBody "Invalid webhook signature")),
        with_log (cons (Error, "Dodo webhook error: Invalid webhook signature"))
          (member_world alice [])).
Proof.
  split.
  - apply (proj1 (handleWebhook_bad_signature_messages (member_world alice []) "whsec"
                    "{subscription.created cus_1}") "forged").
    cbn. lia.
  - apply (proj1 (proj2 (handleWebhook_bad_signature_messages (member_world alice []) "whsec"
                           "{subscription.created cus_1}"))
             "whsec{subscription.created cus_9}").
    + reflexivity.
    + discriminate.
Defined.

(** ** Payments *)

Lemma findMemberFromCustomerId_nofault w cid :
  faults w = [] -> findMemberFromCustomerId cid w = (Ok (linked_member w cid), w).
Proof.
  intros Hf. unfold findMemberFromCustomerId, linked_member, bind, get.
  destruct (find _ (DodoCustomerModel w)) as [row|]; [|reflexivity].
  apply get_by_id_nofault, Hf.
Qed.

Lemma linked_resolves w cid m : linked_member w cid = Some m <-> resolves w cid m.
Proof.
  unfold linked_member, resolves. split.
  - destruct (find _ (DodoCustomerModel w)) as [row|]; [|discriminate].
    intros H. exists row. split; [reflexivity|exact H].
  - intros (row & -> & H). exact H.
Qed.

Lemma get_by_email_nofault email w :
  faults w = [] -> memberRepo.get_by_email email w = (Ok (member_by_email w email), w).
Proof.
  intros H. unfold memberRepo.get_by_email, bind. rewrite (fault_none _ _ H). reflexivity.
Qed.

Lemma find_some_existsb (l : list Member) f m :
  find f l = Some m -> existsb (fun x => (member_id x =? member_id m)%string) l = true.
Proof.
  intros H. apply find_some in H. apply existsb_exists. exists m.
  split; [apply H|apply String.eqb_refl].
Qed.

(** The handler once the payer is found. *)
Lemma handlePaymentSucceeded_found w event o m :
  faults w = [] ->
  ev_data_object event = Some o ->
  (forall w1, faults w1 = [] -> DodoCustomerModel w1 = DodoCustomerModel w ->
              memberRepository w1 = memberRepository w ->
              findMemberFromPayment o w1 = (Ok (Some m), w1)) ->
  existsb (fun x => (member_id x =? member_id m)%string) (memberRepository w) = true ->
  exists w',
    handlePaymentSucceeded event w = (Ok tt, w')
    /\ stable w w'
    /\ memberRepository w' = update_member (member_id m) paid (memberRepository w).
Proof.
  intros Hf Ho Hfind Hex. unfold handlePaymentSucceeded. rewrite (data_object_some _ _ Ho).
  unfold bind at 1. unfold ret at 1. unfold bind at 1. unfold logging at 1, modify at 1.
  set (w1 := with_log _ w).
  unfold try_catch. unfold bind at 1.
  rewrite (Hfind w1 Hf eq_refl eq_refl).
  unfold bind at 1.
  rewrite (update_nofault _ _ w1 Hf Hex).
  unfold logging, modify. eexists. split; [reflexivity|]. split; [repeat split|reflexivity].
Qed.

Lemma find_paid id l m :
  find (fun x => (member_id x =? id)%string) l = Some m ->
  option_map entitlement (find (fun x => (member_id x =? id)%string) (update_member id paid l)) =
  Some ("paid", member_subscribed m, member_tier m).
Proof.
  intros H. rewrite find_update_member, H. cbn [option_map].
  rewrite (find_member_id _ _ _ H), String.eqb_refl. reflexivity.
Qed.

Lemma route_payment_succeeded event :
  ev_type event = Some "payment.succeeded" ->
  routeWebhookEvent event = handlePaymentSucceeded event.
Proof. intros H. unfold routeWebhookEvent. rewrite H. reflexivity. Qed.

Lemma route_invoice_succeeded event :
  ev_type event = Some "invoice.payment_succeeded" ->
  routeWebhookEvent event = handleInvoicePaymentSucceeded event.
Proof. intros H. unfold routeWebhookEvent. rewrite H. reflexivity. Qed.

Lemma resolves_member w cid m :
  resolves w cid m ->
  find (fun x => (member_id x =? member_id m)%string) (memberRepository w) = Some m.
Proof. intros (row & _ & H). rewrite (find_member_id _ _ _ H). exact H. Qed.

Lemma handlePaymentSucceeded_linked w event o m :
  faults w = [] ->
  ev_data_object event = Some o ->
  truthy (o_customer o) = true ->
  resolves w (o_customer o) m ->
  exists w',
    handlePaymentSucceeded event w = (Ok tt, w')
    /\ stable w w'
    /\ memberRepository w' = update_member (member_id m) paid (memberRepository w).
Proof.
  intros Hf Ho Ht Hm. apply (handlePaymentSucceeded_found w event o m Hf Ho).
  - intros w1 Hf1 Hc1 Hl1. unfold findMemberFromPayment. rewrite Ht.
    rewrite (findMemberFromCustomerId_nofault _ _ Hf1).
    apply linked_resolves in Hm. unfold linked_member in *. rewrite Hc1, Hl1, Hm. reflexivity.
  - eapply find_member_existsb. apply (resolves_member _ _ _ Hm).
Qed.

(** X5.  When nothing fails, a [payment.succeeded] event whose customer id
    resolves to a member sets the status of that member to [paid] and
    changes nothing else: the member keeps the subscribed flag and the tier
    it had.  An [invoice.payment_succeeded] event does the same through the
    customer of the invoice. *)
Theorem payment_succeeded_marks_paid :
  forall w event o m,
    faults w = [] ->
    ev_type event = Some "payment.succeeded"%string
    \/ ev_type event = Some "invoice.payment_succeeded"%string ->
    ev_data_object event = Some o ->
    truthy (o_customer o) = true ->
    resolves w (o_customer o) m ->
    exists w',
      routeWebhookEvent event w = (Ok tt, w')
      /\ memberRepository w' = update_member (member_id m) paid (memberRepository w)
      /\ option_map entitlement (member_of w' (member_id m)) =
         Some ("paid"%string, member_subscribed m, member_tier m).
Proof.
  intros w event o m Hf Ht Ho Hc Hm.
  assert (He : forall w', memberRepository w' = update_member (member_id m) paid (memberRepository w) ->
             option_map entitlement (member_of w' (member_id m)) =
             Some ("paid"%string, member_subscribed m, member_tier m)).
  { intros w' L. unfold member_of. rewrite L. apply find_paid, (resolves_member _ _ _ Hm). }
  destruct Ht as [Ht|Ht].
  - rewrite (route_payment_succeeded _ Ht).
    destruct (handlePaymentSucceeded_linked w event o m Hf Ho Hc Hm) as (w' & E & _ & L).
    exists w'. split; [exact E|]. split; [exact L|apply He, L].
  - rewrite (route_invoice_succeeded _ Ht).
    unfold handleInvoicePaymentSucceeded. rewrite (data_object_some _ _ Ho).
    unfold bind at 1. unfold ret at 1. unfold bind at 1. unfold logging at 1, modify at 1.
    set (w1 := with_log _ w).
    destruct (handlePaymentSucceeded_linked w1
                (mkEvent None
                   (Object (mkObject (o_payment_intent o) (o_customer o) None None None None None
                            None (o_amount_paid o) None None)))
                _ m Hf eq_refl Hc Hm) as (w' & E & _ & L).
    exists w'. split; [exact E|]. split; [exact L|apply He, L].
Qed.

Lemma payment_succeeded_marks_paid_witness :
  exists w',
    routeWebhookEvent
      (mkEvent (Some "invoice.payment_succeeded") (Object (invoice (Some "cus_1") None)))
      (member_world alice []) = (Ok tt, w')
    /\ memberRepository w' = update_member "m1" paid [alice]
    /\ option_map entitlement (member_of w' "m1") = Some ("paid"%string, false, None).
Proof.
  apply (payment_succeeded_marks_paid (member_world alice [])
           (mkEvent (Some "invoice.payment_succeeded") (Object (invoice (Some "cus_1") None)))
           (invoice (Some "cus_1") None) alice);
    try reflexivity.
  - right. reflexivity.
  - eexists. split; reflexivity.
Defined.

(** X6.  A payment that names no customer is attributed by its
    [customer_email]: when nothing fails, the first member with that email
    becomes [paid].  An invoice is not: [handleInvoicePaymentSucceeded]
    hands over the customer of the invoice and nothing else, so an invoice
    that names no customer writes nothing and calls neither collaborator,
    whatever email it carries. *)
Theorem payment_email_fallback :
  forall w event o,
    ev_data_object event = Some o ->
    truthy (o_customer o) = false ->
    (forall email m,
        ev_type event = Some "payment.succeeded"%string ->
        faults w = [] ->
        o_customer_email o = Some email ->
        email <> ""%string ->
        member_by_email w email = Some m ->
        exists w',
          routeWebhookEvent event w = (Ok tt, w')
          /\ memberRepository w' = update_member (member_id m) paid (memberRepository w))
    /\ (ev_type event = Some "invoice.payment_succeeded"%string ->
        exists w',
          routeWebhookEvent event w = (Ok tt, w')
          /\ memberRepository w' = memberRepository w
          /\ faults w' = faults w).
Proof.
  intros w event o Ho Hc. split.
  - intros email m Ht Hf He Hne Hm. rewrite (route_payment_succeeded _ Ht).
    destruct (handlePaymentSucceeded_found w event o m Hf Ho) as (w' & E & _ & L).
    + intros w1 Hf1 _ Hl1. unfold findMemberFromPayment. rewrite Hc, He.
      apply String.eqb_neq in Hne. rewrite Hne.
      rewrite (get_by_email_nofault _ _ Hf1). unfold member_by_email in *.
      rewrite Hl1, Hm. reflexivity.
    + eapply find_some_existsb. exact Hm.
    + exists w'. split; [exact E|exact L].
  - intros Ht. rewrite (route_invoice_succeeded _ Ht).
    unfold handleInvoicePaymentSucceeded, handlePaymentSucceeded. rewrite (data_object_some _ _ Ho).
    unfold data_object. cbn [ev_data]. unfold findMemberFromPayment, try_catch, bind, ret, logging, modify.
    cbn [o_customer o_customer_email o_id]. rewrite Hc.
    eexists. split; [reflexivity|]. split; reflexivity.
Qed.

Lemma payment_email_fallback_witness :
  (exists w',
      routeWebhookEvent
        (mkEvent (Some "payment.succeeded") (Object (payment None (Some "alice@example.com"))))
        (member_world alice []) = (Ok tt, w')
      /\ memberRepository w' = update_member "m1" paid [alice])
  /\ (exists w',
        routeWebhookEvent
          (mkEvent (Some "invoice.payment_succeeded")
             (Object (invoice None (Some "alice@example.com"))))
          (member_world alice []) = (Ok tt, w')
        /\ memberRepository w' = [alice]
        /\ faults w' = []).
Proof.
  split.
  - apply (proj1 (payment_email_fallback (member_world alice [])
                    (mkEvent (Some "payment.succeeded")
                       (Object (payment None (Some "alice@example.com"))))
                    (payment None (Some "alice@example.com")) eq_refl eq_refl)
             "alice@example.com" alice);
      try reflexivity.
    discriminate.
  - apply (proj2 (payment_email_fallback (member_world alice [])
                    (mkEvent (Some "invoice.payment_succeeded")
                       (Object (invoice None (Some "alice@example.com"))))
                    (invoice None (Some "alice@example.com")) eq_refl eq_refl)).
    reflexivity.
Defined.

(** ** Subscription events, replayed and reordered *)

Lemma resolves_updates ps :
  forall w w' cid m,
    DodoCustomerModel w' = DodoCustomerModel w ->
    memberRepository w' =
      fold_left (fun l p => update_member (member_id m) p l) ps (memberRepository w) ->
    resolves w cid m ->
    resolves w' cid (fold_left (fun x p => apply_patch p x) ps m).
Proof.
  induction ps as [|p ps IH]; intros w w' cid m Hc Hl Hm; cbn [fold_left] in *.
  - destruct Hm as (row & Hrow & Hfind). exists row. rewrite Hc, Hl. split; assumption.
  - apply (IH (with_members (update_member (member_id m) p) w) w' cid (apply_patch p m)).
    + exact Hc.
    + exact Hl.
    + apply (resolves_update_member w _ cid m p); [reflexivity|reflexivity|exact Hm].
Qed.

Lemma member_id_patches ps m : member_id (fold_left (fun x p => apply_patch p x) ps m) = member_id m.
Proof. revert m. induction ps as [|p ps IH]; intros m; cbn; [reflexivity|]. rewrite IH. reflexivity. Qed.

Lemma created_effect_patches t id l :
  created_effect t id l =
  fold_left (fun l p => update_member id p l)
    (paid_subscribed :: match t with Some t => [tier_patch (Some (tier_id t))] | None => [] end) l.
Proof. destruct t; reflexivity. Qed.

Ltac by_member x :=
  unfold created_effect, updates_of, update_member; rewrite ?map_map; apply map_ext; intros x;
  let E := fresh "E" in
  destruct (member_id x =? _)%string eqn:E;
  repeat (progress (rewrite ?member_id_patch, ?E)); destruct x; reflexivity.

Lemma created_effect_twice t id l : created_effect t id (created_effect t id l) = created_effect t id l.
Proof. destruct t as [t|]; by_member x. Qed.

Lemma updated_effect_twice b t id l :
  update_member id (updates_of b t) (update_member id (updates_of b t) l) =
  update_member id (updates_of b t) l.
Proof. destruct b, t as [t|]; by_member x. Qed.

Lemma cancelled_effect_twice id l :
  update_member id (tier_patch None)
    (update_member id free_unsubscribed
       (update_member id (tier_patch None) (update_member id free_unsubscribed l))) =
  update_member id (tier_patch None) (update_member id free_unsubscribed l).
Proof. by_member x. Qed.

Lemma linked_member_same w w' cid :
  DodoCustomerModel w' = DodoCustomerModel w -> memberRepository w' = memberRepository w ->
  linked_member w' cid = linked_member w cid.
Proof. intros Hc Hl. unfold linked_member. rewrite Hc, Hl. reflexivity. Qed.

Ltac unlinked w Hf Ho Hl :=
  rewrite (data_object_some _ _ Ho);
  unfold bind at 1; unfold ret at 1; unfold bind at 1; unfold logging at 1, modify at 1;
  unfold try_catch; unfold bind at 1; unfold findMemberFromSubscription, findMemberFromCustomer;
  rewrite findMemberFromCustomerId_nofault by exact Hf;
  match goal with
  | |- context [linked_member ?w1 ?c] => change (linked_member w1 c) with (linked_member w c)
  end;
  rewrite Hl;
  unfold ret; eexists; split; [reflexivity|]; split; [repeat split|reflexivity].

Lemma handleSubscriptionCreated_unlinked w event o :
  faults w = [] -> ev_data_object event = Some o -> linked_member w (o_customer o) = None ->
  exists w', handleSubscriptionCreated event w = (Ok tt, w')
             /\ stable w w' /\ memberRepository w' = memberRepository w.
Proof. intros Hf Ho Hl. unfold handleSubscriptionCreated. unlinked w Hf Ho Hl. Qed.

Lemma handleSubscriptionUpdated_unlinked w event o :
  faults w = [] -> ev_data_object event = Some o -> linked_member w (o_customer o) = None ->
  exists w', handleSubscriptionUpdated event w = (Ok tt, w')
             /\ stable w w' /\ memberRepository w' = memberRepository w.
Proof. intros Hf Ho Hl. unfold handleSubscriptionUpdated. unlinked w Hf Ho Hl. Qed.

Lemma handleSubscriptionCancelled_unlinked w event o :
  faults w = [] -> ev_data_object event = Some o -> linked_member w (o_customer o) = None ->
  exists w', handleSubscriptionCancelled event w = (Ok tt, w')
             /\ stable w w' /\ memberRepository w' = memberRepository w.
Proof. intros Hf Ho Hl. unfold handleSubscriptionCancelled. unlinked w Hf Ho Hl. Qed.

Lemma stable_faults w w' : stable w w' -> faults w = [] -> faults w' = [].
Proof. intros (F & _) H. rewrite F. exact H. Qed.

Lemma stable_customers w w' : stable w w' -> DodoCustomerModel w' = DodoCustomerModel w.
Proof. intros (_ & C & _). exact C. Qed.

Lemma replay_unlinked (handler : WebhookEvent -> M unit) event o w :
  (forall w, faults w = [] -> linked_member w (o_customer o) = None ->
     exists w', handler event w = (Ok tt, w')
                /\ stable w w' /\ memberRepository w' = memberRepository w) ->
  faults w = [] -> linked_member w (o_customer o) = None ->
  memberRepository (snd (handler event (snd (handler event w)))) =
  memberRepository (snd (handler event w)).
Proof.
  intros H Hf Hl. destruct (H w Hf Hl) as (w1 & E1 & S1 & L1). rewrite E1. cbn [snd].
  destruct (H w1) as (w2 & E2 & _ & L2).
  - exact (stable_faults _ _ S1 Hf).
  - rewrite (linked_member_same w w1 _ (stable_customers _ _ S1) L1). exact Hl.
  - rewrite E2. exact L2.
Qed.

Lemma handleSubscriptionCreated_replay w event :
  faults w = [] ->
  memberRepository (snd (handleSubscriptionCreated event (snd (handleSubscriptionCreated event w)))) =
  memberRepository (snd (handleSubscriptionCreated event w)).
Proof.
  intros Hf. destruct (ev_data_object event) as [o|] eqn:Ho.
  2:{ destruct (data_object_none _ Ho) as [e He]. unfold handleSubscriptionCreated. rewrite He. reflexivity. }
  destruct (linked_member w (o_customer o)) as [m|] eqn:Hl.
  2:{ apply (replay_unlinked handleSubscriptionCreated event o w); [|exact Hf|exact Hl].
      intros w0 Hf0 Hl0. exact (handleSubscriptionCreated_unlinked w0 event o Hf0 Ho Hl0). }
  apply linked_resolves in Hl.
  destruct (handleSubscriptionCreated_nofault w event o m Hf Ho Hl) as (w1 & E1 & S1 & L1).
  rewrite E1. cbn [snd].
  pose proof L1 as L1'. rewrite created_effect_patches in L1'.
  pose proof (resolves_updates _ w w1 _ m (stable_customers _ _ S1) L1' Hl) as Hm1.
  destruct (handleSubscriptionCreated_nofault w1 event o _ (stable_faults _ _ S1 Hf) Ho Hm1)
    as (w2 & E2 & _ & L2).
  rewrite E2. cbn [snd]. rewrite L2, member_id_patches, (stable_tier _ _ _ S1), L1.
  apply created_effect_twice.
Qed.

Lemma handleSubscriptionUpdated_replay w event :
  faults w = [] ->
  memberRepository (snd (handleSubscriptionUpdated event (snd (handleSubscriptionUpdated event w)))) =
  memberRepository (snd (handleSubscriptionUpdated event w)).
Proof.
  intros Hf. destruct (ev_data_object event) as [o|] eqn:Ho.
  2:{ destruct (data_object_none _ Ho) as [e He]. unfold handleSubscriptionUpdated. rewrite He. reflexivity. }
  destruct (linked_member w (o_customer o)) as [m|] eqn:Hl.
  2:{ apply (replay_unlinked handleSubscriptionUpdated event o w); [|exact Hf|exact Hl].
      intros w0 Hf0 Hl0. exact (handleSubscriptionUpdated_unlinked w0 event o Hf0 Ho Hl0). }
  apply linked_resolves in Hl.
  destruct (handleSubscriptionUpdated_nofault w event o m Hf Ho Hl) as (w1 & E1 & S1 & L1).
  rewrite E1. cbn [snd].
  pose proof (resolves_updates [_] w w1 _ m (stable_customers _ _ S1) L1 Hl) as Hm1.
  destruct (handleSubscriptionUpdated_nofault w1 event o _ (stable_faults _ _ S1 Hf) Ho Hm1)
    as (w2 & E2 & _ & L2).
  rewrite E2. cbn [snd]. rewrite L2, member_id_patches, (stable_tier _ _ _ S1), L1.
  apply updated_effect_twice.
Qed.

Lemma handleSubscriptionCancelled_replay w event :
  faults w = [] ->
  memberRepository
    (snd (handleSubscriptionCancelled event (snd (handleSubscriptionCancelled event w)))) =
  memberRepository (snd (handleSubscriptionCancelled event w)).
Proof.
  intros Hf. destruct (ev_data_object event) as [o|] eqn:Ho.
  2:{ destruct (data_object_none _ Ho) as [e He]. unfold handleSubscriptionCancelled. rewrite He. reflexivity. }
  destruct (linked_member w (o_customer o)) as [m|] eqn:Hl.
  2:{ apply (replay_unlinked handleSubscriptionCancelled event o w); [|exact Hf|exact Hl].
      intros w0 Hf0 Hl0. exact (handleSubscriptionCancelled_unlinked w0 event o Hf0 Ho Hl0). }
  apply linked_resolves in Hl.
  destruct (handleSubscriptionCancelled_nofault w event o m Hf Ho Hl) as (w1 & E1 & S1 & L1).
  rewrite E1. cbn [snd].
  pose proof (resolves_updates [_; _] w w1 _ m (stable_customers _ _ S1) L1 Hl) as Hm1.
  destruct (handleSubscriptionCancelled_nofault w1 event o _ (stable_faults _ _ S1 Hf) Ho Hm1)
    as (w2 & E2 & _ & L2).
  rewrite E2. cbn [snd]. rewrite L2, member_id_patches, L1.
  apply cancelled_effect_twice.
Qed.

(** X7.  When nothing fails, a subscription event delivered twice leaves
    the member store that one delivery leaves, for [subscription.created],
    [subscription.updated] and [subscription.cancelled], whatever the event
    carries and whether or not its customer is linked to a member. *)
Theorem subscription_event_replay :
  forall w event,
    faults w = [] ->
    In (ev_type event) subscription_types ->
    memberRepository (snd (routeWebhookEvent event (snd (routeWebhookEvent event w)))) =
    memberRepository (snd (routeWebhookEvent event w)).
Proof.
  intros w event Hf [Ht|[Ht|[Ht|[]]]]; symmetry in Ht.
  - rewrite (route_created _ Ht). apply handleSubscriptionCreated_replay, Hf.
  - rewrite (route_updated _ Ht). apply handleSubscriptionUpdated_replay, Hf.
  - rewrite (route_cancelled _ Ht). apply handleSubscriptionCancelled_replay, Hf.
Qed.

Lemma subscription_event_replay_witness :
  memberRepository
    (snd (routeWebhookEvent created_event
            (snd (routeWebhookEvent created_event (member_world alice []))))) =
  memberRepository (snd (routeWebhookEvent created_event (member_world alice []))).
Proof.
  apply (subscription_event_replay (member_world alice []) created_event).
  - reflexivity.
  - left. reflexivity.
Defined.

Lemma created_effect_entitlement t id l m :
  find (fun x => (member_id x =? id)%string) l = Some m ->
  option_map entitlement (find (fun x => (member_id x =? id)%string) (created_effect t id l)) =
  Some ("paid", true, match t with Some t => Some (tier_id t) | None => member_tier m end).
Proof.
  intros Hm. pose proof (find_member_id _ _ _ Hm) as Hid. subst id. unfold created_effect.
  destruct t as [t|]; rewrite !find_update_member, Hm; cbn [option_map];
    repeat (progress (rewrite ?member_id_patch, ?String.eqb_refl)); reflexivity.
Qed.

(** X8.  When nothing fails and the customer of both events resolves to a
    member, [subscription.created] and [subscription.cancelled] do not
    commute: the later event decides.  Created then cancelled leaves the
    member free, unsubscribed and without a tier; cancelled then created
    leaves it paid, subscribed, and on the tier of the created
    subscription, or without a tier when its price resolves to none. *)
Theorem created_and_cancelled_last_wins :
  forall w created cancelled oc ox m,
    faults w = [] ->
    ev_type created = Some "subscription.created"%string ->
    ev_data_object created = Some oc ->
    ev_type cancelled = Some "subscription.cancelled"%string ->
    ev_data_object cancelled = Some ox ->
    o_customer ox = o_customer oc ->
    resolves w (o_customer oc) m ->
    let w12 := snd (routeWebhookEvent cancelled (snd (routeWebhookEvent created w))) in
    let w21 := snd (routeWebhookEvent created (snd (routeWebhookEvent cancelled w))) in
    option_map entitlement (member_of w12 (member_id m)) = Some ("free"%string, false, None)
    /\ option_map entitlement (member_of w21 (member_id m)) =
       Some ("paid"%string, true, option_map tier_id (tier_of_price w (o_price_id oc))).
Proof.
  intros w created cancelled oc ox m Hf Htc Hoc Htx Hox Hcust Hm. cbv zeta.
  rewrite (route_created _ Htc), (route_cancelled _ Htx). split.
  - destruct (handleSubscriptionCreated_nofault w created oc m Hf Hoc Hm) as (w1 & E1 & S1 & L1).
    rewrite E1. cbn [snd]. rewrite created_effect_patches in L1.
    pose proof (resolves_updates _ w w1 _ m (stable_customers _ _ S1) L1 Hm) as Hm1.
    rewrite <- Hcust in Hm1.
    pose proof (cancelled_entitlement w1 cancelled ox _ (stable_faults _ _ S1 Hf) Hox Hm1) as H.
    rewrite member_id_patches in H. exact H.
  - rewrite <- Hcust in Hm.
    destruct (handleSubscriptionCancelled_nofault w cancelled ox m Hf Hox Hm)
      as (w2 & E2 & S2 & L2).
    rewrite E2. cbn [snd].
    pose proof (resolves_updates [_; _] w w2 _ m (stable_customers _ _ S2) L2 Hm) as Hm2.
    rewrite Hcust in Hm2.
    destruct (handleSubscriptionCreated_nofault w2 created oc _ (stable_faults _ _ S2 Hf) Hoc Hm2)
      as (w21 & E21 & _ & L21).
    rewrite E21. cbn [snd]. unfold member_of. rewrite L21, (stable_tier _ _ _ S2).
    pose proof (resolves_member _ _ _ Hm2) as Hfind.
    rewrite (created_effect_entitlement _ _ _ _ Hfind).
    destruct (tier_of_price w (o_price_id oc)); reflexivity.
Qed.

Lemma created_and_cancelled_last_wins_witness :
  option_map entitlement
    (member_of
       (snd (routeWebhookEvent cancelled_event
               (snd (routeWebhookEvent created_event (member_world alice [])))))
       "m1") = Some ("free"%string, false, None)
  /\ option_map entitlement
       (member_of
          (snd (routeWebhookEvent created_event
                  (snd (routeWebhookEvent cancelled_event (member_world alice [])))))
          "m1") = Some ("paid"%string, true, Some "t1"%string).
Proof.
  apply (created_and_cancelled_last_wins (member_world alice []) created_event cancelled_event
           (subscription "cus_1" "active") (subscription "cus_1" "cancelled") alice);
    try reflexivity.
  eexists. split; reflexivity.
Defined.

(** ** Customer updates *)

Lemma strict_eqb_eq a b : DodoWebhookController.strict_eqb a b = true <-> a = b.
Proof.
  unfold DodoWebhookController.strict_eqb.
  destruct a as [[x|]|], b as [[y|]|]; try (split; [discriminate|congruence]);
    try (split; reflexivity).
  rewrite String.eqb_eq. split; congruence.
Qed.

Lemma contact_unchanged m o :
  negb (DodoWebhookController.strict_eqb (Some (Some (member_email m))) (o_email o))
  || negb (DodoWebhookController.strict_eqb (Some (member_name m)) (o_name o)) = false
  <-> o_email o = Some (Some (member_email m)) /\ o_name o = Some (member_name m).
Proof.
  rewrite orb_false_iff, !negb_false_iff, !strict_eqb_eq. split; intros [H1 H2]; split; congruence.
Qed.

Lemma route_customer_updated event :
  ev_type event = Some "customer.updated" ->
  routeWebhookEvent event = handleCustomerUpdated event.
Proof. intros H. unfold routeWebhookEvent. rewrite H. reflexivity. Qed.

(** X9.  When nothing fails, the id of the customer resolves to a member
    and the email of the event is not [null], [customer.updated] calls the
    update of that member with the email and the name of the event and logs
    it, unless both are strictly those of the member already: the email of
    the event is the string of the member, and the name of the event is the
    string of the member, or [null] for a member whose name is [null].  A
    name that the event does not carry is [undefined], which is no name of
    a member, so the update is called.  Either way the status, the
    subscribed flag and the tier of the member stay. *)
Theorem customer_updated_syncs_contact :
  forall w event o m,
    faults w = [] ->
    ev_type event = Some "customer.updated"%string ->
    ev_data_object event = Some o ->
    resolves w (o_id o) m ->
    o_email o <> Some None ->
    exists w',
      routeWebhookEvent event w = (Ok tt, w')
      /\ (o_email o = Some (Some (member_email m)) /\ o_name o = Some (member_name m) ->
          memberRepository w' = memberRepository w
          /\ log w' = (Info, "Customer updated: " ++ show (o_id o))%string :: log w)
      /\ (~ (o_email o = Some (Some (member_email m)) /\ o_name o = Some (member_name m)) ->
          memberRepository w' =
            update_member (member_id m) (contact_patch o) (memberRepository w)
          /\ log w' =
               (Info, "Updated member " ++ member_id m ++ " from customer update")%string
               :: (Info, "Customer updated: " ++ show (o_id o))%string :: log w)
      /\ option_map entitlement (member_of w' (member_id m)) = Some (entitlement m).
Proof.
  intros w event o m Hf Ht Ho Hm _. rewrite (route_customer_updated _ Ht).
  unfold handleCustomerUpdated. rewrite (data_object_some _ _ Ho).
  unfold bind at 1. unfold ret at 1. unfold bind at 1. unfold logging at 1, modify at 1.
  set (w1 := with_log _ w).
  assert (Hf1 : faults w1 = []) by exact Hf.
  assert (Hm1 : resolves w1 (o_id o) m) by exact Hm.
  destruct (findMemberFromCustomerId_resolves _ _ _ Hf1 Hm1) as [Hfind Hex].
  unfold try_catch. unfold bind at 1. unfold findMemberFromCustomer. rewrite Hfind.
  pose proof (contact_unchanged m o) as Hspec.
  pose proof (resolves_member _ _ _ Hm) as Hfm.
  destruct (negb _ || negb _).
  - unfold bind at 1. rewrite (update_nofault _ _ _ Hf1 Hex). unfold logging, modify.
    eexists. split; [reflexivity|]. split; [|split].
    + intros H. apply Hspec in H. discriminate.
    + intros _. split; reflexivity.
    + unfold member_of. cbn [memberRepository with_log with_members w1].
      rewrite find_update_member, Hfm. cbn [option_map]. rewrite String.eqb_refl. reflexivity.
  - unfold ret. eexists. split; [reflexivity|]. split; [|split].
    + intros _. split; reflexivity.
    + intros H. exfalso. apply H, Hspec. reflexivity.
    + unfold member_of. cbn [memberRepository with_log w1]. rewrite Hfm. reflexivity.
Qed.

Lemma customer_updated_syncs_contact_witness :
  exists w',
    routeWebhookEvent (mkEvent (Some "customer.updated") (Object customer_without_name))
      (member_world nameless []) = (Ok tt, w')
    /\ memberRepository w' = update_member "m1" (contact_patch customer_without_name) [nameless]
    /\ log w' =
         [(Info, "Updated member m1 from customer update"%string);
          (Info, "Customer updated: cus_1"%string)]
    /\ option_map entitlement (member_of w' "m1") = Some ("paid"%string, true, Some "t1"%string).
Proof.
  destruct (customer_updated_syncs_contact (member_world nameless [])
              (mkEvent (Some "customer.updated") (Object customer_without_name))
              customer_without_name nameless eq_refl eq_refl eq_refl)
    as (w' & E & _ & Hd & He).
  - eexists. split; reflexivity.
  - discriminate.
  - exists w'. split; [exact E|].
    destruct Hd as [Hr Hl]; [intros [_ H]; discriminate H|].
    split; [exact Hr|]. split; [exact Hl|exact He].
Defined.

(** ** Failing collaborators *)

Lemma fault_true what w rest :
  faults w = true :: rest ->
  fault what w = (Throw (mkError RepositoryError what None), with_faults (fun _ => rest) w).
Proof. intros H. unfold fault. rewrite H. reflexivity. Qed.

Lemma fault_false what w rest :
  faults w = false :: rest -> fault what w = (Ok tt, with_faults (fun _ => rest) w).
Proof. intros H. unfold fault. rewrite H. reflexivity. Qed.

Lemma findMemberFromCustomerId_fails cid w rest :
  faults w = true :: rest -> lookup_fails (findMemberFromCustomerId cid) w.
Proof.
  intros Hf. unfold lookup_fails, findMemberFromCustomerId, bind, get.
  destruct (find _ (DodoCustomerModel w)) as [row|]; [right|left; reflexivity].
  unfold memberRepo.get_by_id, bind. rewrite (fault_true _ _ _ Hf).
  eexists. eexists. split; reflexivity.
Qed.

Lemma findMemberFromPayment_fails o w rest :
  faults w = true :: rest -> lookup_fails (findMemberFromPayment o) w.
Proof.
  intros Hf. unfold findMemberFromPayment.
  destruct (truthy (o_customer o)); [eapply findMemberFromCustomerId_fails, Hf|].
  destruct (o_customer_email o) as [email|]; [|left; reflexivity].
  destruct (email =? "")%string; [left; reflexivity|right].
  unfold memberRepo.get_by_email, bind. rewrite (fault_true _ _ _ Hf).
  eexists. eexists. split; reflexivity.
Qed.

(** A handler whose lookup fails writes nothing. *)
Lemma handler_lookup_fails (event : WebhookEvent) (o : EventObject) (label : string)
    (find : EventObject -> M (option Member)) (k : EventObject -> Member -> M unit)
    (msg : JsError -> string) (w : World) :
  ev_data_object event = Some o ->
  lookup_fails (find o) (with_log (cons (Info, (label ++ show (o_id o))%string)) w) ->
  memberRepository
    (snd ((x <- data_object event ;;
           logging Info (label ++ show (o_id x))%string ;;
           try_catch
             (member <- find x ;;
              match member with Some member => k x member | None => ret tt end)
             (fun error => logging Error (msg error))) w)) = memberRepository w.
Proof.
  intros Ho H. rewrite (data_object_some _ _ Ho).
  unfold bind at 1. unfold ret at 1. unfold bind at 1. unfold logging at 1, modify at 1.
  unfold try_catch. unfold bind at 1.
  destruct H as [H|(e & w' & H & L)]; rewrite H; [reflexivity|].
  unfold logging, modify. cbn [snd memberRepository with_log]. exact L.
Qed.

Ltac lookup_first Ho Hf :=
  lazymatch goal with
  | |- memberRepository (snd (?h ?event ?w)) = _ =>
      unfold h;
      eapply handler_lookup_fails with (k := fun x member => _) (msg := fun error => _);
      [exact Ho
      |first [eapply findMemberFromPayment_fails | eapply findMemberFromCustomerId_fails];
       exact Hf]
  end.

Lemma handlePaymentSucceeded_lookup_fails event o w rest :
  ev_data_object event = Some o -> faults w = true :: rest ->
  memberRepository (snd (handlePaymentSucceeded event w)) = memberRepository w.
Proof. intros Ho Hf. lookup_first Ho Hf. Qed.

(** X10.  When the first call to a collaborator fails, no event writes to
    the member store, and the router still returns normally: every write
    of a handler comes after a lookup of the member, and the handler
    catches the failure of that lookup and logs it. *)
Theorem failed_lookup_writes_nothing :
  forall event o w rest,
    ev_data_object event = Some o ->
    faults w = true :: rest ->
    exists w',
      routeWebhookEvent event w = (Ok tt, w')
      /\ memberRepository w' = memberRepository w.
Proof.
  intros event o w rest Ho Hf.
  destruct (routeWebhookEvent_total event o w Ho) as (w' & E).
  exists w'. split; [exact E|].
  change w' with (snd (Ok tt, w')). rewrite <- E. clear E w'.
  unfold routeWebhookEvent. cbv zeta.
  destruct (ev_type event) as [t|]; [|reflexivity].
  destruct (t =? "payment.succeeded")%string.
  { lookup_first Ho Hf. }
  destruct (t =? "payment.failed")%string.
  { lookup_first Ho Hf. }
  destruct (t =? "subscription.created")%string.
  { unfold findMemberFromSubscription. lookup_first Ho Hf. }
  destruct (t =? "subscription.updated")%string.
  { lookup_first Ho Hf. }
  destruct (t =? "subscription.cancelled")%string.
  { lookup_first Ho Hf. }
  destruct (t =? "customer.created")%string.
  { unfold handleCustomerCreated. rewrite (data_object_some _ _ Ho). reflexivity. }
  destruct (t =? "customer.updated")%string.
  { lookup_first Ho Hf. }
  destruct (t =? "invoice.payment_succeeded")%string.
  { unfold handleInvoicePaymentSucceeded. rewrite (data_object_some _ _ Ho).
    unfold bind at 1. unfold ret at 1. unfold bind at 1. unfold logging at 1, modify at 1.
    erewrite handlePaymentSucceeded_lookup_fails; [reflexivity|reflexivity|exact Hf]. }
  destruct (t =? "invoice.payment_failed")%string; [|reflexivity].
  apply observes_handleInvoicePaymentFailed.
Qed.

Lemma failed_lookup_writes_nothing_witness :
  exists w',
    routeWebhookEvent created_event (member_world alice [true]) = (Ok tt, w')
    /\ memberRepository w' = [alice].
Proof.
  apply (failed_lookup_writes_nothing created_event (subscription "cus_1" "active")
           (member_world alice [true]) []);
    reflexivity.
Defined.

Lemma standing_kept_refl w : standing_kept w w.
Proof. reflexivity. Qed.

Lemma standing_kept_trans w1 w2 w3 :
  standing_kept w1 w2 -> standing_kept w2 w3 -> standing_kept w1 w3.
Proof. unfold standing_kept. congruence. Qed.

Ltac standing_auto := frame_auto standing_kept_refl standing_kept_trans.

Lemma standing_fault what : keeps standing_kept (fault what).
Proof. intros w. unfold fault. destruct (faults w) as [|[|] rest]; reflexivity. Qed.

Lemma standing_findTierFromSubscription o : keeps standing_kept (findTierFromSubscription o).
Proof.
  unfold findTierFromSubscription, tiersService_get.
  apply keeps_try_catch; [exact standing_kept_trans| |intros ?; standing_auto].
  apply keeps_bind; [exact standing_kept_trans|standing_auto|].
  intros [pr|]; [|standing_auto].
  apply keeps_bind; [exact standing_kept_trans|standing_auto|].
  intros [pd|]; [|standing_auto].
  apply keeps_bind; [exact standing_kept_trans|apply standing_fault|intros _; standing_auto].
Qed.

Lemma standing_tier_update id t : keeps standing_kept (memberRepo.update id (tier_patch t)).
Proof.
  unfold memberRepo.update.
  apply keeps_bind; [exact standing_kept_trans|apply standing_fault|intros _].
  apply keeps_bind; [exact standing_kept_trans|standing_auto|].
  intros [|]; [|standing_auto].
  apply keeps_modify. intros w. unfold standing_kept. cbn [memberRepository with_members].
  unfold update_member. rewrite map_map. apply map_ext. intros m.
  destruct (member_id m =? id)%string; reflexivity.
Qed.

Lemma standing_grantTierAccess member o : keeps standing_kept (grantTierAccess member o).
Proof.
  unfold grantTierAccess.
  apply keeps_try_catch; [exact standing_kept_trans| |intros ?; standing_auto].
  apply keeps_bind; [exact standing_kept_trans|apply standing_findTierFromSubscription|].
  intros [t|]; [apply (standing_tier_update _ (Some (tier_id t)))|standing_auto].
Qed.

(** X11.  [subscription.created] does not undo the subscription when the
    grant of the tier fails.  Once the lookup of the member and the first
    update have succeeded, the member is paid and subscribed whatever the
    collaborators do afterwards: a failure of the tier service or of the
    second update is logged inside [grantTierAccess], and the handler goes
    on to report that access was granted. *)
Theorem tier_grant_failure_keeps_subscription :
  forall w event o m rest,
    ev_type event = Some "subscription.created"%string ->
    ev_data_object event = Some o ->
    faults w = false :: false :: rest ->
    resolves w (o_customer o) m ->
    exists w',
      routeWebhookEvent event w = (Ok tt, w')
      /\ map standing (memberRepository w') =
         map standing (update_member (member_id m) paid_subscribed (memberRepository w))
      /\ hd_error (log w') =
         Some (Info, ("Granted subscription access to member " ++ member_id m)%string).
Proof.
  intros w event o m rest Ht Ho Hf Hm. rewrite (route_created _ Ht).
  unfold handleSubscriptionCreated. rewrite (data_object_some _ _ Ho).
  unfold bind at 1. unfold ret at 1. unfold bind at 1. unfold logging at 1, modify at 1.
  set (w1 := with_log _ w).
  pose proof (resolves_member _ _ _ Hm) as Hfm.
  destruct Hm as (row & Hrow & Hfind).
  unfold try_catch at 1. unfold bind at 1.
  unfold findMemberFromSubscription, findMemberFromCustomerId. unfold bind at 1, get at 1.
  change (DodoCustomerModel w1) with (DodoCustomerModel w). rewrite Hrow.
  unfold memberRepo.get_by_id. unfold bind at 1.
  rewrite (fault_false _ w1 (false :: rest)) by exact Hf.
  unfold get at 1. cbn [memberRepository with_faults]. change (memberRepository w1) with (memberRepository w).
  rewrite Hfind.
  set (w2 := with_faults _ w1).
  unfold bind at 1. unfold memberRepo.update at 1. unfold bind at 1.
  rewrite (fault_false _ w2 rest) by reflexivity.
  unfold bind at 1, get at 1. cbn [memberRepository with_faults].
  change (memberRepository w2) with (memberRepository w).
  rewrite (find_member_existsb _ _ _ Hfm).
  unfold modify at 1.
  set (w3 := with_members _ _).
  unfold bind at 1.
  destruct (try_catch_logged
              (tier <- findTierFromSubscription o ;;
               match tier with
               | Some tier =>
                   memberRepo.update (member_id m)
                     (mkPatch None None (Some (Some (tier_id tier))) None None)
               | None => ret tt
               end)
              (fun error => ("Error granting tier access: " ++ message error)%string) w3)
    as (w4 & E4).
  pose proof (standing_grantTierAccess m o w3) as K.
  unfold grantTierAccess in *. rewrite E4 in *. cbn [snd] in K.
  unfold logging, modify. eexists. split; [reflexivity|]. split; [|reflexivity].
  cbn [memberRepository with_log]. exact K.
Qed.

Lemma tier_grant_failure_keeps_subscription_witness :
  exists w',
    routeWebhookEvent created_event (member_world alice [false; false; true]) = (Ok tt, w')
    /\ map standing (memberRepository w') = map standing (update_member "m1" paid_subscribed [alice])
    /\ hd_error (log w') = Some (Info, "Granted subscription access to member m1"%string).
Proof.
  apply (tier_grant_failure_keeps_subscription (member_world alice [false; false; true])
           created_event (subscription "cus_1" "active") alice [true]);
    try reflexivity.
  eexists. split; reflexivity.
Defined.

(** ** One request *)

(** X12.  [makeRequest] sends its request exactly once and touches no
    table and no store.  It returns the body of the response when the
    provider answers with [ok], and then logs nothing; otherwise it throws,
    after one error line that carries the message of what it throws. *)
Theorem makeRequest_outcomes :
  forall rq w,
    let r := DodoAPI.makeRequest rq w in
    sent (snd r) = rq :: sent w
    /\ same_data w (snd r)
    /\ match fst r with
       | Ok j =>
           log (snd r) = log w
           /\ exists status, provider w (sent w) rq = Response true status (Some j)
       | Throw e =>
           log (snd r) = (Error, ("Dodo API request failed: " ++ message e)%string) :: log w
       end.
Proof.
  intros rq w. cbv zeta. unfold DodoAPI.makeRequest, try_catch, bind, logging, modify, throw.
  destruct (provider w (sent w) rq) as [e|ok status [j|]]; [| destruct ok |];
    cbn [fst snd]; (split; [reflexivity|]); (split; [repeat split|]);
    try reflexivity.
  split; [reflexivity|]. exists status. reflexivity.
Qed.

(** ** Customer lookups that fail *)

Lemma not_404 A (a b : A) n : n <> 404 -> match n with 404 => a | _ => b end = b.
Proof.
  intros H. do 404 (destruct n as [|n]; [reflexivity|]).
  destruct n; [exfalso; apply H; reflexivity|reflexivity].
Qed.

Lemma getCustomer_failed cid w status j :
  provider w (sent w) (GetCustomer cid) = Response false status (Some j) ->
  status <> 404 ->
  DodoAPI.getCustomer cid w =
    (Throw (api_error status j), request_failed (GetCustomer cid) (api_error status j) w).
Proof.
  intros H Hne. unfold DodoAPI.getCustomer, try_catch, bind.
  rewrite (makeRequest_not_ok _ _ _ _ H). cbn [statusCode api_error].
  exact (f_equal (fun m : M Customer => m _) (not_404 _ _ _ status Hne)).
Qed.

(** X13.  A customer lookup that the provider refuses with a status other
    than 404 makes [getCustomer] throw what [makeRequest] threw; the loop
    of [getCustomerForMember] catches it, writes its message as a warning,
    and goes on to the next row.  The tables stay as they were. *)
Theorem failed_customer_lookup_is_skipped_with_a_warning :
  forall w cid status j,
    provider w (sent w) (GetCustomer cid) = Response false status (Some j) ->
    status <> 404 ->
    let e := api_error status j in
    DodoAPI.getCustomer cid w = (Throw e, request_failed (GetCustomer cid) e w)
    /\ forall rest,
         getCustomerForMember_rows (cid :: rest) w =
           getCustomerForMember_rows rest
             (with_log (cons (Warn, message e)) (request_failed (GetCustomer cid) e w)).
Proof.
  intros w cid status j H Hne e. subst e. split.
  - apply getCustomer_failed; assumption.
  - intros rest. cbn [getCustomerForMember_rows]. unfold bind at 1. unfold try_catch.
    unfold bind at 1. rewrite (getCustomer_failed _ _ _ _ H Hne). reflexivity.
Qed.

Lemma failed_customer_lookup_is_skipped_with_a_warning_witness :
  DodoAPI.getCustomer (Some "cus_1") outage_world =
    (Throw (api_error 503 unavailable),
     request_failed (GetCustomer (Some "cus_1")) (api_error 503 unavailable) outage_world)
  /\ getCustomerForMember_rows [Some "cus_1"] outage_world =
       getCustomerForMember_rows []
         (with_log (cons (Warn, "Dodo API Error: Service unavailable"))
            (request_failed (GetCustomer (Some "cus_1")) (api_error 503 unavailable)
               outage_world)).
Proof.
  destruct (failed_customer_lookup_is_skipped_with_a_warning outage_world (Some "cus_1")
              503 unavailable eq_refl ltac:(discriminate)) as [Hget Hrows].
  split; [exact Hget|exact (Hrows [])].
Defined.

(** ** The requests of a checkout, by kind *)

Lemma customers_getCustomerForMember member : sends customer_only (getCustomerForMember member).
Proof.
  unfold getCustomerForMember, createCustomerForMember. unfold_api.
  apply sends_bind; [sends_auto|intros rows].
  apply sends_bind; [|intros ?; sends_auto].
  induction rows as [|row rest IH]; cbn [getCustomerForMember_rows]; unfold_api; sends_auto.
  exact IH.
Qed.

Lemma catalog_getProductForTier tier : sends catalog_only (getProductForTier tier).
Proof.
  unfold getProductForTier, createProductForTier. unfold_api.
  apply sends_bind; [sends_auto|intros rows].
  apply sends_bind; [|intros ?; sends_auto].
  induction rows as [|row rest IH]; cbn [getProductForTier_rows]; unfold_api; sends_auto.
  exact IH.
Qed.

Lemma catalog_getPriceForTierCadence tier cadence :
  sends catalog_only (getPriceForTierCadence tier cadence).
Proof.
  unfold getPriceForTierCadence, createPriceForTierCadence. cbv zeta.
  apply sends_bind; [apply catalog_getProductForTier|intros product].
  apply sends_bind; [sends_auto|intros rows].
  apply sends_bind.
  - induction rows as [|row rest IH]; cbn [getPriceForTierCadence_rows]; unfold_api;
      unfold edit_price_active; sends_auto.
    exact IH.
  - intros [id|]; [sends_auto|].
    apply sends_bind; [|intros ?; sends_auto].
    apply sends_bind; [apply catalog_getProductForTier|intros ?].
    unfold_api. sends_auto.
Qed.

Lemma coupons_getCouponForOffer fuel offerId : sends coupon_only (getCouponForOffer fuel offerId).
Proof.
  induction fuel as [|fuel IH]; cbn [getCouponForOffer]; [sends_auto|].
  apply sends_bind; [sends_auto|].
  intros [row|]; [|sends_auto].
  destruct (or_discount_type row =? "trial")%string; [sends_auto|]. cbv zeta.
  assert (Hc : sends coupon_only
    (offer <- get (fun w => find (fun o => (dto_id o =? offerId)%string) (offersAPI w)) ;;
     match offer with
     | None => throw (typeError "Cannot read properties of null (reading 'name')")
     | Some offer => createCouponForOffer offer ;; getCouponForOffer fuel offerId
     end)).
  { apply sends_bind; [sends_auto|]. intros [offer|]; [|sends_auto].
    apply sends_bind; [|intros _; exact IH].
    unfold createCouponForOffer, edit_offer_coupon. unfold_api. sends_auto. }
  destruct (or_dodo_coupon_id row) as [id|]; [destruct (id =? "")%string|]; try exact Hc.
  sends_auto.
Qed.

(** X14.  Each resolver talks to its own endpoints: the customer resolver
    to the customers, the price resolver to the products and the prices,
    the coupon resolver to the coupons.  So a checkout sends a request
    about customers only when it is given a member, and a request about
    coupons only when it is given an offer that is not a trial. *)
Theorem checkout_requests_by_kind :
  (forall member, sends customer_only (getCustomerForMember member))
  /\ (forall tier cadence, sends catalog_only (getPriceForTierCadence tier cadence))
  /\ (forall fuel offerId, sends coupon_only (getCouponForOffer fuel offerId))
  /\ (forall fuel p, sends (allowed p) (getPaymentLink fuel p)).
Proof.
  split; [exact customers_getCustomerForMember|].
  split; [exact catalog_getPriceForTierCadence|].
  split; [exact coupons_getCouponForOffer|].
  intros fuel p. unfold getPaymentLink. cbv zeta.
  apply sends_bind; [|intros ct; apply sends_bind; [|intros customer; apply sends_bind]].
  - destruct (param_offer p) as [offer|] eqn:Ho; [|sends_auto].
    destruct (negb _); [sends_auto|].
    destruct (offer_type offer =? "trial")%string eqn:Ht; [sends_auto|].
    apply sends_bind; [|intros ?; sends_auto].
    eapply sends_weaken; [|apply coupons_getCouponForOffer].
    intros rq Hrq. split.
    + intros Hc. destruct rq; discriminate.
    + intros _. exists offer. split; [exact Ho|]. apply String.eqb_neq, Ht.
  - destruct (param_member p) as [member|] eqn:Hm; [|sends_auto].
    apply sends_bind; [|intros ?; sends_auto].
    eapply sends_weaken; [|apply customers_getCustomerForMember].
    intros rq Hrq. split.
    + intros _. rewrite Hm. discriminate.
    + intros Hc. destruct rq; discriminate.
  - eapply sends_weaken; [|apply catalog_getPriceForTierCadence].
    intros rq Hrq. split; intros Hc; destruct rq; discriminate.
  - intros price. apply sends_bind; [|intros ?; apply sends_ret].
    unfold DodoAPI.createCheckoutSession. apply sends_bind; [|intros ?; apply sends_ret].
    apply sends_makeRequest. split; intros Hc; discriminate.
Qed.

(** ** The session of a checkout *)

(** X15.  The session that a successful checkout requests is the last
    request sent, and is a subscription.  With a trial offer it carries no
    coupon, and the trial of the offer, not that of the tier: an offer of
    zero days sends no trial at all.  Without an offer it carries the
    trial of the tier, when that is not zero.  Without a member it carries
    the email, when there is one, and no customer; with a member it
    carries no email, even when one is given. *)
Theorem checkout_session_payload :
  forall fuel p url w w',
    getPaymentLink fuel p w = (Ok url, w') ->
    exists sd rest,
      sent w' = PostCheckoutSession sd :: rest
      /\ sd_mode sd = "subscription"%string
      /\ (forall offer,
            param_offer p = Some offer -> offer_type offer = "trial"%string ->
            sd_coupon_id sd = None
            /\ sd_trial_period_days sd =
               if (offer_amount offer =? 0)%Z then None else Some (offer_amount offer))
      /\ (param_offer p = None ->
          sd_coupon_id sd = None
          /\ sd_trial_period_days sd =
             if truthyZ (tier_trialDays (param_tier p))
             then tier_trialDays (param_tier p) else None)
      /\ (param_member p = None ->
          sd_customer_id sd = None
          /\ sd_customer_email sd =
             if truthy (param_email p) then param_email p else None)
      /\ (param_member p <> None -> sd_customer_email sd = None).
Proof.
  intros fuel p url w w'. unfold getPaymentLink. cbv zeta. intros H.
  apply bind_Ok in H. destruct H as (ct & w1 & Hct & H).
  apply bind_Ok in H. destruct H as (customer & w2 & Hcust & H).
  apply bind_Ok in H. destruct H as (price & w3 & _ & H).
  apply bind_Ok in H. destruct H as (session & w4 & H & Hret).
  injection Hret as _ <-.
  unfold DodoAPI.createCheckoutSession in H.
  apply bind_Ok in H. destruct H as (j & w5 & H & Hret).
  injection Hret as _ <-.
  match type of H with
  | DodoAPI.makeRequest ?rq _ = _ => pose proof (makeRequest_sent rq w3) as Hs
  end.
  rewrite H in Hs. cbn [snd] in Hs.
  eexists. eexists. split; [exact Hs|]. split; [reflexivity|].
  cbn [sd_coupon_id sd_trial_period_days sd_customer_id sd_customer_email].
  split; [|split; [|split]].
  - intros offer Ho Ht. rewrite Ho, Ht in Hct.
    destruct (negb _) in Hct; [discriminate|]. cbn in Hct. injection Hct as <- _.
    cbn [fst snd data_coupon data_trialDays truthy].
    destruct customer; [|destruct (truthy (param_email p))]; cbn;
      destruct (offer_amount offer =? 0)%Z; split; reflexivity.
  - intros Ho. rewrite Ho in Hct. injection Hct as <- _.
    cbn [fst snd data_coupon data_trialDays truthy].
    destruct customer; [|destruct (truthy (param_email p))]; cbn;
      destruct (tier_trialDays (param_tier p)); split; reflexivity.
  - intros Hm. rewrite Hm in Hcust. injection Hcust as <- _.
    split; [reflexivity|].
    destruct (truthy (data_coupon _)); destruct (truthy (param_email p)) eqn:He; cbn;
      rewrite ?He; reflexivity.
  - intros Hm. destruct (param_member p) as [member|]; [|contradiction].
    apply bind_Ok in Hcust. destruct Hcust as (c & w6 & _ & Hret).
    injection Hret as <- _. reflexivity.
Qed.

Lemma checkout_session_payload_witness :
  exists sd rest,
    sent (snd (getPaymentLink 1 (trial_checkout 0) (offer_world None))) =
      PostCheckoutSession sd :: rest
    /\ sd_coupon_id sd = None
    /\ sd_trial_period_days sd = None
    /\ sd_customer_email sd = Some "alice@example.com"%string.
Proof.
  destruct (checkout_session_payload 1 (trial_checkout 0) "https://checkout.dodopayments.com/xxx"
              (offer_world None) (snd (getPaymentLink 1 (trial_checkout 0) (offer_world None)))
              eq_refl)
    as (sd & rest & Hs & _ & Htrial & _ & Hvisitor & _).
  exists sd, rest. split; [exact Hs|].
  destruct (Htrial (mkOffer "o2" "t1" "trial" 0) eq_refl eq_refl) as [Hc Ht].
  destruct (Hvisitor eq_refl) as [_ He].
  split; [exact Hc|]. split; [exact Ht|exact He].
Defined.

(** ** Coupons *)

Lemma getCouponForOffer_create fuel offerId w row offer :
  find (fun r => (or_id r =? offerId)%string) (OfferModel w) = Some row ->
  or_discount_type row <> "trial"%string ->
  truthy (or_dodo_coupon_id row) = false ->
  find (fun o => (dto_id o =? offerId)%string) (offersAPI w) = Some offer ->
  getCouponForOffer (S fuel) offerId w =
    (createCouponForOffer offer ;; getCouponForOffer fuel offerId) w.
Proof.
  intros Hrow Htrial Hc Hoffer. cbn [getCouponForOffer]. unfold bind at 1. unfold get at 1.
  rewrite Hrow. apply String.eqb_neq in Htrial. rewrite Htrial.
  destruct (or_dodo_coupon_id row) as [id|].
  - cbn in Hc. apply negb_false_iff in Hc. rewrite Hc.
    unfold bind at 1. unfold get at 1. rewrite Hoffer. reflexivity.
  - unfold bind at 1. unfold get at 1. rewrite Hoffer. reflexivity.
Qed.

Lemma createCouponForOffer_ok offer w status j :
  provider w (sent w) (PostCoupon (coupon_data offer)) = Response true status (Some j) ->
  createCouponForOffer offer w =
    (Ok tt, with_coupon (j_id j) (dto_id offer) (with_sent (cons (PostCoupon (coupon_data offer))) w)).
Proof.
  intros H. unfold createCouponForOffer, DodoAPI.createCoupon. cbv zeta.
  unfold bind at 1. unfold bind at 1.
  change (PostCoupon _) with (PostCoupon (coupon_data offer)).
  rewrite (makeRequest_ok _ _ _ _ H). reflexivity.
Qed.

Lemma createCouponForOffer_refused offer w status j :
  provider w (sent w) (PostCoupon (coupon_data offer)) = Response false status (Some j) ->
  createCouponForOffer offer w =
    (Throw (api_error status j),
     request_failed (PostCoupon (coupon_data offer)) (api_error status j) w).
Proof.
  intros H. unfold createCouponForOffer, DodoAPI.createCoupon. cbv zeta.
  unfold bind at 1. unfold bind at 1.
  change (PostCoupon _) with (PostCoupon (coupon_data offer)).
  rewrite (makeRequest_not_ok _ _ _ _ H). reflexivity.
Qed.

Lemma offer_found_id offerId (l : list OfferDTO) offer :
  find (fun o => (dto_id o =? offerId)%string) l = Some offer -> dto_id offer = offerId.
Proof. intros H. apply find_some in H. apply String.eqb_eq, H. Qed.

(** X16.  An offer that is no trial and holds no coupon id gets its
    coupon from one request.  When the provider accepts it, the id of the
    answer is written to the offer row and returned; when the provider
    refuses it, the error of the request is thrown and the offer row stays
    without a coupon.  The request says [percentage] for a percent offer
    with an amount other than zero; a percent offer of zero is sent as a
    [fixed_amount] without a value; any other offer is sent as a
    [fixed_amount] of its amount in its currency.  The number of months is
    sent for a repeating offer only. *)
Theorem coupon_creation :
  forall fuel offerId w offer,
    wants_coupon w offerId ->
    find (fun o => (dto_id o =? offerId)%string) (offersAPI w) = Some offer ->
    let d := coupon_data offer in
    (forall status j,
        provider w (sent w) (PostCoupon d) = Response true status (Some j) ->
        j_id j <> ""%string ->
        getCouponForOffer (S (S fuel)) offerId w =
          (Ok (Some (j_id j)), with_coupon (j_id j) offerId (with_sent (cons (PostCoupon d)) w)))
    /\ (forall status j,
          provider w (sent w) (PostCoupon d) = Response false status (Some j) ->
          getCouponForOffer (S fuel) offerId w =
            (Throw (api_error status j), request_failed (PostCoupon d) (api_error status j) w))
    /\ (dto_type offer = "percent"%string -> dto_amount offer <> 0%Z ->
        cd_discount_type d = "percentage"%string
        /\ cd_discount_value d = Some (dto_amount offer) /\ cd_currency d = None)
    /\ (dto_type offer = "percent"%string -> dto_amount offer = 0%Z ->
        cd_discount_type d = "fixed_amount"%string
        /\ cd_discount_value d = None /\ cd_currency d = None)
    /\ (dto_type offer <> "percent"%string ->
        cd_discount_type d = "fixed_amount"%string
        /\ cd_discount_value d = Some (dto_amount offer)
        /\ cd_currency d = dto_currency offer)
    /\ (dto_duration offer <> "repeating"%string -> cd_duration_in_months d = None).
Proof.
  intros fuel offerId w offer (row & Hrow & Htrial & Hc) Hoffer d. subst d.
  pose proof (offer_found_id _ _ _ Hoffer) as Hid.
  split; [|split; [|split; [|split; [|split]]]].
  - intros status j H Hne.
    rewrite (getCouponForOffer_create _ _ _ _ _ Hrow Htrial Hc Hoffer).
    unfold bind at 1. rewrite (createCouponForOffer_ok _ _ _ _ H). rewrite Hid.
    cbn [getCouponForOffer]. unfold bind at 1. unfold get at 1.
    unfold with_coupon, edit_offer_coupon, modify. cbn [snd OfferModel with_offers with_sent].
    rewrite (find_edit_offer _ _ _ _ Hrow). cbn [or_discount_type or_dodo_coupon_id].
    apply String.eqb_neq in Htrial, Hne. rewrite Htrial, Hne. reflexivity.
  - intros status j H.
    rewrite (getCouponForOffer_create _ _ _ _ _ Hrow Htrial Hc Hoffer).
    unfold bind at 1. rewrite (createCouponForOffer_refused _ _ _ _ H). reflexivity.
  - intros Hp Ha. unfold coupon_data. rewrite Hp. cbn.
    apply Z.eqb_neq in Ha. rewrite Ha. repeat split.
  - intros Hp Ha. unfold coupon_data. rewrite Hp, Ha. repeat split.
  - intros Hp. unfold coupon_data. apply String.eqb_neq in Hp. rewrite Hp. repeat split.
  - intros Hd. unfold coupon_data. apply String.eqb_neq in Hd.
    cbn [cd_duration_in_months]. rewrite Hd. reflexivity.
Qed.

Lemma coupon_creation_witness :
  getCouponForOffer 2 "o1" (offer_world None) =
    (Ok (Some "x"%string),
     with_coupon "x" "o1"
       (with_sent
          (cons (PostCoupon (mkCouponData "Spring" "percentage" (Some 20%Z) None "forever" None)))
          (offer_world None))).
Proof.
  assert (Hw : wants_coupon (offer_world None) "o1").
  { exists (mkOfferRow "o1" None "percent"). split; [reflexivity|].
    split; [discriminate|reflexivity]. }
  destruct (coupon_creation 0 "o1" (offer_world None)
              (mkOfferDTO "o1" "Spring" "percent" 20 None "forever" None) Hw eq_refl)
    as [Hok _].
  apply (Hok 200 (mkJson "x" "" "Spring" None None "" 0%Z "" None "" None)).
  - reflexivity.
  - discriminate.
Defined.

Lemma wants_coupon_blank w offerId rq :
  wants_coupon w offerId -> wants_coupon (with_coupon "" offerId (with_sent (cons rq) w)) offerId.
Proof.
  intros (row & Hrow & Htrial & _).
  exists (mkOfferRow (or_id row) (Some ""%string) (or_discount_type row)).
  split; [|split; [exact Htrial|reflexivity]].
  unfold with_coupon, edit_offer_coupon, modify. cbn [snd OfferModel with_offers with_sent].
  apply find_edit_offer, Hrow.
Qed.

(** X17.  [getCouponForOffer] calls itself after it has created a
    coupon, and reads the row again.  When the provider answers every
    coupon creation with an empty id, the row never holds a coupon: however
    many calls are allowed, the last one is reached, and every call before
    it has posted one more coupon. *)
Theorem blank_coupon_ids_never_settle :
  forall fuel offerId w offer,
    wants_coupon w offerId ->
    find (fun o => (dto_id o =? offerId)%string) (offersAPI w) = Some offer ->
    blank_coupons w ->
    exists w' new,
      getCouponForOffer fuel offerId w =
        (Throw (mkError OutOfFuel "getCouponForOffer" None), w')
      /\ sent w' = new ++ sent w
      /\ List.length new = fuel
      /\ Forall (eq (PostCoupon (coupon_data offer))) new.
Proof.
  induction fuel as [|fuel IH]; intros offerId w offer Hw Hoffer Hb.
  - exists w, []. split; [reflexivity|]. split; [reflexivity|]. split; [reflexivity|constructor].
  - pose proof Hw as (row & Hrow & Htrial & Hc).
    rewrite (getCouponForOffer_create _ _ _ _ _ Hrow Htrial Hc Hoffer).
    destruct (Hb (sent w) (coupon_data offer)) as (status & j & Hj & Hid).
    unfold bind at 1. rewrite (createCouponForOffer_ok _ _ _ _ Hj).
    rewrite Hid, (offer_found_id _ _ _ Hoffer).
    set (rq := PostCoupon (coupon_data offer)).
    destruct (IH offerId (with_coupon "" offerId (with_sent (cons rq) w)) offer)
      as (w' & new & E & Hs & Hl & Hf).
    + apply wants_coupon_blank, Hw.
    + exact Hoffer.
    + exact Hb.
    + exists w', (new ++ [rq]). split; [exact E|]. split; [|split].
      * rewrite Hs. rewrite <- app_assoc. reflexivity.
      * rewrite length_app, Hl. cbn. lia.
      * apply Forall_app. split; [exact Hf|]. constructor; [reflexivity|constructor].
Qed.

Lemma blank_coupon_ids_never_settle_witness :
  exists w' new,
    getCouponForOffer 3 "o1" blank_world =
      (Throw (mkError OutOfFuel "getCouponForOffer" None), w')
    /\ sent w' = new ++ sent blank_world
    /\ List.length new = 3
    /\ Forall (eq (PostCoupon
                     (coupon_data (mkOfferDTO "o1" "Spring" "percent" 20 None "forever" None))))
         new.
Proof.
  apply (blank_coupon_ids_never_settle 3 "o1" blank_world
           (mkOfferDTO "o1" "Spring" "percent" 20 None "forever" None)).
  - exists (mkOfferRow "o1" None "percent"). split; [reflexivity|]. split; [discriminate|reflexivity].
  - reflexivity.
  - intros hist d. exists 200, emptyJson. split; reflexivity.
Defined.

(** ** Donations *)

Lemma getProductForDonations_rows_unknown rows :
  forall w,
    (forall row, In row rows ->
       find (fun p => (prod_dodo_product_id p =? row)%string) (DodoProductModel w) = None) ->
    getProductForDonations_rows rows w = (Ok None, w).
Proof.
  induction rows as [|row rest IH]; intros w H; [reflexivity|].
  cbn [getProductForDonations_rows]. unfold bind at 1. unfold get at 1.
  rewrite (H row (or_introl eq_refl)). unfold bind at 1. unfold ret at 1.
  apply IH. intros r Hr. apply H. right. exact Hr.
Qed.

Lemma product_rows_donation w tier id :
  map prod_dodo_product_id
    (filter (fun r => option_eqb String.eqb (prod_product_id r) (Some (tier_id tier)))
       (DodoProductModel w ++ [mkProductRow None id])) =
  product_rows w tier.
Proof. unfold product_rows. rewrite filter_app. cbn. rewrite app_nil_r. reflexivity. Qed.

(** X18.  [getProductForDonations] asks the provider about a donation
    price only when the product of that price has a row in the product
    table.  When no donation price has one, no lookup is sent: the product
    is created, and stored without a tier, so that it is a candidate for no
    tier afterwards. *)
Theorem donation_product_is_created_apart :
  forall name w status j,
    no_donation_product w ->
    provider w (sent w) (PostProduct name "" "service") = Response true status (Some j) ->
    exists w',
      getProductForDonations name w = (Ok (j_id j), w')
      /\ sent w' = PostProduct name "" "service" :: sent w
      /\ DodoProductModel w' = DodoProductModel w ++ [mkProductRow None (j_id j)]
      /\ forall tier, product_rows w' tier = product_rows w tier.
Proof.
  intros name w status j Hno Hpost. unfold getProductForDonations.
  unfold bind at 1. unfold get at 1. unfold bind at 1.
  rewrite getProductForDonations_rows_unknown.
  2:{ intros row Hrow. apply in_map_iff in Hrow. destruct Hrow as (r & <- & Hr).
      apply filter_In in Hr. destruct Hr as [Hin Ht]. apply Hno; [exact Hin|].
      apply String.eqb_eq, Ht. }
  unfold createProductForDonations, DodoAPI.createProduct.
  unfold bind at 1. unfold bind at 1. unfold bind at 1.
  rewrite (makeRequest_ok _ _ _ _ Hpost).
  unfold ret at 1. unfold bind at 1. unfold modify at 1. unfold ret.
  eexists. split; [reflexivity|]. split; [reflexivity|]. split; [reflexivity|].
  intros tier. exact (product_rows_donation w tier (j_id j)).
Qed.

Lemma donation_product_is_created_apart_witness :
  exists w',
    getProductForDonations "Support Blog" donation_world = (Ok "x"%string, w')
    /\ sent w' = PostProduct "Support Blog" "" "service" :: sent donation_world
    /\ DodoProductModel w' = DodoProductModel donation_world ++ [mkProductRow None "x"]
    /\ forall tier, product_rows w' tier = product_rows donation_world tier.
Proof.
  apply (donation_product_is_created_apart "Support Blog" donation_world 200
           (mkJson "x" "" "Support Blog" None (Some true) "" 0%Z "" None "" None)).
  - intros r [<-|[]] _. reflexivity.
  - reflexivity.
Defined.

(** X19.  The nickname of the donation price is [Support] and the title
    of the site, cut after 250 UTF-16 code units: it is a prefix of that
    text, it is the whole text for a title of at most 242 code units, and
    it has 250 code units for every longer title. *)
Theorem getDonationPriceNickname_is_cut :
  forall title,
    let full := (code_units "Support " ++ title)%list in
    (exists rest, full = (getDonationPriceNickname title ++ rest)%list)
    /\ List.length (getDonationPriceNickname title) = Nat.min 250 (8 + List.length title)
    /\ (List.length title <= 242 -> getDonationPriceNickname title = full)
    /\ (242 < List.length title -> List.length (getDonationPriceNickname title) = 250).
Proof.
  intros title full. unfold getDonationPriceNickname. fold full.
  assert (Hlen : List.length full = 8 + List.length title).
  { subst full. rewrite length_app. reflexivity. }
  split; [exists (skipn 250 full); symmetry; apply firstn_skipn|].
  split; [rewrite length_firstn, Hlen; reflexivity|].
  split.
  - intros H. apply firstn_all2. rewrite Hlen. lia.
  - intros H. rewrite length_firstn, Hlen. lia.
Qed.

(** A title of 130 letters outside ASCII, of one code unit and two bytes
    each, is not cut. *)
Lemma getDonationPriceNickname_is_cut_witness :
  getDonationPriceNickname (repeat 233%N 130) =
    (code_units "Support " ++ repeat 233%N 130)%list.
Proof.
  apply (proj1 (proj2 (proj2 (getDonationPriceNickname_is_cut (repeat 233%N 130))))).
  rewrite repeat_length. lia.
Defined.

(** ** The spelling of a currency *)

(** X20.  The price of a tier is resolved and created with the currency
    in lower case: two spellings of the currency that agree in lower case
    give the same call, request for request. *)
Theorem getPriceForTierCadence_ignores_currency_case :
  forall tier currency cadence w,
    toLowerCase currency = toLowerCase (tier_currency tier) ->
    getPriceForTierCadence (with_currency currency tier) cadence w =
    getPriceForTierCadence tier cadence w.
Proof.
  intros tier currency cadence w H.
  unfold getPriceForTierCadence, createPriceForTierCadence, DodoAPI.createPrice.
  cbn [with_currency tier_currency pi_currency pi_product pi_amount pi_type pi_interval
       pi_nickname pi_active].
  rewrite H. destruct cadence; reflexivity.
Qed.

Lemma getPriceForTierCadence_ignores_currency_case_witness :
  getPriceForTierCadence (with_currency "usd" gold) Month (emptyWorld emptyProvider) =
  getPriceForTierCadence gold Month (emptyWorld emptyProvider).
Proof.
  apply (getPriceForTierCadence_ignores_currency_case gold "usd" Month).
  reflexivity.
Defined.

(** ** Catalog events *)

Lemma keeps_getProductForDonations_rows rows :
  keeps reconciliation_frame (getProductForDonations_rows rows).
Proof.
  induction rows as [|row rest IH]; cbn [getProductForDonations_rows]; unfold_api; recon_auto.
  exact IH.
Qed.

Lemma keeps_getProductForDonations name : keeps reconciliation_frame (getProductForDonations name).
Proof.
  unfold getProductForDonations, createProductForDonations.
  apply keeps_bind; [exact reconciliation_frame_trans|recon_auto|intros rows].
  apply keeps_bind; [exact reconciliation_frame_trans|apply keeps_getProductForDonations_rows|].
  intros [c|]; [recon_auto|]. unfold_api. recon_auto.
Qed.

Lemma keeps_both_cadences tier :
  keeps reconciliation_frame
    (getPriceForTierCadence tier Month ;; getPriceForTierCadence tier Year ;; ret tt).
Proof.
  apply keeps_bind;
    [exact reconciliation_frame_trans|apply keeps_getPriceForTierCadence|intros _].
  apply keeps_bind;
    [exact reconciliation_frame_trans|apply keeps_getPriceForTierCadence|intros _].
  recon_auto.
Qed.

(** X21.  The reactions to [OfferCreatedEvent], [TierCreatedEvent] and
    [TierPriceChangeEvent], and [getProductForDonations], never touch the
    members and never call the member repository or the tier service; they
    add rows at the end of the cache tables and remove none, change nothing
    of a price row but [active] and nothing of an offer row but its coupon
    id, and keep the primary keys of the prices unique.  For a tier that is
    not paid the two tier reactions do nothing at all. *)
Theorem catalog_events_keep_members_and_rows :
  forall w,
    (forall fuel offer, reconciliation_frame w (snd (on_OfferCreatedEvent fuel offer w)))
    /\ (forall tier, reconciliation_frame w (snd (on_TierCreatedEvent tier w)))
    /\ (forall tier, reconciliation_frame w (snd (on_TierPriceChangeEvent tier w)))
    /\ (forall name, reconciliation_frame w (snd (getProductForDonations name w)))
    /\ (forall tier, tier_type tier <> "paid"%string ->
          on_TierCreatedEvent tier w = (Ok tt, w)
          /\ on_TierPriceChangeEvent tier w = (Ok tt, w)).
Proof.
  intros w. split; [|split; [|split; [|split]]].
  - intros fuel offer. revert w.
    change (keeps reconciliation_frame (on_OfferCreatedEvent fuel offer)).
    unfold on_OfferCreatedEvent.
    apply keeps_bind;
      [exact reconciliation_frame_trans|apply keeps_getCouponForOffer|intros _; recon_auto].
  - intros tier. unfold on_TierCreatedEvent.
    destruct (tier_type tier =? "paid")%string;
      [apply keeps_both_cadences|apply reconciliation_frame_refl].
  - intros tier. unfold on_TierPriceChangeEvent.
    destruct (tier_type tier =? "paid")%string;
      [apply keeps_both_cadences|apply reconciliation_frame_refl].
  - intros name. apply keeps_getProductForDonations.
  - intros tier H. apply String.eqb_neq in H.
    unfold on_TierCreatedEvent, on_TierPriceChangeEvent. rewrite H. split; reflexivity.
Qed.

(** ** Tier events against the reference provider *)

Lemma set_active_own r : set_active (pr_active r) r = r.
Proof. destruct r; reflexivity. Qed.

Lemma filter_heal (q : DodoPriceRow -> bool) id a tbl :
  (forall r, In r tbl -> pr_id r = id -> forall b, q (set_active b r) = false) ->
  filter q (heal id a tbl) = filter q tbl.
Proof.
  induction tbl as [|r tbl IH]; intros H; [reflexivity|].
  cbn [heal map filter]. fold (heal id a tbl).
  rewrite IH by (intros r' Hr'; apply H; right; exact Hr').
  destruct (pr_id r =? id)%nat eqn:E; [|reflexivity].
  apply Nat.eqb_eq in E.
  rewrite (H r (or_introl eq_refl) E (Some a)).
  pose proof (H r (or_introl eq_refl) E (pr_active r)) as Hr. rewrite set_active_own in Hr.
  rewrite Hr. reflexivity.
Qed.

Lemma in_heal id a tbl r' :
  In r' (heal id a tbl) ->
  exists r, In r tbl /\ pr_id r' = pr_id r /\ forall b, set_active b r' = set_active b r.
Proof.
  unfold heal. intros H. apply in_map_iff in H. destruct H as (r & <- & Hr).
  exists r. split; [exact Hr|]. destruct (pr_id r =? id)%nat; split; reflexivity.
Qed.

Lemma filter_healed_table prices currency amount cadence (q : DodoPriceRow -> bool) rows :
  forall tbl,
    (forall r, In r tbl -> In (pr_id r) (map fst rows) -> forall b, q (set_active b r) = false) ->
    filter q (healed_table prices currency amount cadence rows tbl) = filter q tbl.
Proof.
  induction rows as [|[id pid] rest IH]; intros tbl H; [reflexivity|].
  cbn [healed_table fst snd].
  assert (Hrest : forall r, In r tbl -> In (pr_id r) (map fst rest) ->
                    forall b, q (set_active b r) = false).
  { intros r Hr Hin. apply H; [exact Hr|right; exact Hin]. }
  destruct (verdict prices currency amount cadence pid) as [x|a|]; [reflexivity| |apply IH, Hrest].
  rewrite IH.
  - apply filter_heal. intros r Hr Hid. apply H; [exact Hr|left; symmetry; exact Hid].
  - intros r' Hr' Hin b. destruct (in_heal _ _ _ _ Hr') as (r & Hr & Hid & Hset).
    rewrite Hset. apply Hrest; [exact Hr|rewrite <- Hid; exact Hin].
Qed.

Lemma selected_rows (q : DodoPriceRow -> bool) tbl r :
  NoDup (map pr_id tbl) -> In r tbl ->
  In (pr_id r) (map fst (map (fun r => (pr_id r, pr_dodo_price_id r)) (filter q tbl))) ->
  q r = true.
Proof.
  intros Hnd Hr Hin. rewrite map_map in Hin. cbn [fst] in Hin.
  apply in_map_iff in Hin. destruct Hin as (r0 & Hid & Hr0).
  apply filter_In in Hr0. destruct Hr0 as [Hin0 Hq].
  rewrite <- (NoDup_pr_id tbl r0 r Hnd Hin0 Hr Hid). exact Hq.
Qed.

Lemma other_cadence product currency amount product' currency' amount' c c' r :
  c' <> c ->
  price_row_matches product currency c amount r = true ->
  forall b, price_row_matches product' currency' c' amount' (set_active b r) = false.
Proof.
  intros Hc H b. unfold price_row_matches in *. cbn [pr_interval set_active pr_dodo_product_id
    pr_currency pr_amount pr_active pr_type].
  repeat (apply andb_true_iff in H; destruct H as [H ?]).
  destruct (pr_interval r) as [i|]; [|discriminate].
  match goal with E : option_eqb String.eqb (Some i) _ = true |- _ =>
    cbn [option_eqb] in E; apply String.eqb_eq in E; subst i end.
  assert (E : (cadence_str c =? cadence_str c')%string = false)
    by (destruct c, c'; try reflexivity; contradiction Hc; reflexivity).
  cbn [option_eqb]. rewrite E.
  rewrite !andb_false_r, ?andb_false_l. reflexivity.
Qed.

Lemma first_some_ext A B (f g : A -> option B) l :
  (forall a, f a = g a) -> first_some f l = first_some g l.
Proof.
  intros H. induction l as [|a l IH]; [reflexivity|]. cbn [first_some]. rewrite H, IH. reflexivity.
Qed.

Lemma verified_after prices currency amount cadence j row :
  price_verified (price_of_json j) currency amount cadence = false ->
  verified (prices ++ [j]) currency amount cadence row = verified prices currency amount cadence row.
Proof.
  intros H. unfold verified, verdict. rewrite lookup_json_app.
  destruct (lookup_json (snd row) prices) as [x|]; [reflexivity|].
  destruct (j_id j =? snd row)%string; [rewrite H|]; reflexivity.
Qed.

Lemma new_price_other s tier c c' :
  c' <> c ->
  price_verified (price_of_json (new_price s tier c))
    (toLowerCase (tier_currency tier)) (getPrice_of tier c') c' = false.
Proof.
  intros Hc. unfold price_verified, price_of_json, new_price.
  cbn [price_active price_currency price_unit_amount price_recurring j_active j_currency
       j_unit_amount j_recurring j_id option_eqb].
  assert (E : (cadence_str c =? cadence_str c')%string = false)
    by (destruct c, c'; try reflexivity; contradiction Hc; reflexivity).
  rewrite E, andb_false_r. reflexivity.
Qed.

Section TierEvents.

Variable init : ProviderState.

Lemma settled_product_products tier w w' :
  ps_products (remote init w') = ps_products (remote init w) ->
  DodoProductModel w' = DodoProductModel w ->
  settled_product init w' tier = settled_product init w tier.
Proof. intros S P. unfold settled_product, product_rows. rewrite S, P. reflexivity. Qed.

(** The resolution of a price when the product of the tier is settled. *)
Lemma getPriceForTierCadence_on_product tier cadence w product :
  runs_on init w ->
  NoDup (map pr_id (DodoPriceModel w)) ->
  settled_product init w tier = Some product ->
  exists x w',
    getPriceForTierCadence tier cadence w = (Ok x, w')
    /\ runs_on init w'
    /\ settled_price init w' tier cadence = Some x
    /\ ps_products (remote init w') = ps_products (remote init w)
    /\ forall c', c' <> cadence -> settled_price init w' tier c' = settled_price init w tier c'.
Proof.
  intros Hr Hnd Hp.
  destruct (getProductForTier_settled init tier w product Hr Hp) as (w1 & E1 & Hq1).
  destruct Hq1 as (R1 & S1 & C1 & P1 & T1 & O1 & A1).
  unfold getPriceForTierCadence. unfold bind at 1. rewrite E1.
  unfold bind at 1. unfold get at 1. unfold bind at 1.
  set (currency := toLowerCase (tier_currency tier)).
  set (amount := getPrice_of tier cadence).
  set (q := price_row_matches product currency cadence amount).
  set (rows := map (fun r => (pr_id r, pr_dodo_price_id r)) (filter q (DodoPriceModel w1))).
  destruct (getPriceForTierCadence_rows_ref init currency amount cadence rows w1 R1)
    as (w2 & E2 & Hq2 & T2).
  rewrite E2.
  destruct Hq2 as (R2 & S2 & C2 & P2 & O2 & A2).
  assert (Hprices : ps_prices (remote init w1) = ps_prices (remote init w)) by (rewrite S1; reflexivity).
  set (prices := ps_prices (remote init w1)) in *.
  assert (Hnd1 : NoDup (map pr_id (DodoPriceModel w1))) by (rewrite T1; exact Hnd).
  assert (Hheal : Forall2 (healed_row prices currency amount cadence)
                    (DodoPriceModel w1) (DodoPriceModel w2)).
  { rewrite T2. apply healed_table_healed; [|apply Forall2_refl_healed].
    apply rows_of_query. exact Hnd1. }
  assert (Hfv : first_verified prices currency amount cadence q (DodoPriceModel w2) =
                first_some (verified prices currency amount cadence) rows).
  { rewrite (first_verified_healed _ _ _ _ _ _ _ Hheal). reflexivity. }
  assert (Hp2 : settled_product init w2 tier = Some product).
  { rewrite (settled_product_same init tier w1 w2 S2 P2).
    rewrite (settled_product_same init tier w w1 S1 P1). exact Hp. }
  assert (Hother : forall c', c' <> cadence ->
            filter (price_query product tier c') (DodoPriceModel w2) =
            filter (price_query product tier c') (DodoPriceModel w)).
  { intros c' Hc. rewrite T2, <- T1. apply filter_healed_table.
    intros r Hin Hid b. unfold price_query.
    apply (other_cadence product currency amount _ _ _ cadence c' r Hc).
    apply (selected_rows q (DodoPriceModel w1) r Hnd1 Hin Hid). }
  destruct (first_some (verified prices currency amount cadence) rows) as [x|] eqn:Hres.
  - (* a cached price is verified *)
    exists x, w2. split; [reflexivity|]. split; [exact R2|].
    split; [unfold settled_price; rewrite Hp2, S2; exact Hfv|].
    split; [rewrite S2, S1; reflexivity|].
    intros c' Hc. unfold settled_price. rewrite Hp2, Hp, S2, S1.
    unfold first_verified. rewrite (Hother c' Hc). reflexivity.
  - (* no candidate survives: a price is created *)
    unfold createPriceForTierCadence. unfold bind at 1. unfold bind at 1.
    destruct (getProductForTier_settled init tier w2 product R2 Hp2) as (w3 & E3 & Hq3).
    rewrite E3. destruct Hq3 as (R3 & S3 & C3 & P3 & T3 & O3 & A3).
    unfold bind at 1. unfold DodoAPI.createPrice. unfold bind at 1.
    destruct (post_created init
                (PostPrice (mkPriceData product (toLowerCase (tier_currency tier))
                              (getPrice_of tier cadence) (Some (cadence_str cadence))
                              (match cadence with Month => "Monthly" | Year => "Yearly" end)
                              true))
                w3 (new_price (remote init w3) tier cadence)
                (add_price (remote init w3) (new_price (remote init w3) tier cadence)) R3)
      as (w4 & E4 & R4 & S4 & C4 & P4 & T4 & O4 & A4).
    { reflexivity. }
    cbn [pi_product pi_currency pi_amount pi_type pi_interval pi_nickname pi_active].
    change ("recurring" =? "recurring")%string with true. cbv iota.
    rewrite E4. unfold ret at 1. unfold bind at 1. unfold modify at 1. unfold ret at 1.
    cbn [price_id price_active price_nickname price_currency price_unit_amount
         new_price j_id j_active j_nickname j_currency j_unit_amount j_recurring].
    match goal with |- exists x w', ret _ ?W = _ /\ _ => set (w5 := W) end.
    assert (S5 : remote init w5 = add_price (remote init w) (new_price (remote init w) tier cadence)).
    { change (remote init w5) with (remote init w4). rewrite S4, S3, S2, S1. reflexivity. }
    assert (P5 : DodoProductModel w5 = DodoProductModel w).
    { change (DodoProductModel w5) with (DodoProductModel w4). rewrite P4, P3, P2, P1. reflexivity. }
    assert (Hp5 : settled_product init w5 tier = Some product).
    { rewrite <- Hp. apply settled_product_products; [rewrite S5; reflexivity|exact P5]. }
    assert (T5 : DodoPriceModel w5 =
                 DodoPriceModel w2 ++
                   [mkPriceRow (fresh_row_id (DodoPriceModel w2))
                      (fresh_id (ps_ids (remote init w))) product (Some true)
                      (Some (match cadence with Month => "Monthly" | Year => "Yearly" end))
                      currency amount "recurring" (Some (cadence_str cadence))]).
    { unfold w5. cbn [DodoPriceModel with_prices]. rewrite T4, T3, S3, S2, S1. reflexivity. }
    assert (Hq : q (mkPriceRow (fresh_row_id (DodoPriceModel w2))
                      (fresh_id (ps_ids (remote init w))) product (Some true)
                      (Some (match cadence with Month => "Monthly" | Year => "Yearly" end))
                      currency amount "recurring" (Some (cadence_str cadence))) = true).
    { unfold q, price_row_matches. cbn.
      rewrite !String.eqb_refl, Z.eqb_refl. reflexivity. }
    eexists. exists w5. split; [reflexivity|]. split; [exact R4|].
    split; [|split].
    + unfold settled_price. rewrite Hp5, S5, T5.
      cbn [add_price ps_prices]. rewrite <- Hprices. fold prices.
      unfold first_verified, price_query. fold currency. fold amount. fold q.
      rewrite filter_app, map_app. cbn [filter]. rewrite Hq. cbn [map pr_id pr_dodo_price_id].
      rewrite <- S1, S3, S2.
      apply (first_verified_after prices currency amount cadence _
               (new_price (remote init w1) tier cadence)).
      * eapply lookup_fresh_none; [apply ps_prices_ids|reflexivity].
      * apply new_price_verified.
      * rewrite <- Hfv. reflexivity.
    + rewrite S5. reflexivity.
    + intros c' Hc. unfold settled_price. rewrite Hp5, Hp, S5, T5.
      cbn [add_price ps_prices]. unfold first_verified.
      rewrite filter_app.
      match goal with
      | |- context [filter ?f [?row]] =>
          assert (Hnew : f row = false)
            by exact (other_cadence product currency amount product
                        (toLowerCase (tier_currency tier)) (getPrice_of tier c') cadence c' row
                        Hc Hq (Some true))
      end.
      cbn [filter]. rewrite Hnew, app_nil_r. rewrite (Hother c' Hc).
      apply first_some_ext. intros row. apply verified_after, new_price_other, Hc.
Qed.

Lemma both_cadences_settle tier w :
  runs_on init w ->
  NoDup (map pr_id (DodoPriceModel w)) ->
  exists w' m y,
    (getPriceForTierCadence tier Month ;; getPriceForTierCadence tier Year ;; ret tt) w =
      (Ok tt, w')
    /\ runs_on init w'
    /\ settled_price init w' tier Month = Some m
    /\ settled_price init w' tier Year = Some y
    /\ one_more (ps_products (remote init w)) (ps_products (remote init w')).
Proof.
  intros Hr Hnd.
  destruct (getPriceForTierCadence_ref init tier Month w Hr Hnd) as (m & w1 & E1 & Hstep & Hm).
  destruct Hstep as (R1 & _ & _ & Hprod & _).
  pose proof (keeps_getPriceForTierCadence tier Month w) as Hframe.
  rewrite E1 in Hframe. cbn [snd] in Hframe.
  destruct Hframe as (_ & _ & _ & _ & _ & _ & _ & _ & _ & Hnd1). specialize (Hnd1 Hnd).
  pose proof Hm as Hm'. unfold settled_price in Hm'.
  destruct (settled_product init w1 tier) as [product|] eqn:Hp; [|discriminate].
  destruct (getPriceForTierCadence_on_product tier Year w1 product R1 Hnd1 Hp)
    as (y & w2 & E2 & R2 & Hy & Hprod2 & Hkeep).
  exists w2, m, y. unfold bind at 1. rewrite E1. unfold bind at 1. rewrite E2.
  split; [reflexivity|]. split; [exact R2|].
  split; [rewrite (Hkeep Month ltac:(discriminate)); exact Hm|].
  split; [exact Hy|]. rewrite Hprod2. exact Hprod.
Qed.

End TierEvents.

(** X22.  Against the reference provider and a price table with unique
    primary keys, the reaction to [TierCreatedEvent] and to
    [TierPriceChangeEvent] for a paid tier returns normally and leaves both
    prices of the tier settled: the monthly and the yearly price resolve
    afterwards without anything being created, and the two share one
    product, of which at most one was created. *)
Theorem tier_events_settle_both_cadences :
  forall init tier w,
    runs_on init w ->
    NoDup (map pr_id (DodoPriceModel w)) ->
    tier_type tier = "paid"%string ->
    exists w',
      on_TierCreatedEvent tier w = (Ok tt, w')
      /\ on_TierPriceChangeEvent tier w = (Ok tt, w')
      /\ one_more (ps_products (remote init w)) (ps_products (remote init w'))
      /\ forall cadence, exists x w'',
           getPriceForTierCadence tier cadence w' = (Ok x, w'')
           /\ remote init w'' = remote init w'.
Proof.
  intros init tier w Hr Hnd Ht.
  destruct (both_cadences_settle init tier w Hr Hnd) as (w' & m & y & E & R & Hm & Hy & Hp).
  exists w'. unfold on_TierCreatedEvent, on_TierPriceChangeEvent. rewrite Ht.
  change ("paid" =? "paid")%string with true. cbv iota.
  split; [exact E|]. split; [exact E|]. split; [exact Hp|].
  intros [|].
  - destruct (getPriceForTierCadence_settled init tier Month w' m R Hm) as (w'' & E' & Hq).
    exists m, w''. split; [exact E'|]. apply Hq.
  - destruct (getPriceForTierCadence_settled init tier Year w' y R Hy) as (w'' & E' & Hq).
    exists y, w''. split; [exact E'|]. apply Hq.
Qed.

Lemma tier_events_settle_both_cadences_witness :
  exists w',
    on_TierCreatedEvent gold (emptyWorld emptyProvider) = (Ok tt, w')
    /\ on_TierPriceChangeEvent gold (emptyWorld emptyProvider) = (Ok tt, w')
    /\ one_more (ps_products (remote emptyProvider (emptyWorld emptyProvider)))
         (ps_products (remote emptyProvider w'))
    /\ forall cadence, exists x w'',
         getPriceForTierCadence gold cadence w' = (Ok x, w'')
         /\ remote emptyProvider w'' = remote emptyProvider w'.
Proof.
  apply (tier_events_settle_both_cadences emptyProvider gold (emptyWorld emptyProvider)).
  - reflexivity.
  - apply NoDup_nil.
  - reflexivity.
Defined.

(** ** The answers of the endpoint *)

(** X23.  [handleWebhook] answers 400, leaves the member store as it was
    and does not call the member repository, when the signature is not the
    HMAC of the payload and when the payload does not parse.  It answers
    200 to a signed event that carries its [data.object], and to a signed
    event of a type that is not recognised, whatever the fault schedule
    makes of the calls of the handler. *)
Theorem handleWebhook_responses :
  forall w secret req,
    (signature_valid w secret req = false -> rejected w (handleWebhook secret req w))
    /\ (signature_valid w secret req = true ->
        parsed_event w req = None -> rejected w (handleWebhook secret req w))
    /\ (forall event,
          signature_valid w secret req = true ->
          parsed_event w req = Some event ->
          ev_data_object event <> None \/ recognised (ev_type event) = false ->
          responds 200 (handleWebhook secret req w)).
Proof.
  intros w secret req. split; [|split].
  - apply handleWebhook_invalid_signature.
  - intros Hv Hp. rewrite (handleWebhook_valid _ _ _ Hv), Hp.
    repeat split. eexists; reflexivity.
  - intros event Hv Hp [Ho|Hr]; rewrite (handleWebhook_valid _ _ _ Hv), Hp.
    + destruct (ev_data_object event) as [o|] eqn:E; [|congruence].
      destruct (routeWebhookEvent_total event o
                  (with_log (cons (Info, ("Processing Dodo webhook: " ++ show (ev_type event))%string)) w) E)
        as [w' Hw'].
      rewrite Hw'. eexists; reflexivity.
    + rewrite routeWebhookEvent_unrecognised by assumption. eexists; reflexivity.
Qed.

Lemma handleWebhook_responses_witness :
  rejected (member_world alice [true; true])
    (handleWebhook "whsec" (mkRequest (Some "forged"%string) (Some "{subscription.created cus_1}"%string))
       (member_world alice [true; true]))
  /\ responds 200
       (handleWebhook "whsec" (signed "{subscription.created cus_1}")
          (member_world alice [true; true])).
Proof.
  split.
  - apply (proj1 (handleWebhook_responses (member_world alice [true; true]) "whsec"
                    (mkRequest (Some "forged"%string)
                       (Some "{subscription.created cus_1}"%string)))).
    reflexivity.
  - apply (proj2 (proj2 (handleWebhook_responses (member_world alice [true; true])
                           "whsec" (signed "{subscription.created cus_1}")))
             created_event); [reflexivity | reflexivity | left; discriminate].
Defined.

